(** * Applicant tracker: compression, decompression, shortlisting, evaluation

    A shallow embedding of [json_automation.py], [shortlist_automation.py],
    [llm_automation.py] and [main.py].

    Modelling conventions.
    - Text is a byte string ([string]); [str.lower] is ASCII case folding and
      [str.strip] removes ASCII white space.
    - A table of the store is the list of its records in the order in which
      the store returns them.  A record is an identifier and its fields; a
      field that the store does not return ([fields.get(k)] is [None]) is
      [None].  The store is reliable: a call fails only for a reason the
      model can see (an identifier that is not in the table).
    - A snapshot that parses is a JSON value of any shape: an object or
      not, each section an object or not, the experience a list or not, each
      item of it an object or not.  Where the code reads a value of the
      wrong kind the Python raises [AttributeError] or [TypeError], and so
      does the model.  The fields of a section are typed as the compressor
      writes them: a string, a number or a list of tags, or [null].
    - JSON numbers are rationals ([Q]); the experience total is a binary64
      float ([PrimFloat]), as the Python computes it.
    - The library calls the code relies on ([json.dumps], [json.loads],
      [datetime.strptime], [datetime.fromisoformat], [int], [time.sleep],
      number formatting and the iteration order of a [set]) are the
      operations of a class, [PyLib]; a function that needs one takes the
      instance.
    - A function returns its result together with the store it leaves and
      the list of events it produced ([logger] records at level INFO and
      above, calls to the language model, sleeps).  A log record carries the
      template of its message: the text of the f-string as it stands in the
      source. *)

From Stdlib Require Import ZArith QArith String Ascii List Bool Lia Floats.
From stdpp Require Import base option list countable strings gmap.

Local Open Scope string_scope.
Local Open Scope list_scope.

(** ** Python values and built-ins *)

Module Py.

(** What a function hands back to its caller: [True], [False], the [None] of
    a function that ends without [return], or an exception nothing caught. *)
Inductive result : Type :=
| RTrue
| RFalse
| RNone
| Raised (exn : string).

(** [not r] for a result that was returned. *)
Definition falsy (r : result) : bool :=
  match r with
  | RTrue => false
  | RFalse | RNone => true
  | Raised _ => false
  end.

(** [bool(s)] for a string. *)
Definition truthy (s : string) : bool :=
  match s with
  | EmptyString => false
  | String _ _ => true
  end.

(** [bool(o)] for a value that is [None] or a string. *)
Definition truthy_opt (o : option string) : bool :=
  match o with
  | Some s => truthy s
  | None => false
  end.

Definition lower_ascii (c : ascii) : ascii :=
  let n := nat_of_ascii c in
  if (65 <=? n)%nat && (n <=? 90)%nat then ascii_of_nat (n + 32) else c.

(** [s.lower()] *)
Fixpoint lower (s : string) : string :=
  match s with
  | EmptyString => EmptyString
  | String c s' => String (lower_ascii c) (lower s')
  end.

(** [s.startswith(p)] *)
Fixpoint startswith (p s : string) : bool :=
  match p, s with
  | EmptyString, _ => true
  | String _ _, EmptyString => false
  | String a p', String b s' => if Ascii.eqb a b then startswith p' s' else false
  end.

(** [sub in s] *)
Fixpoint contains (sub s : string) : bool :=
  startswith sub s ||
  match s with
  | EmptyString => false
  | String _ s' => contains sub s'
  end.

(** [sep.join(parts)] *)
Fixpoint join (sep : string) (parts : list string) : string :=
  match parts with
  | [] => ""
  | [p] => p
  | p :: rest => p +:+ sep +:+ join sep rest
  end.

(** White space as [str.strip] sees it among the ASCII characters. *)
Definition is_space (c : ascii) : bool :=
  let n := nat_of_ascii c in
  ((9 <=? n)%nat && (n <=? 13)%nat) || ((28 <=? n)%nat && (n <=? 32)%nat).

Fixpoint lstrip (s : string) : string :=
  match s with
  | EmptyString => EmptyString
  | String c s' => if is_space c then lstrip s' else s
  end.

Fixpoint rstrip (s : string) : string :=
  match s with
  | EmptyString => EmptyString
  | String c s' =>
      match rstrip s' with
      | EmptyString => if is_space c then EmptyString else String c EmptyString
      | r => String c r
      end
  end.

(** [s.strip()] *)
Definition strip (s : string) : string := rstrip (lstrip s).

(** [s.split('\n')] *)
Fixpoint split_lines (s : string) : list string :=
  match s with
  | EmptyString => [EmptyString]
  | String c s' =>
      if Ascii.eqb c "010"%char then EmptyString :: split_lines s'
      else match split_lines s' with
           | [] => [String c EmptyString]
           | l :: ls => String c l :: ls
           end
  end.

(** [s[n:]] *)
Fixpoint drop (n : nat) (s : string) : string :=
  match n, s with
  | O, _ => s
  | S _, EmptyString => EmptyString
  | S n', String _ s' => drop n' s'
  end.

(** [s.replace('Z', '+00:00')] *)
Fixpoint replace_Z (s : string) : string :=
  match s with
  | EmptyString => EmptyString
  | String c s' =>
      if Ascii.eqb c "Z"%char then "+00:00" +:+ replace_Z s'
      else String c (replace_Z s')
  end.

(** A [datetime]: aware of its offset or naive, and its instant in
    microseconds (for an aware one, of UTC). *)
Record datetime : Type := Datetime { aware : bool; micros : Z }.

(** [datetime.min], a naive datetime. *)
Definition datetime_min : datetime := Datetime false 0.

(** [a >= b]; [None] is the [TypeError] of comparing a naive datetime with an
    aware one. *)
Definition datetime_ge (a b : datetime) : option bool :=
  if Bool.eqb (aware a) (aware b) then Some (micros b <=? micros a)%Z else None.

End Py.

(** ** The events a run produces *)

Inductive level : Type := INFO | WARNING | ERROR | CRITICAL.

Inductive event : Type :=
| Log (lv : level) (template : string)
| LlmCall (attempt : nat)
| Sleep (seconds : Q).

(** ** The table store *)

Module Airtable.

(** The store's internal record identifier. *)
Definition rid : Type := string.

(** An item of a link field as a client may read it: the identifier itself,
    an object (with or without an ["id"] key), or something else. *)
Inductive link_item : Type :=
| LinkStr (i : rid)
| LinkDict (i : option rid)
| LinkOther.

Definition link_item_id (it : link_item) : option rid :=
  match it with
  | LinkStr i => Some i
  | LinkDict o => o
  | LinkOther => None
  end.

(** A link field: absent, or a list of items. *)
Definition link_field : Type := option (list link_item).

Definition linked_ids (v : link_field) : list rid :=
  match v with
  | Some items => omap link_item_id items
  | None => []
  end.

Record row (F : Type) : Type := Row { id : rid; fields : F }.
Arguments Row {F} _ _.
Arguments id {F} _.
Arguments fields {F} _.

Definition table (F : Type) : Type := list (row F).

(** [table.get(i)]: the record, or [None] for the store's not-found error. *)
Definition get {F} (t : table F) (i : rid) : option (row F) :=
  List.find (fun r => String.eqb (id r) i) t.

(** [table.all(formula=...)]: the records that satisfy the formula, in the
    store's order. *)
Definition all {F} (formula : row F -> bool) (t : table F) : list (row F) :=
  List.filter formula t.

(** The formula [OR(RECORD_ID()='i1', RECORD_ID()='i2', ...)]. *)
Definition record_id_in {F} (ids : list rid) (r : row F) : bool :=
  existsb (String.eqb (id r)) ids.

(** [table.update(i, patch)]: the record [i] with [patch] applied to its
    fields; [None] for the store's not-found error. *)
Fixpoint update {F} (i : rid) (patch : F -> F) (t : table F) : option (table F) :=
  match t with
  | [] => None
  | r :: t' =>
      if String.eqb (id r) i then Some (Row i (patch (fields r)) :: t')
      else match update i patch t' with
           | Some t'' => Some (r :: t'')
           | None => None
           end
  end.

Fixpoint longest (ids : list rid) : nat :=
  match ids with
  | [] => 0
  | i :: rest => Nat.max (String.length i) (longest rest)
  end.

Fixpoint letters (n : nat) : string :=
  match n with
  | O => EmptyString
  | S n' => String "X"%char (letters n')
  end.

(** The identifier the store gives to a new record: one that no record of
    the table has. *)
Definition new_id (used : list rid) : rid := "rec" +:+ letters (S (longest used)).

(** [table.create(fs)]: the new record and the table with it. *)
Definition create {F} (fs : F) (t : table F) : row F * table F :=
  let r := Row (new_id (List.map id t)) fs in (r, t ++ [r]).

(** [table.batch_delete(ids)]: the table without these records; [None] for
    the store's error when one of them is not there. *)
Definition batch_delete {F} (ids : list rid) (t : table F) : option (table F) :=
  if forallb (fun i => match get t i with Some _ => true | None => false end) ids
  then Some (List.filter (fun r => negb (existsb (String.eqb (id r)) ids)) t)
  else None.

(** *** The five tables and their fields *)

Record applicant_fields : Type := ApplicantFields {
  Applicant_ID : option string;
  Personal_Details : link_field;
  Work_Experience : link_field;
  Salary_Preferences : link_field;
  Compressed_JSON : option string;
  Shortlist_Status : option string;
  LLM_Summary : option string;
  LLM_Score : option Z;
  LLM_Follow_Ups : option string;
  LLM_Last_Evaluated : option string;
  Last_Modified : option string
}.

Record personal_fields : Type := PersonalFields {
  Full_Name : option string;
  Email : option string;
  Location : option string;
  LinkedIn : option string;
  Personal_Applicant : link_field
}.

Record work_fields : Type := WorkFields {
  Company : option string;
  Title : option string;
  Start_Date : option string;
  End_Date : option string;
  Technologies : option (list string);
  Work_Applicant : link_field
}.

Record salary_fields : Type := SalaryFields {
  Preferred_Rate : option Q;
  Minimum_Rate : option Q;
  Currency : option string;
  Availability : option Q;
  Salary_Applicant : link_field
}.

Record lead_fields : Type := LeadFields {
  Applicant_ref : link_field;
  Lead_Compressed_JSON : option string;
  Score_Reason : option string
}.

Record store : Type := Store {
  applicants_table : table applicant_fields;
  personal_details_table : table personal_fields;
  work_experience_table : table work_fields;
  salary_preferences_table : table salary_fields;
  shortlisted_leads_table : table lead_fields
}.

(** The formula [{Applicant ID} = 'text']. *)
Definition applicant_id_is (text : string) (r : row applicant_fields) : bool :=
  match Applicant_ID (fields r) with
  | Some v => String.eqb v text
  | None => false
  end.

(** The formula [{Applicant_ref} = 'text']: a link field reads in a formula
    as the primary fields ([Applicant ID]) of the records it links, joined
    by a comma and a space. *)
Definition applicant_ref_is (applicants : table applicant_fields) (text : string)
    (r : row lead_fields) : bool :=
  let primary i :=
    match get applicants i with
    | Some a => from_option (fun v => v) "" (Applicant_ID (fields a))
    | None => ""
    end in
  String.eqb (Py.join ", " (List.map primary (linked_ids (Applicant_ref (fields r))))) text.

End Airtable.

Module Store.
Import Airtable.

(** *** Writing one table or one field back *)

Definition with_applicants (t : table applicant_fields) (s : store) : store :=
  Store t (personal_details_table s) (work_experience_table s)
        (salary_preferences_table s) (shortlisted_leads_table s).

Definition with_personal (t : table personal_fields) (s : store) : store :=
  Store (applicants_table s) t (work_experience_table s)
        (salary_preferences_table s) (shortlisted_leads_table s).

Definition with_work (t : table work_fields) (s : store) : store :=
  Store (applicants_table s) (personal_details_table s) t
        (salary_preferences_table s) (shortlisted_leads_table s).

Definition with_salary (t : table salary_fields) (s : store) : store :=
  Store (applicants_table s) (personal_details_table s) (work_experience_table s)
        t (shortlisted_leads_table s).

Definition with_leads (t : table lead_fields) (s : store) : store :=
  Store (applicants_table s) (personal_details_table s) (work_experience_table s)
        (salary_preferences_table s) t.

(** A dictionary of fields given to [update] or [create] is a record of the
    table's fields in which a key that the dictionary lacks is [None]. *)
Definition keep {A} (new old : option A) : option A :=
  match new with
  | Some v => Some v
  | None => old
  end.

(** [update] leaves the fields that the dictionary does not name. *)
Definition patch_applicant (d f : applicant_fields) : applicant_fields :=
  ApplicantFields
    (keep (Applicant_ID d) (Applicant_ID f))
    (keep (Personal_Details d) (Personal_Details f))
    (keep (Work_Experience d) (Work_Experience f))
    (keep (Salary_Preferences d) (Salary_Preferences f))
    (keep (Compressed_JSON d) (Compressed_JSON f))
    (keep (Shortlist_Status d) (Shortlist_Status f))
    (keep (LLM_Summary d) (LLM_Summary f))
    (keep (LLM_Score d) (LLM_Score f))
    (keep (LLM_Follow_Ups d) (LLM_Follow_Ups f))
    (keep (LLM_Last_Evaluated d) (LLM_Last_Evaluated f))
    (keep (Last_Modified d) (Last_Modified f)).

Definition patch_personal (d f : personal_fields) : personal_fields :=
  PersonalFields
    (keep (Full_Name d) (Full_Name f))
    (keep (Email d) (Email f))
    (keep (Location d) (Location f))
    (keep (LinkedIn d) (LinkedIn f))
    (keep (Personal_Applicant d) (Personal_Applicant f)).

Definition patch_work (d f : work_fields) : work_fields :=
  WorkFields
    (keep (Company d) (Company f))
    (keep (Title d) (Title f))
    (keep (Start_Date d) (Start_Date f))
    (keep (End_Date d) (End_Date f))
    (keep (Technologies d) (Technologies f))
    (keep (Work_Applicant d) (Work_Applicant f)).

Definition patch_salary (d f : salary_fields) : salary_fields :=
  SalaryFields
    (keep (Preferred_Rate d) (Preferred_Rate f))
    (keep (Minimum_Rate d) (Minimum_Rate f))
    (keep (Currency d) (Currency f))
    (keep (Availability d) (Availability f))
    (keep (Salary_Applicant d) (Salary_Applicant f)).

Definition patch_lead (d f : lead_fields) : lead_fields :=
  LeadFields
    (keep (Applicant_ref d) (Applicant_ref f))
    (keep (Lead_Compressed_JSON d) (Lead_Compressed_JSON f))
    (keep (Score_Reason d) (Score_Reason f)).

(** The dictionary with no key. *)
Definition no_applicant_fields : applicant_fields :=
  ApplicantFields None None None None None None None None None None None.

(** *** Linked records

    A link between a child table and [Applicants] is one relation that the
    store shows from both sides: the child's [Applicant ID] field and the
    applicant's field named after the child table.  Writing the child's side
    adds the child to the applicant's side, and deleting a record removes
    the links to it. *)

Inductive child_table : Type := PersonalDetails | WorkExperience | SalaryPreferences.

Definition add_link (child : rid) (v : link_field) : link_field :=
  if existsb (String.eqb child) (linked_ids v) then v
  else Some (from_option (fun l => l) [] v ++ [LinkStr child]).

Definition remove_links (ids : list rid) (v : link_field) : link_field :=
  match v with
  | Some items =>
      Some (List.filter
              (fun it => match link_item_id it with
                         | Some i => negb (existsb (String.eqb i) ids)
                         | None => true
                         end) items)
  | None => None
  end.

(** The applicant's side of the link with child table [c]. *)
Definition applicant_side (c : child_table) (change : link_field -> link_field)
    (f : applicant_fields) : applicant_fields :=
  ApplicantFields
    (Applicant_ID f)
    (match c with PersonalDetails => change (Personal_Details f) | _ => Personal_Details f end)
    (match c with WorkExperience => change (Work_Experience f) | _ => Work_Experience f end)
    (match c with SalaryPreferences => change (Salary_Preferences f) | _ => Salary_Preferences f end)
    (Compressed_JSON f) (Shortlist_Status f) (LLM_Summary f) (LLM_Score f)
    (LLM_Follow_Ups f) (LLM_Last_Evaluated f) (Last_Modified f).

(** The child's side: [child_table.update(child, {"Applicant ID": v})]. *)
Definition child_side (c : child_table) (child : rid) (v : link_field) (s : store)
    : option store :=
  match c with
  | PersonalDetails =>
      match update child (patch_personal (PersonalFields None None None None v))
                   (personal_details_table s) with
      | Some t => Some (with_personal t s)
      | None => None
      end
  | WorkExperience =>
      match update child (patch_work (WorkFields None None None None None v))
                   (work_experience_table s) with
      | Some t => Some (with_work t s)
      | None => None
      end
  | SalaryPreferences =>
      match update child (patch_salary (SalaryFields None None None None v))
                   (salary_preferences_table s) with
      | Some t => Some (with_salary t s)
      | None => None
      end
  end.

(** [child_table.update(child, {"Applicant ID": [{"id": applicant}]})]:
    both sides of the link; [None] when either record is not there. *)
Definition link (c : child_table) (child applicant : rid) (s : store) : option store :=
  match child_side c child (Some [LinkStr applicant]) s with
  | Some s1 =>
      match update applicant (applicant_side c (add_link child)) (applicants_table s1) with
      | Some t => Some (with_applicants t s1)
      | None => None
      end
  | None => None
  end.

(** [work_experience_table.batch_delete(ids)]: the records go, and so do the
    links to them. *)
Definition delete_work_experience (ids : list rid) (s : store) : option store :=
  match batch_delete ids (work_experience_table s) with
  | Some t =>
      Some (with_applicants
              (List.map (fun a => Row (id a) (applicant_side WorkExperience (remove_links ids) (fields a)))
                        (applicants_table s))
              (with_work t s))
  | None => None
  end.

End Store.

(** ** The compressed snapshot *)

Module Snapshot.

(** The ["personal"] object. *)
Record personal : Type := Personal {
  name : option string;
  email : option string;
  location : option string;
  linkedin : option string
}.

(** An item of the ["experience"] array. *)
Record experience : Type := Experience {
  company : option string;
  title : option string;
  start_date : option string;
  end_date : option string;
  technologies : option (list string)
}.

(** The ["salary"] object. *)
Record salary : Type := Salary {
  preferred_rate : option Q;
  minimum_rate : option Q;
  currency : option string;
  availability_hrs_wk : option Q
}.

(** The document as the compressor writes it: an object with its three
    sections.  A section that is [{}] is [None]; an object with at least one
    key is [Some], with [None] for each key that is missing or [null]. *)
Record t : Type := Doc {
  personal_section : option personal;
  experience_section : list experience;
  salary_section : option salary
}.

(** *** What [json.loads] may return

    A value where the code expects an object, as [if value:] and
    [value.get(key)] see it.  [Object fields] is an object, [fields] being
    [None] for [{}] (a key that is missing reads as [{}], the default of
    [data.get]); [Other truth] is [null], a list, a text, a number or a
    boolean, [truth] being its [bool(value)]. *)
Inductive part (A : Type) : Type :=
| Object (fields : option A)
| Other (truth : bool).
Arguments Object {A} _.
Arguments Other {A} _.

(** The value under ["experience"] as [for item in value] sees it: the
    items in turn, [None] for an item that is not an object (the keys of an
    object and the characters of a text are such items); or a value that
    does not iterate ([null], a number, a boolean).  A key that is missing
    reads as [[]]. *)
Inductive entries : Type :=
| Items (items : list (option experience))
| NotIterable.

(** The value that [json.loads] returns: an object, or anything else. *)
Inductive json : Type :=
| Dict (personal : part personal) (experience : entries) (salary : part salary)
| NotADict.

(** The value that a document of the compressor reads as. *)
Definition document (d : t) : json :=
  Dict (Object (personal_section d)) (Items (List.map Some (experience_section d)))
       (Object (salary_section d)).

(** The fields that [value.get] reads, for a value that [if value:] lets
    through or that is an object. *)
Definition fields_of {A} (p : part A) : option A :=
  match p with
  | Object fields => fields
  | Other _ => None
  end.

(** The items, when each of them is an object. *)
Fixpoint objects (items : list (option experience)) : option (list experience) :=
  match items with
  | [] => Some []
  | Some e :: rest =>
      match objects rest with
      | Some es => Some (e :: es)
      | None => None
      end
  | None :: _ => None
  end.

(** The items before the first that is not an object. *)
Fixpoint leading (items : list (option experience)) : list experience :=
  match items with
  | Some e :: rest => e :: leading rest
  | _ => []
  end.

End Snapshot.

(** ** The library *)

Class PyLib : Type := {
  (** [json.dumps(compressed_data, indent=2)] *)
  json_dumps : Snapshot.t -> string;
  (** [json.loads(text)]; [None] is [JSONDecodeError] *)
  json_loads : string -> option Snapshot.json;
  (** [datetime.strptime(text, "%Y-%m-%d")] as a day number; [None] is
      [ValueError] *)
  strptime : string -> option Z;
  (** [datetime.fromisoformat(text)]; [None] is [ValueError] *)
  fromisoformat : string -> option Py.datetime;
  (** [int(text)]; [None] is [ValueError] *)
  int_of_str : string -> option Z;
  (** [time.sleep(seconds)]: [None] when it returns, or the exception it
      raises ([ValueError] for a length that is negative) *)
  time_sleep : Q -> option string;
  (** a number in an f-string: [f"{x}"] *)
  format_number : Q -> string;
  (** [f"{x:.1f}"] *)
  format_years : float -> string;
  (** the order in which [for k in APPROVED_LOCATIONS] visits the set built
      from these elements *)
  set_order : list string -> list string
}.

(** ** json_automation.py *)

Module JsonAutomation.
Import Airtable Store.

Definition get_first_linked_record_id (linked_field_value : link_field) : option rid :=
  match linked_field_value with
  | Some (first_item :: _) =>
      match first_item with
      | LinkDict (Some i) => Some i
      | LinkDict None => None
      | LinkStr i => Some i
      | LinkOther => None
      end
  | Some [] => None
  | None => None
  end.

Definition get_all_linked_record_ids (linked_field_value : link_field) : list rid :=
  match linked_field_value with
  | Some items =>
      omap (fun item =>
              match item with
              | LinkDict (Some i) => Some i
              | LinkDict None => None
              | LinkStr i => Some i
              | LinkOther => None
              end) items
  | None => []
  end.

(** [{rec['id']: rec for rec in records}]: a later record replaces an earlier
    one with the same key. *)
Definition records_by_id {F} (records : list (row F)) : gmap rid (row F) :=
  foldl (fun m rec => <[id rec := rec]> m) ∅ records.

Section Compressor.
Context {py : PyLib}.

(** Lines 77-95: the ["personal"] section. *)
Definition compress_personal (applicant_record : row applicant_fields) (s : store)
    : option Snapshot.personal * list event :=
  let personal_record_id :=
    get_first_linked_record_id (Personal_Details (fields applicant_record)) in
  match personal_record_id with
  | Some i =>
      if Py.truthy i then
        match get (personal_details_table s) i with
        | Some personal_record =>
            let fields := fields personal_record in
            (Some (Snapshot.Personal (Full_Name fields) (Email fields)
                                     (Location fields) (LinkedIn fields)), [])
        | None =>
            (None, [Log ERROR "Error fetching Personal Details for ID {personal_record_id}: {e}"])
        end
      else (None, [Log WARNING "No Personal Details linked for Applicant ID {applicant_id_text}."])
  | None => (None, [Log WARNING "No Personal Details linked for Applicant ID {applicant_id_text}."])
  end.

(** Lines 108-114: what a Work Experience record gives to the array. *)
Definition experience_of (work_record : row work_fields) : Snapshot.experience :=
  let fields := fields work_record in
  Snapshot.Experience (Company fields) (Title fields) (Start_Date fields)
                      (End_Date fields)
                      (Some (from_option (fun l => l) [] (Technologies fields))).

(** Lines 96-122: the ["experience"] section, one item per linked
    identifier that the batched lookup found, in the order of the link
    field. *)
Definition compress_experience (applicant_record : row applicant_fields) (s : store)
    : list Snapshot.experience * list event :=
  let work_experience_linked_ids :=
    get_all_linked_record_ids (Work_Experience (fields applicant_record)) in
  match work_experience_linked_ids with
  | [] => ([], [Log WARNING "No Work Experience linked for Applicant ID {applicant_id_text}."])
  | _ :: _ =>
      let work_records_raw :=
        all (record_id_in work_experience_linked_ids) (work_experience_table s) in
      let work_records_map := records_by_id work_records_raw in
      (omap (fun link_id => experience_of <$> work_records_map !! link_id)
            work_experience_linked_ids,
       omap (fun link_id =>
               match work_records_map !! link_id with
               | Some _ => None
               | None => Some (Log WARNING "Work Experience record not found for ID {link_id}.")
               end) work_experience_linked_ids)
  end.

(** Lines 124-141: the ["salary"] section. *)
Definition compress_salary (applicant_record : row applicant_fields) (s : store)
    : option Snapshot.salary * list event :=
  let salary_record_id :=
    get_first_linked_record_id (Salary_Preferences (fields applicant_record)) in
  match salary_record_id with
  | Some i =>
      if Py.truthy i then
        match get (salary_preferences_table s) i with
        | Some salary_record =>
            let fields := fields salary_record in
            (Some (Snapshot.Salary (Preferred_Rate fields) (Minimum_Rate fields)
                                   (Currency fields) (Availability fields)), [])
        | None =>
            (None, [Log ERROR "Error fetching Salary Preferences for ID {salary_record_id}: {e}"])
        end
      else (None, [Log WARNING "No Salary Preferences linked for Applicant ID {applicant_id_text}."])
  | None => (None, [Log WARNING "No Salary Preferences linked for Applicant ID {applicant_id_text}."])
  end.

(** The document that [compress_applicant_data] serialises. *)
Definition compressed_data (applicant_record : row applicant_fields) (s : store)
    : Snapshot.t :=
  Snapshot.Doc (compress_personal applicant_record s).1
               (compress_experience applicant_record s).1
               (compress_salary applicant_record s).1.

Definition compress_applicant_data (applicant_id_text : string) (s : store)
    : Py.result * store * list event :=
  let started :=
    [Log INFO "Attempting to compress data for Applicant ID: {applicant_id_text} ..."] in
  match all (applicant_id_is applicant_id_text) (applicants_table s) with
  | [] =>
      (Py.RFalse, s,
       started ++ [Log ERROR "Error: Applicant with ID '{applicant_id_text}' not found in 'Applicants' table."])
  | applicant_record :: _ =>
      let applicant_record_id := id applicant_record in
      let logged :=
        started ++ (compress_personal applicant_record s).2
                ++ (compress_experience applicant_record s).2
                ++ (compress_salary applicant_record s).2 in
      let json_string := json_dumps (compressed_data applicant_record s) in
      match update applicant_record_id
                   (patch_applicant
                      (ApplicantFields None None None None (Some json_string)
                                       None None None None None None))
                   (applicants_table s) with
      | Some t =>
          (Py.RTrue, with_applicants t s,
           logged ++ [Log INFO "Successfully compressed data for Applicant ID: {applicant_id_text}"])
      | None =>
          (Py.RFalse, s,
           logged ++ [Log ERROR "Error updating 'Compressed JSON' for {applicant_id_text}: {e}"])
      end
  end.

End Compressor.

(** *** The decompressor *)

(** Lines 171-176, the local function [link_child_to_applicant]: a failure
    is logged and goes no further. *)
Definition link_child_to_applicant (child_table_obj : child_table)
    (child_record_id applicant_rec_id : rid) (s : store) : store * list event :=
  match link child_table_obj child_record_id applicant_rec_id s with
  | Some s' => (s', [])
  | None => (s, [Log ERROR "Error linking record {child_record_id} to {applicant_id_text}: {e}"])
  end.

(** Lines 178-203: the ["personal"] section, update or create and link. *)
Definition decompress_personal (applicant_record : row applicant_fields)
    (personal_data : option Snapshot.personal) (s : store) : store * list event :=
  match personal_data with
  | None => (s, [])
  | Some personal_data =>
      let personal_linked_id :=
        get_first_linked_record_id (Personal_Details (fields applicant_record)) in
      let new_personal_fields :=
        PersonalFields (Snapshot.name personal_data) (Snapshot.email personal_data)
                       (Snapshot.location personal_data) (Snapshot.linkedin personal_data)
                       None in
      if Py.truthy_opt personal_linked_id then
        match update (from_option (fun i => i) "" personal_linked_id)
                     (patch_personal new_personal_fields) (personal_details_table s) with
        | Some t =>
            (with_personal t s, [Log INFO "Updated Personal Details for {applicant_id_text}."])
        | None =>
            (s, [Log ERROR "Error during Personal Details upsert for {applicant_id_text}: {e}"])
        end
      else
        let created := create new_personal_fields (personal_details_table s) in
        let linked :=
          link_child_to_applicant PersonalDetails (id created.1) (id applicant_record)
                                  (with_personal created.2 s) in
        (linked.1, linked.2 ++ [Log INFO "Created new Personal Details for {applicant_id_text}."])
  end.

(** The state of the loop over the ["experience"] array. *)
Record reconciling : Type := Reconciling {
  current : store;
  processed_experience_ids : gset rid;
  logged : list event
}.

(** The key of a Work Experience record in [current_experience_map]. *)
Definition record_key (rec : row work_fields) : option string * option string :=
  (Company (fields rec), Title (fields rec)).

(** Lines 218-221: [(Company, Title) -> id] over the records that the
    applicant links; a later record replaces an earlier one with the same
    key. *)
Definition experience_map (current_experience_records : list (row work_fields))
    : gmap (option string * option string) rid :=
  foldl (fun m rec => <[record_key rec := id rec]> m) ∅ current_experience_records.

(** Lines 225-257: one item of the array. *)
Definition decompress_experience_item
    (current_experience_map : gmap (option string * option string) rid)
    (applicant_record_id : rid) (st : reconciling) (exp_item : Snapshot.experience)
    : reconciling :=
  match Snapshot.company exp_item, Snapshot.title exp_item with
  | Some company, Some title =>
      let key := (Some company, Some title) in
      let new_exp_fields :=
        WorkFields (Some company) (Some title) (Snapshot.start_date exp_item)
                   (Snapshot.end_date exp_item) (Snapshot.technologies exp_item) None in
      match current_experience_map !! key with
      | Some record_id =>
          match update record_id (patch_work new_exp_fields)
                       (work_experience_table (current st)) with
          | Some t =>
              Reconciling (with_work t (current st))
                          ({[record_id]} ∪ processed_experience_ids st) (logged st)
          | None =>
              Reconciling (current st) (processed_experience_ids st)
                (logged st ++
                 [Log ERROR "Error during Work Experience upsert for {applicant_id_text} (Company: {company}, Title: {title}): {e}"])
          end
      | None =>
          let created := create new_exp_fields (work_experience_table (current st)) in
          let record_id := id created.1 in
          let linked :=
            link_child_to_applicant WorkExperience record_id applicant_record_id
                                    (with_work created.2 (current st)) in
          Reconciling linked.1 ({[record_id]} ∪ processed_experience_ids st)
                      (logged st ++ linked.2)
      end
  | _, _ =>
      Reconciling (current st) (processed_experience_ids st)
        (logged st ++
         [Log WARNING "Skipping work experience item due to missing Company or Title: {exp_item}"])
  end.

(** Lines 205-257: the records that the applicant links, and the loop over
    the items, each of them an object. *)
Definition experience_loop (applicant_record : row applicant_fields)
    (experience_data : list Snapshot.experience) (s : store) : reconciling :=
  let current_linked_experience_ids_from_applicant :=
    get_all_linked_record_ids (Work_Experience (fields applicant_record)) in
  let current_experience_records :=
    match current_linked_experience_ids_from_applicant with
    | [] => []
    | _ :: _ =>
        all (record_id_in current_linked_experience_ids_from_applicant)
            (work_experience_table s)
    end in
  let current_experience_map := experience_map current_experience_records in
  foldl (decompress_experience_item current_experience_map (id applicant_record))
        (Reconciling s ∅ []) experience_data.

(** Lines 205-268: the ["experience"] section, when the loop comes to its
    end: the records that no item named are deleted. *)
Definition decompress_experience (applicant_record : row applicant_fields)
    (experience_data : list Snapshot.experience) (s : store) : store * list event :=
  let current_linked_experience_ids_from_applicant :=
    get_all_linked_record_ids (Work_Experience (fields applicant_record)) in
  let st := experience_loop applicant_record experience_data s in
  let to_delete_ids :=
    List.filter (fun rec_id => bool_decide (rec_id ∉ processed_experience_ids st))
                current_linked_experience_ids_from_applicant in
  match to_delete_ids with
  | [] => (current st, logged st)
  | _ :: _ =>
      match delete_work_experience to_delete_ids (current st) with
      | Some s' =>
          (s', logged st ++
               [Log INFO "Deleted {len(to_delete_ids)} old Work Experience records for {applicant_id_text}."])
      | None =>
          (current st, logged st ++
               [Log ERROR "Error deleting old Work Experience records for {applicant_id_text}: {e}"])
      end
  end.

(** Lines 270-294: the ["salary"] section, update or create and link. *)
Definition decompress_salary (applicant_record : row applicant_fields)
    (salary_data : option Snapshot.salary) (s : store) : store * list event :=
  match salary_data with
  | None => (s, [])
  | Some salary_data =>
      let salary_linked_id :=
        get_first_linked_record_id (Salary_Preferences (fields applicant_record)) in
      let new_salary_fields :=
        SalaryFields (Snapshot.preferred_rate salary_data) (Snapshot.minimum_rate salary_data)
                     (Snapshot.currency salary_data) (Snapshot.availability_hrs_wk salary_data)
                     None in
      if Py.truthy_opt salary_linked_id then
        match update (from_option (fun i => i) "" salary_linked_id)
                     (patch_salary new_salary_fields) (salary_preferences_table s) with
        | Some t =>
            (with_salary t s, [Log INFO "Updated Salary Preferences for {applicant_id_text}."])
        | None =>
            (s, [Log ERROR "Error during Salary Preferences upsert for {applicant_id_text}: {e}"])
        end
      else
        let created := create new_salary_fields (salary_preferences_table s) in
        let linked :=
          link_child_to_applicant SalaryPreferences (id created.1) (id applicant_record)
                                  (with_salary created.2 s) in
        (linked.1, linked.2 ++ [Log INFO "Created new Salary Preferences for {applicant_id_text}."])
  end.

Section Decompressor.
Context {py : PyLib}.

(** Lines 178-297, on the value that [json.loads] returned: the three
    sections in turn, each on the store the one before left.  A value of
    the wrong kind raises where the code reads it, outside any [try]:
    [data.get] at line 178, [personal_data.get] at line 183 (after
    [if personal_data:]), [for exp_item in experience_data] at line 225,
    [exp_item.get] at line 226, [salary_data.get] at line 274 (after
    [if salary_data:]).  What was written before stays written, and the
    records that no item named are deleted only when the loop comes to its
    end. *)
Definition decompress_value (applicant_record : row applicant_fields)
    (data : Snapshot.json) (s : store) : Py.result * store * list event :=
  match data with
  | Snapshot.NotADict => (Py.Raised "AttributeError", s, [])
  | Snapshot.Dict personal_data experience_data salary_data =>
      match personal_data with
      | Snapshot.Other true => (Py.Raised "AttributeError", s, [])
      | _ =>
          let p :=
            decompress_personal applicant_record (Snapshot.fields_of personal_data) s in
          match experience_data with
          | Snapshot.NotIterable => (Py.Raised "TypeError", p.1, p.2)
          | Snapshot.Items items =>
              match Snapshot.objects items with
              | None =>
                  let st := experience_loop applicant_record (Snapshot.leading items) p.1 in
                  (Py.Raised "AttributeError", current st, p.2 ++ logged st)
              | Some entries =>
                  let e := decompress_experience applicant_record entries p.1 in
                  match salary_data with
                  | Snapshot.Other true => (Py.Raised "AttributeError", e.1, p.2 ++ e.2)
                  | _ =>
                      let y :=
                        decompress_salary applicant_record (Snapshot.fields_of salary_data)
                                          e.1 in
                      (Py.RTrue, y.1,
                       p.2 ++ e.2 ++ y.2 ++
                       [Log INFO "Successfully decompressed data for Applicant ID: {applicant_id_text}"])
                  end
              end
          end
      end
  end.

Definition decompress_applicant_data (applicant_id_text : string) (s : store)
    : Py.result * store * list event :=
  let started :=
    [Log INFO "Attempting to decompress data for Applicant ID: {applicant_id_text}"] in
  match all (applicant_id_is applicant_id_text) (applicants_table s) with
  | [] =>
      (Py.RFalse, s,
       started ++ [Log ERROR "Error: Applicant with ID '{applicant_id_text}' not found in 'Applicants' table."])
  | applicant_record :: _ =>
      let compressed_json_str := Compressed_JSON (fields applicant_record) in
      if Py.truthy_opt compressed_json_str then
        match json_loads (from_option (fun t => t) "" compressed_json_str) with
        | Some data =>
            let done := decompress_value applicant_record data s in
            (done.1.1, done.1.2, started ++ done.2)
        | None =>
            (Py.RFalse, s,
             started ++ [Log ERROR "Error decoding JSON for Applicant ID {applicant_id_text}: {e}"])
        end
      else
        (Py.RFalse, s,
         started ++ [Log INFO "No 'Compressed JSON' found for Applicant ID: {applicant_id_text}. Skipping decompression."])
  end.

End Decompressor.

End JsonAutomation.

(** ** shortlist_automation.py *)

Module ShortlistAutomation.
Import Airtable Store.

Definition TIER_1_COMPANIES : list string :=
  ["Google"; "Meta"; "OpenAI"; "Microsoft"; "Amazon"; "Apple"; "Netflix"; "Tesla"].

(** The elements of the set [APPROVED_LOCATIONS]. *)
Definition APPROVED_LOCATIONS : list string :=
  ["us"; "canada"; "uk"; "germany"; "india"].

(** Lines 49-52: [company] is true and equals a tier-1 name when both are
    lowered. *)
Definition is_tier_1 (company : option string) : bool :=
  match company with
  | Some company =>
      Py.truthy company &&
      existsb (fun c => String.eqb (Py.lower c) (Py.lower company)) TIER_1_COMPANIES
  | None => false
  end.

(** What lines 53-66 make of the dates of one entry. *)
Inductive dated : Type :=
| Counted (days : Z)
| MissingStart
| Unparseable
| StartAfterEnd.

(** [duration.days / 365.25] *)
Definition years_of_days (days : Z) : float :=
  PrimFloat.div (PrimFloat.of_uint63 (Uint63.of_Z days)) 365.25%float.

Section Shortlister.
Context {py : PyLib}.

(** Lines 53-66.  [now] is the day of [datetime.now()]: a start date is a
    midnight, so it is after [now] exactly when its day is, and the whole
    days from it to [now] are the difference of the days. *)
Definition entry_dates (now : Z) (exp : Snapshot.experience) : dated :=
  let start_date_str := Snapshot.start_date exp in
  let end_date_str := Snapshot.end_date exp in
  if Py.truthy_opt start_date_str then
    match strptime (from_option (fun t => t) "" start_date_str) with
    | Some start =>
        match (if Py.truthy_opt end_date_str
               then strptime (from_option (fun t => t) "" end_date_str)
               else Some now) with
        | Some end_ =>
            if (end_ <? start)%Z then StartAfterEnd else Counted (end_ - start)
        | None => Unparseable
        end
    | None => Unparseable
    end
  else MissingStart.

(** The state of the loop of [calculate_experience_years]. *)
Record tally : Type := Tally {
  total_years : float;
  tier_1_company_present : bool;
  warnings : list event
}.

(** Lines 46-66: one entry. *)
Definition count_entry (now : Z) (acc : tally) (exp : Snapshot.experience) : tally :=
  let tier := tier_1_company_present acc || is_tier_1 (Snapshot.company exp) in
  match entry_dates now exp with
  | Counted days =>
      Tally (PrimFloat.add (total_years acc) (years_of_days days)) tier (warnings acc)
  | MissingStart =>
      Tally (total_years acc) tier
        (warnings acc ++
         [Log WARNING "Experience entry missing start_date: {exp}. Skipping this entry for total years calculation."])
  | Unparseable =>
      Tally (total_years acc) tier
        (warnings acc ++
         [Log WARNING "Could not parse date for experience entry {exp}: {e}. Skipping calculation for this entry."])
  | StartAfterEnd =>
      Tally (total_years acc) tier
        (warnings acc ++
         [Log WARNING "Experience data error: Start date {start_date_str} after end date {end_date_str} for {company}. Skipping calculation for this entry."])
  end.

Definition calculate_experience_years (now : Z) (experience_list : list Snapshot.experience)
    : tally :=
  foldl (count_entry now) (Tally 0%float false []) experience_list.

(** Lines 99-110: the experience criterion and its reason. *)
Definition experience_criteria_met (now : Z) (experience_data : list Snapshot.experience)
    : bool :=
  let r := calculate_experience_years now experience_data in
  PrimFloat.leb 4%float (total_years r) || tier_1_company_present r.

Definition experience_reason (now : Z) (experience_data : list Snapshot.experience)
    : string :=
  let r := calculate_experience_years now experience_data in
  if experience_criteria_met now experience_data then
    "Experience: " +:+ format_years (total_years r) +:+ " years total" +:+
    (if tier_1_company_present r then " (includes Tier-1 company)" else "")
  else
    "FAILED: Experience (" +:+ format_years (total_years r) +:+ " years, Tier-1: " +:+
    (if tier_1_company_present r then "True" else "False") +:+
    ") - min 4 years OR Tier-1 required.".

(** [salary_data.get(key)] on [data.get("salary", {})]. *)
Definition salary_get {A} (key : Snapshot.salary -> option A)
    (salary_data : option Snapshot.salary) : option A :=
  match salary_data with
  | Some d => key d
  | None => None
  end.

(** Lines 117-128: the rate. *)
Definition rate_ok (salary_data : option Snapshot.salary) : bool :=
  match salary_get Snapshot.preferred_rate salary_data,
        salary_get Snapshot.currency salary_data with
  | Some preferred_rate, Some currency =>
      String.eqb currency "USD" && Qle_bool preferred_rate 100
  | _, _ => false
  end.

Definition rate_reason (salary_data : option Snapshot.salary) : string :=
  match salary_get Snapshot.preferred_rate salary_data,
        salary_get Snapshot.currency salary_data with
  | Some preferred_rate, Some currency =>
      if String.eqb currency "USD" then
        if Qle_bool preferred_rate 100
        then "Preferred Rate: $" +:+ format_number preferred_rate +:+ " USD/hour"
        else "Preferred Rate: $" +:+ format_number preferred_rate +:+
             " USD/hour (FAILED - must be <= $100)"
      else
        "Preferred Rate: " +:+ format_number preferred_rate +:+ " " +:+ currency +:+
        "/hour (FAILED - only USD <= $100 accepted)"
  | _, _ => "Preferred Rate: Missing or invalid (FAILED)"
  end.

(** Lines 129-136: the availability. *)
Definition availability_ok (salary_data : option Snapshot.salary) : bool :=
  match salary_get Snapshot.availability_hrs_wk salary_data with
  | Some availability => Qle_bool 20 availability
  | None => false
  end.

Definition availability_reason (salary_data : option Snapshot.salary) : string :=
  match salary_get Snapshot.availability_hrs_wk salary_data with
  | Some availability =>
      if Qle_bool 20 availability
      then "Availability: " +:+ format_number availability +:+ " hrs/week"
      else "Availability: " +:+ format_number availability +:+
           " hrs/week (FAILED - must be >= 20)"
  | None => "Availability: Missing or invalid (FAILED)"
  end.

(** Lines 111-142: the compensation criterion,
    [compensation_criteria_met_individual], and its reason. *)
Definition compensation_criteria_met (salary_data : option Snapshot.salary) : bool :=
  rate_ok salary_data && availability_ok salary_data.

Definition compensation_reason (salary_data : option Snapshot.salary) : string :=
  let comp_reason_parts := [rate_reason salary_data; availability_reason salary_data] in
  if compensation_criteria_met salary_data
  then "Compensation: " +:+ Py.join ", " comp_reason_parts
  else "FAILED: Compensation - " +:+ Py.join ", " comp_reason_parts.

(** [personal_data.get("location", "")] on [data.get("personal", {})], and
    how an f-string prints it: a personal object has the key, so a missing
    value is [None]; without the object it is the default, the empty text. *)
Definition applicant_location (personal_data : option Snapshot.personal) : option string :=
  match personal_data with
  | Some d => Snapshot.location d
  | None => Some ""
  end.

Definition location_text (personal_data : option Snapshot.personal) : string :=
  from_option (fun t => t) "None" (applicant_location personal_data).

(** Lines 144-152: the first keyword, in the order in which the set is
    visited, that the lowered location contains. *)
Definition location_match_found (personal_data : option Snapshot.personal) : option string :=
  match applicant_location personal_data with
  | Some applicant_location =>
      if Py.truthy applicant_location then
        List.find (fun approved_loc_keyword =>
                     Py.contains approved_loc_keyword (Py.lower applicant_location))
                  (set_order APPROVED_LOCATIONS)
      else None
  | None => None
  end.

Definition location_criteria_met (personal_data : option Snapshot.personal) : bool :=
  match location_match_found personal_data with
  | Some _ => true
  | None => false
  end.

(** Lines 153-157 *)
Definition location_reason (personal_data : option Snapshot.personal) : string :=
  match location_match_found personal_data with
  | Some keyword =>
      "Location: '" +:+ location_text personal_data +:+ "' (Approved: matched '" +:+
      keyword +:+ "')"
  | None =>
      "FAILED: Location ('" +:+ location_text personal_data +:+ "') - not in approved list."
  end.

(** Lines 96-157: [score_reasons] and [is_shortlisted]. *)
Definition score_reasons (now : Z) (data : Snapshot.t) : list string :=
  [experience_reason now (Snapshot.experience_section data);
   compensation_reason (Snapshot.salary_section data);
   location_reason (Snapshot.personal_section data)].

Definition is_shortlisted (now : Z) (data : Snapshot.t) : bool :=
  experience_criteria_met now (Snapshot.experience_section data) &&
  compensation_criteria_met (Snapshot.salary_section data) &&
  location_criteria_met (Snapshot.personal_section data).

(** [{"Shortlist Status": status}] *)
Definition status_fields (status : string) : applicant_fields :=
  ApplicantFields None None None None None (Some status) None None None None None.

(** Lines 164-186: the lead is updated when one refers to the applicant,
    and created otherwise. *)
Definition upsert_lead (applicant_record : row applicant_fields)
    (compressed_json_str : string) (reasons : list string) (s : store)
    : Py.result * store * list event :=
  let applicant_primary_id_value :=
    from_option (fun t => t) "None" (Applicant_ID (fields applicant_record)) in
  let existing_shortlist :=
    all (applicant_ref_is (applicants_table s) applicant_primary_id_value)
        (shortlisted_leads_table s) in
  let shortlist_reason_text := Py.join "; " reasons in
  let fields_to_upsert :=
    LeadFields (Some [LinkStr (id applicant_record)]) (Some compressed_json_str)
               (Some shortlist_reason_text) in
  match existing_shortlist with
  | existing :: _ =>
      match update (id existing) (patch_lead fields_to_upsert) (shortlisted_leads_table s) with
      | Some t =>
          (Py.RTrue, with_leads t s,
           [Log INFO "Updated existing Shortlisted Lead record for {applicant_id_text}."])
      | None =>
          (Py.RFalse, s,
           [Log ERROR "Error creating/updating Shortlisted Lead record for {applicant_id_text}: {e}"])
      end
  | [] =>
      (Py.RTrue, with_leads (create fields_to_upsert (shortlisted_leads_table s)).2 s,
       [Log INFO "Created new Shortlisted Lead record for {applicant_id_text}."])
  end.

(** [applicants_table.update(applicant_record_id, {"Shortlist Status": status})],
    outside any [try]. *)
Definition set_status (applicant_record_id : rid) (status : string) (s : store)
    : option store :=
  match update applicant_record_id (patch_applicant (status_fields status))
               (applicants_table s) with
  | Some t => Some (with_applicants t s)
  | None => None
  end.

(** Lines 92-157 read the value that [json.loads] returned, and write
    nothing.  A value of the wrong kind raises where the code reads it,
    outside any [try]: [data.get] at line 92; in
    [calculate_experience_years], called at line 99, [for exp in
    experience_list] at line 46 and [exp.get] at line 47, after the
    warnings of the entries before; [salary_data.get] at line 111;
    [personal_data.get] at line 144.  [inl] is the document read, [inr] the
    exception and the warnings logged before it. *)
Definition read_snapshot (now : Z) (data : Snapshot.json)
    : Snapshot.t + string * list event :=
  match data with
  | Snapshot.NotADict => inr ("AttributeError", [])
  | Snapshot.Dict personal_data experience_data salary_data =>
      match experience_data with
      | Snapshot.NotIterable => inr ("TypeError", [])
      | Snapshot.Items items =>
          match Snapshot.objects items with
          | None =>
              inr ("AttributeError",
                   warnings (calculate_experience_years now (Snapshot.leading items)))
          | Some entries =>
              match salary_data, personal_data with
              | Snapshot.Object salary, Snapshot.Object personal =>
                  inl (Snapshot.Doc personal entries salary)
              | _, _ =>
                  inr ("AttributeError", warnings (calculate_experience_years now entries))
              end
          end
      end
  end.

Definition shortlist_applicant (now : Z) (applicant_id_text : string) (s : store)
    : Py.result * store * list event :=
  let started := [Log INFO "Evaluating applicant for shortlisting: {applicant_id_text}"] in
  match all (applicant_id_is applicant_id_text) (applicants_table s) with
  | [] =>
      (Py.RFalse, s,
       started ++ [Log ERROR "Applicant with ID '{applicant_id_text}' not found in 'Applicants' table."])
  | applicant_record :: _ =>
      let applicant_record_id := id applicant_record in
      let fetched :=
        started ++
        [Log INFO "Fetched Applicant Record ID for {applicant_id_text}: {applicant_record_id}";
         Log INFO "Fetched Applicant Primary ID Value for {applicant_id_text}: {applicant_primary_id_value}"] in
      let compressed_json_str := Compressed_JSON (fields applicant_record) in
      if Py.truthy_opt compressed_json_str then
        let text := from_option (fun t => t) "" compressed_json_str in
        match json_loads text with
        | Some loaded =>
            match read_snapshot now loaded with
            | inl data =>
                let new_status :=
                  if is_shortlisted now data then "Shortlisted" else "Not Shortlisted" in
                match set_status applicant_record_id new_status s with
                | Some s1 =>
                    let judged :=
                      fetched ++
                      warnings (calculate_experience_years now (Snapshot.experience_section data)) ++
                      [Log INFO "Applicant {applicant_id_text} Shortlist Status set to: {new_status}";
                       Log INFO "Score Reason: {score_reasons}"] in
                    if is_shortlisted now data then
                      let r := upsert_lead applicant_record text (score_reasons now data) s1 in
                      (r.1.1, r.1.2, judged ++ r.2)
                    else (Py.RNone, s1, judged)
                | None =>
                    (Py.Raised "HTTPError", s,
                     fetched ++
                     warnings (calculate_experience_years now (Snapshot.experience_section data)))
                end
            | inr (exn, warned) => (Py.Raised exn, s, fetched ++ warned)
            end
        | None =>
            match set_status applicant_record_id "JSON Error" s with
            | Some s1 =>
                (Py.RFalse, s1,
                 fetched ++ [Log ERROR "Error decoding JSON for Applicant ID {applicant_id_text}: {e}"])
            | None =>
                (Py.Raised "HTTPError", s,
                 fetched ++ [Log ERROR "Error decoding JSON for Applicant ID {applicant_id_text}: {e}"])
            end
        end
      else
        match set_status applicant_record_id "Incomplete Data" s with
        | Some s1 =>
            (Py.RFalse, s1,
             fetched ++ [Log WARNING "No 'Compressed JSON' found for Applicant ID: {applicant_id_text}. Cannot shortlist."])
        | None =>
            (Py.Raised "HTTPError", s,
             fetched ++ [Log WARNING "No 'Compressed JSON' found for Applicant ID: {applicant_id_text}. Cannot shortlist."])
        end
  end.

End Shortlister.

End ShortlistAutomation.

(** ** llm_automation.py *)

Module LlmAutomation.
Import Airtable Store.

(** Lines 47-48.  The arguments are the environment variables
    [LLM_MAX_RETRIES] and [LLM_INITIAL_BACKOFF_DELAY] read as numbers, [None]
    when the variable is not set. *)
Definition MAX_RETRIES (LLM_MAX_RETRIES : option Z) : Z :=
  from_option (fun n => n) 3%Z LLM_MAX_RETRIES.

Definition INITIAL_BACKOFF_DELAY (LLM_INITIAL_BACKOFF_DELAY : option Q) : Q :=
  from_option (fun d => d) 1%Q LLM_INITIAL_BACKOFF_DELAY.

(** What one call of [groq_client.chat.completions.create] does: it returns
    a completion with this content, raises an [APIError] whose
    [status_code] the handler can read, raises an [APIError] that has no
    such attribute, or raises something else (a content that is not a text
    makes [.strip()] raise inside the [try], and is among these). *)
Inductive llm_reply : Type :=
| Content (text : string)
| APIError
| APIErrorWithoutStatus
| OtherError.

(** How the retry loop of lines 150-180 ends: with a response, with
    [return False], without a call, or with an exception raised inside the
    handler of [APIError] (by [e.status_code] at line 169 or by
    [time.sleep] at line 173), where no handler catches it. *)
Inductive loop_end : Type :=
| Answered (llm_response_content : string)
| ReturnedFalse
| NotEntered
| HandlerRaised (exn : string).

(** Lines 153-180.  [left] is [MAX_RETRIES - retries], so the loop condition
    [retries < MAX_RETRIES] is [left > 0]. *)
Fixpoint llm_attempts {py : PyLib} (llm : nat -> llm_reply) (left retries : nat) (delay : Q)
    : loop_end * list event :=
  match left with
  | O => (NotEntered, [])
  | S left' =>
      let called :=
        [Log INFO "Making LLM call for {applicant_id_text} (Attempt {retries + 1}/{MAX_RETRIES}). Model: {LLM_MODEL}";
         LlmCall retries] in
      match llm retries with
      | Content text =>
          (Answered (Py.strip text),
           called ++ [Log INFO "LLM response received for {applicant_id_text}."])
      | APIError =>
          let failed :=
            called ++ [Log ERROR "Groq API error for {applicant_id_text} (Status: {e.status_code}): {e}"] in
          match left' with
          | O =>
              (ReturnedFalse,
               failed ++ [Log ERROR "Max retries reached for {applicant_id_text}. LLM evaluation failed."])
          | S _ =>
              match time_sleep delay with
              | None =>
                  let rest := llm_attempts llm left' (S retries) (delay * 2)%Q in
                  (rest.1,
                   failed ++ [Log INFO "Retrying in {delay} seconds..."; Sleep delay] ++ rest.2)
              | Some exn =>
                  (HandlerRaised exn, failed ++ [Log INFO "Retrying in {delay} seconds..."])
              end
          end
      | APIErrorWithoutStatus => (HandlerRaised "AttributeError", called)
      | OtherError =>
          (ReturnedFalse,
           called ++ [Log ERROR "An unexpected error occurred during LLM call for {applicant_id_text}: {e}"])
      end
  end.

(** The dictionary that [parse_llm_response] returns. *)
Record parsed : Type := Parsed {
  summary : string;
  score : option Z;
  issues : string;
  follow_ups : string
}.

(** The variables of the loop of [parse_llm_response]. *)
Record parsing : Type := Parsing {
  p_summary : string;
  p_score : option Z;
  p_issues : string;
  p_follow_ups : list string;
  capture_summary : bool;
  capture_follow_ups : bool;
  p_warnings : list event
}.

(** The bullet that starts a follow-up: U+2022 in UTF-8. *)
Definition bullet : string :=
  String (ascii_of_nat 226) (String (ascii_of_nat 128) (String (ascii_of_nat 162) EmptyString)).

Section Evaluator.
Context {py : PyLib}.

(** Lines 62-89: one line of the response. *)
Definition parse_line (st : parsing) (line : string) : parsing :=
  let lower_line := Py.lower line in
  if Py.startswith "summary:" lower_line then
    Parsing (Py.strip (Py.drop (String.length "Summary:") line)) (p_score st) (p_issues st)
            (p_follow_ups st) true false (p_warnings st)
  else if Py.startswith "score:" lower_line then
    let score_str := Py.strip (Py.drop (String.length "Score:") line) in
    match int_of_str score_str with
    | Some n =>
        Parsing (p_summary st) (Some n) (p_issues st) (p_follow_ups st) false false
                (p_warnings st)
    | None =>
        Parsing (p_summary st) None (p_issues st) (p_follow_ups st) false false
                (p_warnings st ++ [Log WARNING "LLM returned non-integer score: '{score_str}'"])
    end
  else if Py.startswith "issues:" lower_line then
    Parsing (p_summary st) (p_score st) (Py.strip (Py.drop (String.length "Issues:") line))
            (p_follow_ups st) false false (p_warnings st)
  else if Py.startswith "follow-ups:" lower_line then
    Parsing (p_summary st) (p_score st) (p_issues st) (p_follow_ups st) false true
            (p_warnings st)
  else if capture_summary st then
    Parsing (p_summary st +:+ " " +:+ Py.strip line) (p_score st) (p_issues st)
            (p_follow_ups st) (capture_summary st) (capture_follow_ups st) (p_warnings st)
  else if capture_follow_ups st && Py.startswith bullet line then
    Parsing (p_summary st) (p_score st) (p_issues st) (p_follow_ups st ++ [Py.strip line])
            (capture_summary st) (capture_follow_ups st) (p_warnings st)
  else if capture_follow_ups st && negb (Py.startswith bullet line) then
    Parsing (p_summary st) (p_score st) (p_issues st) (p_follow_ups st)
            (capture_summary st) false (p_warnings st)
  else st.

(** Line 60: the stripped lines that are not empty. *)
Definition response_lines (response_text : string) : list string :=
  List.map Py.strip
    (List.filter (fun line => Py.truthy (Py.strip line)) (Py.split_lines response_text)).

Definition parse_llm_state (response_text : string) : parsing :=
  foldl parse_line (Parsing "" None "None" [] false false []) (response_lines response_text).

Definition parse_llm_response (response_text : string) : parsed :=
  let st := parse_llm_state response_text in
  Parsed (Py.strip (p_summary st)) (p_score st) (Py.strip (p_issues st))
         (Py.strip (Py.join (String "010"%char EmptyString) (p_follow_ups st))).

(** Lines 117-128: the two timestamps; [datetime.min] for both when one of
    them does not parse. *)
Definition parse_timestamps (last_compressed_time_str last_llm_evaluated_time_str : option string)
    : option Py.datetime * option Py.datetime * list event :=
  let unparsed :=
    (Some Py.datetime_min, Some Py.datetime_min,
     [Log WARNING "Warning: Could not parse timestamp for {applicant_id_text}: {e}. Proceeding with evaluation."]) in
  if Py.truthy_opt last_compressed_time_str then
    match fromisoformat (Py.replace_Z (from_option (fun t => t) "" last_compressed_time_str)) with
    | Some last_compressed_dt =>
        if Py.truthy_opt last_llm_evaluated_time_str then
          match fromisoformat
                  (Py.replace_Z (from_option (fun t => t) "" last_llm_evaluated_time_str)) with
          | Some last_llm_evaluated_dt =>
              (Some last_compressed_dt, Some last_llm_evaluated_dt, [])
          | None => unparsed
          end
        else (Some last_compressed_dt, None, [])
    | None => unparsed
    end
  else if Py.truthy_opt last_llm_evaluated_time_str then
    match fromisoformat
            (Py.replace_Z (from_option (fun t => t) "" last_llm_evaluated_time_str)) with
    | Some last_llm_evaluated_dt => (None, Some last_llm_evaluated_dt, [])
    | None => unparsed
    end
  else (None, None, []).

(** Line 130: [Some true] to skip, [Some false] to go on, [None] for the
    [TypeError] of the comparison. *)
Definition already_evaluated (last_compressed_dt last_llm_evaluated_dt : option Py.datetime)
    : option bool :=
  match last_llm_evaluated_dt, last_compressed_dt with
  | Some evaluated, Some compressed => Py.datetime_ge evaluated compressed
  | _, _ => Some false
  end.

(** Lines 188-193: [applicants_table.update(applicant_record_id, updates)];
    every key of [updates] is written, the score also when it is [None]. *)
Definition llm_updates (outputs : parsed) (now_iso : string) (f : applicant_fields)
    : applicant_fields :=
  ApplicantFields (Applicant_ID f) (Personal_Details f) (Work_Experience f)
                  (Salary_Preferences f) (Compressed_JSON f) (Shortlist_Status f)
                  (Some (summary outputs)) (score outputs) (Some (follow_ups outputs))
                  (Some (now_iso +:+ "Z")) (Last_Modified f).

(** Lines 182-203: what follows the retry loop. *)
Definition record_evaluation (applicant_record_id : rid) (now_iso : string)
    (llm_response_content : string) (s : store) : Py.result * store * list event :=
  if Py.truthy llm_response_content then
    let parsed_outputs := parse_llm_response llm_response_content in
    let noted :=
      p_warnings (parse_llm_state llm_response_content) ++
      (if Py.truthy (issues parsed_outputs) &&
          negb (String.eqb (Py.lower (issues parsed_outputs)) "none")
       then [Log WARNING "LLM identified issues for {applicant_id_text}: {parsed_outputs['issues']}"]
       else []) in
    match update applicant_record_id (llm_updates parsed_outputs now_iso) (applicants_table s) with
    | Some t =>
        (Py.RTrue, with_applicants t s,
         noted ++ [Log INFO "Successfully updated LLM fields for Applicant ID: {applicant_id_text}"])
    | None =>
        (Py.RFalse, s, noted ++ [Log ERROR "Error updating LLM fields for {applicant_id_text}: {e}"])
    end
  else
    (Py.RFalse, s,
     [Log ERROR "No LLM response content after retries for {applicant_id_text}. Cannot update Airtable."]).

(** [llm] answers the calls of this run, by the number of calls before;
    [now_iso] is [datetime.now().isoformat()]; [max_retries] and
    [initial_delay] are the module's [MAX_RETRIES] and
    [INITIAL_BACKOFF_DELAY]. *)
Definition evaluate_applicant_with_llm (max_retries : Z) (initial_delay : Q)
    (llm : nat -> llm_reply) (now_iso : string) (applicant_id_text : string) (s : store)
    : Py.result * store * list event :=
  let started := [Log INFO "Evaluating applicant with LLM: {applicant_id_text} ..."] in
  match all (applicant_id_is applicant_id_text) (applicants_table s) with
  | [] =>
      (Py.RFalse, s,
       started ++ [Log ERROR "Applicant with ID '{applicant_id_text}' not found in 'Applicants' table."])
  | applicant_record :: _ =>
      let applicant_fields := fields applicant_record in
      if Py.truthy_opt (Compressed_JSON applicant_fields) then
        let stamps :=
          parse_timestamps (Last_Modified applicant_fields)
                           (LLM_Last_Evaluated applicant_fields) in
        match already_evaluated stamps.1.1 stamps.1.2 with
        | Some true =>
            (Py.RTrue, s,
             started ++ stamps.2 ++
             [Log INFO "Compressed JSON for {applicant_id_text} has not changed since last LLM evaluation ({last_llm_evaluated_dt}). Skipping."])
        | Some false =>
            let loop := llm_attempts llm (Z.to_nat max_retries) 0 initial_delay in
            match loop.1 with
            | Answered llm_response_content =>
                let r := record_evaluation (id applicant_record) now_iso llm_response_content s in
                (r.1.1, r.1.2, started ++ stamps.2 ++ loop.2 ++ r.2)
            | ReturnedFalse => (Py.RFalse, s, started ++ stamps.2 ++ loop.2)
            | HandlerRaised exn => (Py.Raised exn, s, started ++ stamps.2 ++ loop.2)
            | NotEntered =>
                (Py.RFalse, s,
                 started ++ stamps.2 ++ loop.2 ++
                 [Log ERROR "No LLM response content after retries for {applicant_id_text}. Cannot update Airtable."])
            end
        | None => (Py.Raised "TypeError", s, started ++ stamps.2)
        end
      else
        (Py.RFalse, s,
         started ++ [Log WARNING "No 'Compressed JSON' found for Applicant ID: {applicant_id_text}. Skipping LLM evaluation."])
  end.

End Evaluator.

End LlmAutomation.

(** ** main.py *)

Module Main.
Import Airtable.

Inductive action : Type := compress | decompress | shortlist | llm_evaluate | all.

(** How the process ends: [main] returns, [sys.exit(code)], or an exception
    that nothing caught. *)
Inductive ending : Type :=
| Returns
| SysExit (code : Z)
| Uncaught (exn : string).

(** The run so far: the local [success], the store, what was logged and
    done, and how the process ended if it has. *)
Record run : Type := Run {
  success : bool;
  world : store;
  trace : list event;
  ended : option ending
}.

(** One of the four [if action == ...] blocks of lines 63-83: when [applies]
    and the process has not ended, [component] runs; a false result is
    logged, clears [success] and, for [all], exits. *)
Definition block (applies exits : bool) (banner failure : string)
    (component : store -> Py.result * store * list event) (r : run) : run :=
  match ended r with
  | Some _ => r
  | None =>
      if applies then
        let out := component (world r) in
        let ran := trace r ++ [Log INFO banner] ++ out.2 in
        match out.1.1 with
        | Py.Raised exn => Run (success r) out.1.2 ran (Some (Uncaught exn))
        | result =>
            if Py.falsy result then
              Run false out.1.2 (ran ++ [Log ERROR failure])
                  (if exits then Some (SysExit (-1)) else None)
            else Run (success r) out.1.2 ran None
        end
      else r
  end.

Definition is_all (a : action) : bool :=
  match a with all => true | _ => false end.

Section Dispatcher.
Context {py : PyLib}.

(** Lines 34-88, after the arguments are parsed.  [now] and [now_iso] are
    the clock, [llm] the language model, [max_retries] and [initial_delay]
    the configuration of the evaluator. *)
Definition main (now : Z) (now_iso : string) (max_retries : Z) (initial_delay : Q)
    (llm : nat -> LlmAutomation.llm_reply) (a : action) (applicant_id : string)
    (s : store) : run :=
  let r0 :=
    Run true s [Log INFO "Triggering action: '{action}' for Applicant ID: '{applicant_id}'"] None in
  let r1 :=
    block (match a with compress | all => true | _ => false end) (is_all a)
          "--- Running Compression for {applicant_id} ---"
          "Compression failed for {applicant_id}."
          (JsonAutomation.compress_applicant_data applicant_id) r0 in
  let r2 :=
    block (match a with shortlist => true | all => success r1 | _ => false end) (is_all a)
          "--- Running Shortlisting for {applicant_id} ---"
          "Shortlisting failed for {applicant_id}."
          (ShortlistAutomation.shortlist_applicant now applicant_id) r1 in
  let r3 :=
    block (match a with llm_evaluate => true | all => success r2 | _ => false end) (is_all a)
          "--- Running LLM Evaluation for {applicant_id} ---"
          "LLM Evaluation failed for {applicant_id}."
          (LlmAutomation.evaluate_applicant_with_llm max_retries initial_delay llm now_iso
                                                     applicant_id) r2 in
  let r4 :=
    block (match a with decompress => true | _ => false end) false
          "--- Running Decompression for {applicant_id} ---"
          "Decompression failed for {applicant_id}."
          (JsonAutomation.decompress_applicant_data applicant_id) r3 in
  match ended r4 with
  | Some _ => r4
  | None =>
      if success r4 then
        Run true (world r4)
            (trace r4 ++ [Log INFO "Action '{action}' completed successfully for {applicant_id}."])
            (Some Returns)
      else
        Run false (world r4)
            (trace r4 ++ [Log ERROR "Action '{action}' failed for {applicant_id}."])
            (Some (SysExit (-1)))
  end.

End Dispatcher.

End Main.

(** ** Reading a list of events *)

Module Trace.

(** The calls to the language model, by attempt. *)
Definition llm_calls (events : list event) : list nat :=
  omap (fun e => match e with LlmCall k => Some k | _ => None end) events.

(** The sleeps, in seconds. *)
Definition sleeps (events : list event) : list Q :=
  omap (fun e => match e with Sleep d => Some d | _ => None end) events.

(** The templates of the records logged at level ERROR or CRITICAL. *)
Definition errors (events : list event) : list string :=
  omap (fun e => match e with
                 | Log ERROR m | Log CRITICAL m => Some m
                 | _ => None
                 end) events.

Definition is_log (e : event) : bool :=
  match e with
  | Log _ _ => true
  | _ => false
  end.

End Trace.

(** ** What the specification says, in its own words

    Definitions that follow the sentences of the specification, to compare
    with the code. *)

Module Spec.
Import ShortlistAutomation.

Section SpecShortlister.
Context {py : PyLib}.

(** The total of the specification: the durations, in years, of the entries
    whose dates are valid, added in the order of the list. *)
Definition spec_entry_years (now : Z) (exp : Snapshot.experience) : option float :=
  match Snapshot.start_date exp with
  | Some (String c rest) =>
      match strptime (String c rest) with
      | Some start =>
          let end_ :=
            match Snapshot.end_date exp with
            | Some (String c' rest') => strptime (String c' rest')
            | Some EmptyString | None => Some now
            end in
          match end_ with
          | Some end_ =>
              if (start <=? end_)%Z then Some (years_of_days (end_ - start)) else None
          | None => None
          end
      | None => None
      end
  | Some EmptyString | None => None
  end.

Definition spec_total_years (now : Z) (experience_list : list Snapshot.experience) : float :=
  foldl PrimFloat.add 0%float (omap (spec_entry_years now) experience_list).

(** An entry of a tier-1 company: its company equals a tier-1 name when
    both are lowered. *)
Definition spec_tier_1 (exp : Snapshot.experience) : Prop :=
  exists company c,
    Snapshot.company exp = Some company /\ c ∈ TIER_1_COMPANIES /\
    Py.lower c = Py.lower company.

End SpecShortlister.

(** Two Work Experience records with the same identifier, the same link to
    the applicant and the same business fields as the compressor reads them
    (an absent [Technologies] reads as the empty list). *)
Definition same_work (r r' : Airtable.row Airtable.work_fields) : Prop :=
  Airtable.id r' = Airtable.id r /\
  JsonAutomation.experience_of r' = JsonAutomation.experience_of r /\
  Airtable.Work_Applicant (Airtable.fields r') = Airtable.Work_Applicant (Airtable.fields r).

(** Two Work Experience tables with the same records in the same order. *)
Definition same_works (t t' : Airtable.table Airtable.work_fields) : Prop :=
  Forall2 same_work t t'.

(** The key of an item of the ["experience"] array. *)
Definition entry_key (e : Snapshot.experience) : option string * option string :=
  (Snapshot.company e, Snapshot.title e).

(** The fields that an item provides: the dictionary [new_exp_fields]. *)
Definition entry_fields (e : Snapshot.experience) : Airtable.work_fields :=
  Airtable.WorkFields (Snapshot.company e) (Snapshot.title e) (Snapshot.start_date e)
                      (Snapshot.end_date e) (Snapshot.technologies e) None.

(** A record corresponds to an item: it has every value that the item
    provides. *)
Definition carries (e : Snapshot.experience) (r : Airtable.row Airtable.work_fields) : Prop :=
  Store.patch_work (entry_fields e) (Airtable.fields r) = Airtable.fields r.

(** A link field whose first item, if it has one, gives an identifier that
    is not empty. *)
Definition first_link_sound (v : Airtable.link_field) : Prop :=
  match v with
  | Some (_ :: _) => Py.truthy_opt (JsonAutomation.get_first_linked_record_id v) = true
  | Some [] | None => True
  end.

(** A store that is consistent around the applicant record [a]: record
    identifiers are unique, the Work Experience records that [a] links
    exist, each linked once, and the other two link fields are sound. *)
Definition consistent (a : Airtable.row Airtable.applicant_fields) (s : Airtable.store) : Prop :=
  NoDup (List.map Airtable.id (Airtable.applicants_table s)) /\
  NoDup (List.map Airtable.id (Airtable.work_experience_table s)) /\
  NoDup (Airtable.linked_ids (Airtable.Work_Experience (Airtable.fields a))) /\
  (forall i, i ∈ Airtable.linked_ids (Airtable.Work_Experience (Airtable.fields a)) ->
             is_Some (Airtable.get (Airtable.work_experience_table s) i)) /\
  first_link_sound (Airtable.Personal_Details (Airtable.fields a)) /\
  first_link_sound (Airtable.Salary_Preferences (Airtable.fields a)).

(** The Work Experience records that the applicant [a] links correspond to
    the items of the array: one record for each item, with the item's
    values, and the applicant links these records and no other. *)
Definition corresponds (entries : list Snapshot.experience)
    (a : Airtable.row Airtable.applicant_fields) (s : Airtable.store) : Prop :=
  exists rows : list (Airtable.row Airtable.work_fields),
    Forall2 (fun e r => Airtable.get (Airtable.work_experience_table s) (Airtable.id r) = Some r /\
                        carries e r) entries rows /\
    List.map Airtable.id rows ≡ₚ
      Airtable.linked_ids (Airtable.Work_Experience (Airtable.fields a)).

(** The delay before the retry that follows failure number [k + 1]: the
    initial delay doubled [k] times. *)
Definition spec_delay (initial_delay : Q) (k : nat) : Q :=
  Nat.iter k (fun d => (d * 2)%Q) initial_delay.

(** A field that is present and that [fromisoformat] refuses. *)
Definition unparseable {py : PyLib} (field : option string) : Prop :=
  exists text, field = Some text /\ Py.truthy text = true /\
               fromisoformat (Py.replace_Z text) = None.

(** How the process ends after an action that runs one automation, by the
    result of that automation: an exception goes up, a false result exits
    with -1, a true one lets [main] return. *)
Definition outcome (result : Py.result) : Main.ending :=
  match result with
  | Py.Raised exn => Main.Uncaught exn
  | Py.RTrue => Main.Returns
  | Py.RFalse | Py.RNone => Main.SysExit (-1)
  end.

(** A line that starts one of the four parts of an answer. *)
Definition is_header (line : string) : bool :=
  let lower_line := Py.lower line in
  Py.startswith "summary:" lower_line || Py.startswith "score:" lower_line ||
  Py.startswith "issues:" lower_line || Py.startswith "follow-ups:" lower_line.

End Spec.

(** ** What a run of the decompressor keeps and establishes *)

Module Invariants.
Import Airtable Store JsonAutomation.

(** The three sections of a document of the compressor, in turn. *)
Definition decompress_sections (applicant_record : row applicant_fields)
    (data : Snapshot.t) (s : store) : store * list event :=
  let p := decompress_personal applicant_record (Snapshot.personal_section data) s in
  let e := decompress_experience applicant_record (Snapshot.experience_section data) p.1 in
  let y := decompress_salary applicant_record (Snapshot.salary_section data) e.1 in
  (y.1, p.2 ++ e.2 ++ y.2).

(** The link field of an applicant for a child table. *)
Definition link_of (c : child_table) (f : applicant_fields) : link_field :=
  match c with
  | PersonalDetails => Personal_Details f
  | WorkExperience => Work_Experience f
  | SalaryPreferences => Salary_Preferences f
  end.

(** Two applicant records that differ at most in the link field for [c]. *)
Definition only_link (c : child_table) (r r' : row applicant_fields) : Prop :=
  id r' = id r /\ exists v, fields r' = applicant_side c (fun _ => v) (fields r).

Definition only_links (c : child_table) (t t' : table applicant_fields) : Prop :=
  Forall2 (only_link c) t t'.

(** The dictionary [new_personal_fields]. *)
Definition personal_dict (d : Snapshot.personal) : personal_fields :=
  PersonalFields (Snapshot.name d) (Snapshot.email d) (Snapshot.location d)
                 (Snapshot.linkedin d) None.

(** The dictionary [new_salary_fields]. *)
Definition salary_dict (d : Snapshot.salary) : salary_fields :=
  SalaryFields (Snapshot.preferred_rate d) (Snapshot.minimum_rate d) (Snapshot.currency d)
               (Snapshot.availability_hrs_wk d) None.

(** The ["personal"] section has been written: the applicant links a
    record, and that record, if it is there, has the section's values. *)
Definition personal_settled (section : option Snapshot.personal) (v : link_field)
    (t : table personal_fields) : Prop :=
  match section with
  | None => True
  | Some d =>
      exists i, get_first_linked_record_id v = Some i /\ Py.truthy i = true /\
                match get t i with
                | Some r => patch_personal (personal_dict d) (fields r) = fields r
                | None => True
                end
  end.

Definition salary_settled (section : option Snapshot.salary) (v : link_field)
    (t : table salary_fields) : Prop :=
  match section with
  | None => True
  | Some d =>
      exists i, get_first_linked_record_id v = Some i /\ Py.truthy i = true /\
                match get t i with
                | Some r => patch_salary (salary_dict d) (fields r) = fields r
                | None => True
                end
  end.

(** The loop over the ["experience"] array, after the items [done]: the
    state [st] of a run that started from the store [s0], where the
    applicant [aid] linked the records [L0] of the table [T0].  [rows] are
    the records of the items done, [created] the identifiers of the records
    that the loop created. *)
Record reconciled (T0 : table work_fields) (A0 : table applicant_fields) (L0 : list rid)
    (cmap0 : gmap (option string * option string) rid) (aid : rid) (s0 : store)
    (done : list Snapshot.experience) (rows : list (row work_fields))
    (created : list rid) (st : reconciling) : Prop := Reconciled {
  rec_ids :
    List.map id (work_experience_table (current st)) = List.map id T0 ++ created;
  rec_nodup : NoDup (List.map id T0 ++ created);
  rec_applicants : only_links WorkExperience A0 (applicants_table (current st));
  rec_links :
    exists a_c, get (applicants_table (current st)) aid = Some a_c /\
                linked_ids (Work_Experience (fields a_c)) = L0 ++ created;
  rec_personal : personal_details_table (current st) = personal_details_table s0;
  rec_salary : salary_preferences_table (current st) = salary_preferences_table s0;
  rec_leads : shortlisted_leads_table (current st) = shortlisted_leads_table s0;
  rec_rows :
    Forall2 (fun e r =>
               get (work_experience_table (current st)) (id r) = Some r /\
               Spec.carries e r /\
               (cmap0 !! Spec.entry_key e = Some (id r) \/ id r ∈ created)) done rows;
  rec_rows_nodup : NoDup (List.map id rows);
  rec_processed : forall i, i ∈ processed_experience_ids st <-> i ∈ List.map id rows;
  rec_created : forall i, i ∈ created -> i ∈ List.map id rows
}.

(** *** What a run leaves alone

    Parts of an applicant record: the three link fields, the four fields of
    the evaluation, and the record without one of its parts. *)
Definition links_of (f : applicant_fields) : link_field * link_field * link_field :=
  (Personal_Details f, Work_Experience f, Salary_Preferences f).

Definition llm_of (f : applicant_fields)
    : option string * option Z * option string * option string :=
  (LLM_Summary f, LLM_Score f, LLM_Follow_Ups f, LLM_Last_Evaluated f).

Definition but_snapshot (f : applicant_fields) :=
  (Applicant_ID f, links_of f, Shortlist_Status f, llm_of f, Last_Modified f).

Definition but_links (f : applicant_fields) :=
  (Applicant_ID f, Compressed_JSON f, Shortlist_Status f, llm_of f, Last_Modified f).

Definition but_status (f : applicant_fields) :=
  (Applicant_ID f, links_of f, Compressed_JSON f, llm_of f, Last_Modified f).

Definition but_llm (f : applicant_fields) :=
  (Applicant_ID f, links_of f, Compressed_JSON f, Shortlist_Status f, Last_Modified f).

(** Two records with one identifier that show the same through [view], and
    two tables that have such records at each place. *)
Definition agree {A} (view : applicant_fields -> A) (r r' : row applicant_fields) : Prop :=
  id r' = id r /\ view (fields r') = view (fields r).

Definition agrees {A} (view : applicant_fields -> A) (t t' : table applicant_fields) : Prop :=
  Forall2 (agree view) t t'.

(** The three child tables are as they were. *)
Definition same_children (s s' : store) : Prop :=
  personal_details_table s' = personal_details_table s /\
  work_experience_table s' = work_experience_table s /\
  salary_preferences_table s' = salary_preferences_table s.

(** A run of the decompressor up to a point: the applicant records differ
    from those of [s] in their links at most, and the leads are those of
    [s]. *)
Definition mended (s s' : store) : Prop :=
  agrees but_links (applicants_table s) (applicants_table s') /\
  shortlisted_leads_table s' = shortlisted_leads_table s.

End Invariants.

(** ** A library instance and stores for the examples

    [json] is represented by a serialisation that has its round-trip
    property; dates are parsed in the form [YYYY-MM-DD], timestamps in the
    form [YYYY-MM-DDTHH:MM:SS+00:00]. *)

Module Fixture.
Import Airtable Store.

#[local] Instance Q_eq_dec : EqDecision Q.
Proof. solve_decision. Defined.

#[local] Instance Q_countable : Countable Q :=
  inj_countable' (fun q => (Qnum q, Qden q)) (fun p => Qmake p.1 p.2)
                 (fun q => match q with Qmake _ _ => eq_refl end).

#[local] Instance personal_eq_dec : EqDecision Snapshot.personal.
Proof. solve_decision. Defined.

#[local] Instance personal_countable : Countable Snapshot.personal :=
  inj_countable'
    (fun p => (Snapshot.name p, Snapshot.email p, Snapshot.location p, Snapshot.linkedin p))
    (fun t => Snapshot.Personal t.1.1.1 t.1.1.2 t.1.2 t.2)
    (fun p => match p with Snapshot.Personal _ _ _ _ => eq_refl end).

#[local] Instance experience_eq_dec : EqDecision Snapshot.experience.
Proof. solve_decision. Defined.

#[local] Instance experience_countable : Countable Snapshot.experience :=
  inj_countable'
    (fun e => (Snapshot.company e, Snapshot.title e, Snapshot.start_date e,
               Snapshot.end_date e, Snapshot.technologies e))
    (fun t => Snapshot.Experience t.1.1.1.1 t.1.1.1.2 t.1.1.2 t.1.2 t.2)
    (fun e => match e with Snapshot.Experience _ _ _ _ _ => eq_refl end).

#[local] Instance salary_eq_dec : EqDecision Snapshot.salary.
Proof. solve_decision. Defined.

#[local] Instance salary_countable : Countable Snapshot.salary :=
  inj_countable'
    (fun y => (Snapshot.preferred_rate y, Snapshot.minimum_rate y, Snapshot.currency y,
               Snapshot.availability_hrs_wk y))
    (fun t => Snapshot.Salary t.1.1.1 t.1.1.2 t.1.2 t.2)
    (fun y => match y with Snapshot.Salary _ _ _ _ => eq_refl end).

#[local] Instance doc_eq_dec : EqDecision Snapshot.t.
Proof. solve_decision. Defined.

#[local] Instance doc_countable : Countable Snapshot.t :=
  inj_countable'
    (fun d => (Snapshot.personal_section d, Snapshot.experience_section d,
               Snapshot.salary_section d))
    (fun t => Snapshot.Doc t.1.1 t.1.2 t.2)
    (fun d => match d with Snapshot.Doc _ _ _ => eq_refl end).

#[local] Instance part_eq_dec {A} `{EqDecision A} : EqDecision (Snapshot.part A).
Proof. solve_decision. Defined.

#[local] Instance part_countable {A} `{Countable A} : Countable (Snapshot.part A) :=
  inj_countable'
    (fun p => match p with
              | Snapshot.Object fields => inl fields
              | Snapshot.Other truth => inr truth
              end)
    (fun x => match x with
              | inl fields => Snapshot.Object fields
              | inr truth => Snapshot.Other truth
              end)
    (fun p => match p with
              | Snapshot.Object _ => eq_refl
              | Snapshot.Other _ => eq_refl
              end).

#[local] Instance entries_eq_dec : EqDecision Snapshot.entries.
Proof. solve_decision. Defined.

#[local] Instance entries_countable : Countable Snapshot.entries :=
  inj_countable'
    (fun e => match e with
              | Snapshot.Items items => Some items
              | Snapshot.NotIterable => None
              end)
    (fun x => match x with
              | Some items => Snapshot.Items items
              | None => Snapshot.NotIterable
              end)
    (fun e => match e with
              | Snapshot.Items _ => eq_refl
              | Snapshot.NotIterable => eq_refl
              end).

#[local] Instance json_eq_dec : EqDecision Snapshot.json.
Proof. solve_decision. Defined.

#[local] Instance json_countable : Countable Snapshot.json :=
  inj_countable'
    (fun v => match v with
              | Snapshot.Dict personal experience salary => Some (personal, experience, salary)
              | Snapshot.NotADict => None
              end)
    (fun x => match x with
              | Some t => Snapshot.Dict t.1.1 t.1.2 t.2
              | None => Snapshot.NotADict
              end)
    (fun v => match v with
              | Snapshot.Dict _ _ _ => eq_refl
              | Snapshot.NotADict => eq_refl
              end).

Fixpoint bits (p : positive) : string :=
  match p with
  | xH => EmptyString
  | xO p' => String "0"%char (bits p')
  | xI p' => String "1"%char (bits p')
  end.

Fixpoint of_bits (s : string) : option positive :=
  match s with
  | EmptyString => Some xH
  | String c s' =>
      match of_bits s' with
      | Some p =>
          if Ascii.eqb c "0"%char then Some (xO p)
          else if Ascii.eqb c "1"%char then Some (xI p)
          else None
      | None => None
      end
  end.

Definition dumps (data : Snapshot.t) : string := String "{"%char (bits (encode data)).

(** A text for a value of any shape. *)
Definition written (value : Snapshot.json) : string :=
  String "<"%char (bits (encode value)).

(** What is written by [dumps] reads as the document, what is written by
    [written] as the value; ["[]"] and ["null"] are not objects. *)
Definition loads (text : string) : option Snapshot.json :=
  if String.eqb text "[]" || String.eqb text "null" then Some Snapshot.NotADict
  else
    match text with
    | String c rest =>
        if Ascii.eqb c "{"%char then
          match of_bits rest with
          | Some p => Snapshot.document <$> decode p
          | None => None
          end
        else if Ascii.eqb c "<"%char then
          match of_bits rest with
          | Some p => decode p
          | None => None
          end
        else None
    | EmptyString => None
    end.

(** [time.sleep]: a negative length is refused. *)
Definition sleep (seconds : Q) : option string :=
  if Qle_bool 0 seconds then None else Some "ValueError".

Definition digit (c : ascii) : option Z :=
  let n := nat_of_ascii c in
  if (48 <=? n)%nat && (n <=? 57)%nat then Some (Z.of_nat (n - 48)) else None.

(** The number that the digits [s] write after the digits of [acc]. *)
Fixpoint digits (acc : Z) (s : string) : option Z :=
  match s with
  | EmptyString => Some acc
  | String c s' =>
      match digit c with
      | Some d => digits (acc * 10 + d) s'
      | None => None
      end
  end.

Definition number (s : string) : option Z :=
  match s with
  | EmptyString => None
  | String _ _ => digits 0 s
  end.

Definition is_leap (y : Z) : bool :=
  ((y mod 4 =? 0) && negb (y mod 100 =? 0) || (y mod 400 =? 0))%Z.

Definition days_in_month (y m : Z) : Z :=
  if (m =? 2)%Z then (if is_leap y then 29 else 28)%Z
  else if ((m =? 4) || (m =? 6) || (m =? 9) || (m =? 11))%Z then 30%Z
  else 31%Z.

(** The day number of a date of the proleptic Gregorian calendar. *)
Definition day_number (y m d : Z) : Z :=
  let y' := (if m <=? 2 then y - 1 else y)%Z in
  let era := (y' / 400)%Z in
  let yoe := (y' - era * 400)%Z in
  let mp := ((m + 9) mod 12)%Z in
  let doy := ((153 * mp + 2) / 5 + d - 1)%Z in
  let doe := (yoe * 365 + yoe / 4 - yoe / 100 + doy)%Z in
  (era * 146097 + doe)%Z.

Definition date (text : string) : option Z :=
  match number (substring 0 4 text), number (substring 5 2 text),
        number (substring 8 2 text) with
  | Some y, Some m, Some d =>
      if (String.length text =? 10)%nat && String.eqb (substring 4 1 text) "-"
         && String.eqb (substring 7 1 text) "-"
         && (1 <=? m)%Z && (m <=? 12)%Z && (1 <=? d)%Z && (d <=? days_in_month y m)%Z
      then Some (day_number y m d)
      else None
  | _, _, _ => None
  end.

Definition timestamp (text : string) : option Py.datetime :=
  match date (substring 0 10 text), number (substring 11 2 text),
        number (substring 14 2 text), number (substring 17 2 text) with
  | Some day, Some h, Some m, Some sec =>
      if (String.length text =? 25)%nat && String.eqb (substring 10 1 text) "T"
         && String.eqb (substring 13 1 text) ":" && String.eqb (substring 16 1 text) ":"
         && String.eqb (substring 19 6 text) "+00:00"
         && (h <? 24)%Z && (m <? 60)%Z && (sec <? 60)%Z
      then Some (Py.Datetime true ((((day * 24 + h) * 60 + m) * 60 + sec) * 1000000))
      else None
  | _, _, _, _ => None
  end.

Definition decimal_digit (n : Z) : string :=
  String (ascii_of_nat (48 + Z.to_nat n)) EmptyString.

Fixpoint decimal_from (fuel : nat) (n : Z) : string :=
  match fuel with
  | O => ""
  | S fuel' =>
      if (n <? 10)%Z then decimal_digit n
      else decimal_from fuel' (n / 10) +:+ decimal_digit (n mod 10)
  end.

Definition decimal (n : Z) : string :=
  if (n <? 0)%Z then "-" +:+ decimal_from 40 (- n) else decimal_from 40 n.

Definition show_number (q : Q) : string :=
  if (Z.pos (Qden q) =? 1)%Z then decimal (Qnum q)
  else decimal (Qnum q) +:+ "/" +:+ decimal (Z.pos (Qden q)).

(** [f"{x:.1f}"] for a float that is not negative: the tenths nearest to
    [x], the even one of two that are as near. *)
Definition show_years (x : float) : string :=
  let m := Uint63.to_Z (PrimFloat.normfr_mantissa (fst (PrimFloat.frshiftexp x))) in
  let e := (Uint63.to_Z (snd (PrimFloat.frshiftexp x)) - FloatOps.shift - 53)%Z in
  let num := (m * 10 * 2 ^ Z.max 0 e)%Z in
  let den := (2 ^ Z.max 0 (- e))%Z in
  let n := (num / den)%Z in
  let r := (num mod den)%Z in
  let tenths :=
    (if 2 * r <? den then n
     else if den <? 2 * r then n + 1
     else if Z.even n then n else n + 1)%Z in
  decimal (tenths / 10) +:+ "." +:+ decimal (tenths mod 10).

Definition python : PyLib := {|
  json_dumps := dumps;
  json_loads := loads;
  strptime := date;
  fromisoformat := timestamp;
  int_of_str := fun s =>
    match s with
    | String c rest => if Ascii.eqb c "-"%char then Z.opp <$> number rest else number s
    | EmptyString => None
    end;
  time_sleep := sleep;
  format_number := show_number;
  format_years := show_years;
  set_order := fun elements => elements
|}.

(** *** Stores *)

Definition no_personal : personal_fields := PersonalFields None None None None None.
Definition no_work : work_fields := WorkFields None None None None None None.
Definition no_salary : salary_fields := SalaryFields None None None None None.

(** An applicant with one record in each child table and two jobs, linked
    in the order [recW2], [recW1]. *)
Definition ann : row applicant_fields :=
  Row "recA1"
      (ApplicantFields (Some "APP001") (Some [LinkStr "recP1"])
                       (Some [LinkStr "recW2"; LinkDict (Some "recW1")])
                       (Some [LinkStr "recS1"]) None None None None None None None).

Definition ann_personal : row personal_fields :=
  Row "recP1"
      (PersonalFields (Some "Ann Lee") (Some "ann@example.org") (Some "San Francisco, US")
                      None (Some [LinkStr "recA1"])).

Definition ann_acme : row work_fields :=
  Row "recW1"
      (WorkFields (Some "Acme") (Some "Engineer") (Some "2015-01-01") (Some "2018-01-01")
                  (Some ["python"]) (Some [LinkStr "recA1"])).

Definition ann_globex : row work_fields :=
  Row "recW2"
      (WorkFields (Some "Globex") (Some "Lead") (Some "2018-02-01") None None
                  (Some [LinkStr "recA1"])).

Definition ann_salary : row salary_fields :=
  Row "recS1"
      (SalaryFields (Some 80%Q) (Some 60%Q) (Some "USD") (Some 25%Q) (Some [LinkStr "recA1"])).

Definition base : store :=
  Store [ann] [ann_personal] [ann_acme; ann_globex] [ann_salary] [].

(** The same records, the Work Experience table in the other order. *)
Definition base_reordered : store :=
  Store [ann] [ann_personal] [ann_globex; ann_acme] [ann_salary] [].

(** An applicant with a snapshot that asks for 150 USD an hour. *)
Definition pricey_doc : Snapshot.t :=
  Snapshot.Doc
    (Some (Snapshot.Personal (Some "Bo Chen") None (Some "Toronto, Canada") None))
    [Snapshot.Experience (Some "Initech") (Some "Developer") (Some "2015-01-01")
                         (Some "2021-01-01") (Some [])]
    (Some (Snapshot.Salary (Some 150%Q) None (Some "USD") (Some 25%Q))).

Definition pricey : row applicant_fields :=
  Row "recA2"
      (ApplicantFields (Some "APP002") None None None (Some (dumps pricey_doc))
                       None None None None None None).

Definition pricey_store : store := Store [pricey] [] [] [] [].

(** An applicant evaluated after the snapshot was last modified. *)
Definition evaluated : row applicant_fields :=
  Row "recA3"
      (ApplicantFields (Some "APP003") None None None (Some (dumps pricey_doc)) None
                       (Some "A developer.") (Some 7%Z) None
                       (Some "2024-05-02T09:30:00Z") (Some "2024-05-01T10:00:00Z")).

Definition evaluated_store : store := Store [evaluated] [] [] [] [].

(** An applicant whose [Last Modified] is not a timestamp, with a snapshot
    and without one. *)
Definition undated : row applicant_fields :=
  Row "recA4"
      (ApplicantFields (Some "APP004") None None None (Some (dumps pricey_doc)) None
                       None None None None (Some "yesterday")).

Definition undated_store : store := Store [undated] [] [] [] [].

Definition undated_empty : row applicant_fields :=
  Row "recA5"
      (ApplicantFields (Some "APP005") None None None None None
                       None None None None (Some "yesterday")).

Definition undated_empty_store : store := Store [undated_empty] [] [] [] [].

(** A language model that answers every call. *)
Definition answers (attempt : nat) : LlmAutomation.llm_reply :=
  LlmAutomation.Content "Summary: A developer.".

(** A language model whose every call raises [APIError]. *)
Definition unreachable (attempt : nat) : LlmAutomation.llm_reply :=
  LlmAutomation.APIError.

(** An applicant whose only job has no title. *)
Definition untitled_job : row work_fields :=
  Row "recW9"
      (WorkFields (Some "Acme") None (Some "2019-03-01") None None (Some [LinkStr "recA6"])).

Definition untitled : row applicant_fields :=
  Row "recA6"
      (ApplicantFields (Some "APP006") None (Some [LinkStr "recW9"]) None None
                       None None None None None None).

Definition untitled_store : store := Store [untitled] [] [untitled_job] [] [].

(** A snapshot edited by hand: the job at Acme has a new end date, a job at
    Initech is new, the job at Globex is gone; and there are salary
    preferences now. *)
Definition edited_doc : Snapshot.t :=
  Snapshot.Doc
    (Some (Snapshot.Personal (Some "Ann Lee") None (Some "Berlin, Germany") None))
    [Snapshot.Experience (Some "Acme") (Some "Engineer") None (Some "2018-06-30") None;
     Snapshot.Experience (Some "Initech") (Some "Developer") (Some "2018-07-01") None
                         (Some ["rocq"])]
    (Some (Snapshot.Salary (Some 90%Q) None (Some "USD") (Some 30%Q))).

Definition edited : row applicant_fields :=
  Row "recA1"
      (ApplicantFields (Some "APP001") (Some [LinkStr "recP1"])
                       (Some [LinkStr "recW2"; LinkDict (Some "recW1")])
                       None (Some (dumps edited_doc)) None None None None None None).

Definition edited_store : store :=
  Store [edited] [ann_personal] [ann_acme; ann_globex] [] [].

(** A snapshot whose only item has no title. *)
Definition nameless_doc : Snapshot.t :=
  Snapshot.Doc None
    [Snapshot.Experience (Some "Acme") None (Some "2019-03-01") None (Some [])]
    None.

Definition nameless : row applicant_fields :=
  Row "recA7"
      (ApplicantFields (Some "APP007") None None None (Some (dumps nameless_doc))
                       None None None None None None).

Definition nameless_store : store := Store [nameless] [] [] [] [].

(** An applicant whose [Compressed JSON] is not a document. *)
Definition garbled : row applicant_fields :=
  Row "recA8"
      (ApplicantFields (Some "APP008") None None None (Some "{") None None None None None None).

Definition garbled_store : store := Store [garbled] [] [] [] [].

(** A personal section with nothing but a location. *)
Definition located (place : string) : option Snapshot.personal :=
  Some (Snapshot.Personal None None (Some place) None).

(** An applicant who meets the three criteria, and a store with a lead
    for somebody else. *)
Definition keen_doc : Snapshot.t :=
  Snapshot.Doc
    (Some (Snapshot.Personal (Some "Cy Diaz") None (Some "Berlin, Germany") None))
    [Snapshot.Experience (Some "google") (Some "Engineer") (Some "2020-01-01")
                         (Some "2021-01-01") (Some [])]
    (Some (Snapshot.Salary (Some 80%Q) None (Some "USD") (Some 30%Q))).

Definition keen : row applicant_fields :=
  Row "recA9"
      (ApplicantFields (Some "APP009") None None None (Some (dumps keen_doc))
                       None None None None None None).

Definition other_lead : row lead_fields :=
  Row "recL1" (LeadFields (Some [LinkStr "recA2"]) (Some "{}") (Some "Experience")).

Definition keen_store : store := Store [pricey; keen] [] [] [] [other_lead].

(** A language model that fails once and then answers, one that fails
    once and then answers with white space, and one whose second call
    raises an [APIError] without a status code. *)
Definition flaky (attempt : nat) : LlmAutomation.llm_reply :=
  match attempt with
  | O => LlmAutomation.APIError
  | S _ => LlmAutomation.Content "Summary: Solid."
  end.

Definition hesitant (attempt : nat) : LlmAutomation.llm_reply :=
  match attempt with
  | O => LlmAutomation.APIError
  | S _ => LlmAutomation.Content "  "
  end.




(** An applicant whose snapshot has a personal section and [null] for its
    experience. *)
Definition jobless_value : Snapshot.json :=
  Snapshot.Dict
    (Snapshot.Object (Some (Snapshot.Personal (Some "Di Evans") None (Some "Leeds, UK") None)))
    Snapshot.NotIterable
    (Snapshot.Object None).

Definition jobless : row applicant_fields :=
  Row "recA12"
      (ApplicantFields (Some "APP012") None None None (Some (written jobless_value))
                       None None None None None None).

Definition jobless_store : store := Store [jobless] [] [] [] [].

(** An applicant whose snapshot was modified at a time with an offset and
    evaluated at a time without one. *)
Definition mixed : row applicant_fields :=
  Row "recA10"
      (ApplicantFields (Some "APP010") None None None (Some (dumps pricey_doc)) None
                       None None None
                       (Some "2024-05-02T09:30:00") (Some "2024-05-01T10:00:00Z")).

Definition mixed_store : store := Store [mixed] [] [] [] [].

(** A library whose [fromisoformat] reads a timestamp without an offset
    as well, as a naive datetime. *)
Definition naive_timestamp (text : string) : option Py.datetime :=
  match timestamp (text +:+ "+00:00") with
  | Some d => Some (Py.Datetime false (Py.micros d))
  | None => None
  end.

Definition python_with_naive : PyLib := {|
  json_dumps := dumps;
  json_loads := loads;
  strptime := date;
  fromisoformat := fun text =>
    match timestamp text with
    | Some d => Some d
    | None => naive_timestamp text
    end;
  int_of_str := int_of_str (PyLib:=python);
  time_sleep := sleep;
  format_number := show_number;
  format_years := show_years;
  set_order := fun elements => elements
|}.

End Fixture.

(** * Properties *)

(** ** Tables *)

Section TableFacts.
Import Airtable.
Context {F : Type}.
Implicit Types (t : table F) (r : row F) (i : rid).

Lemma get_Some t i r : get t i = Some r -> r ∈ t /\ id r = i.
Proof.
  unfold get. intros H. apply find_some in H as [Hin Heq].
  split; [by apply list_elem_of_In | by apply String.eqb_eq].
Qed.

Lemma get_None t i : get t i = None <-> i ∉ List.map id t.
Proof.
  unfold get. induction t as [|r t IH]; simpl.
  - split; [intros _; apply not_elem_of_nil | done].
  - rewrite not_elem_of_cons. destruct (String.eqb_spec (id r) i) as [->|Hne].
    + split; [done | by intros [? _]].
    + rewrite IH. split; [intros ?; split; congruence | by intros [_ ?]].
Qed.

Lemma get_is_Some t i : is_Some (get t i) <-> i ∈ List.map id t.
Proof.
  destruct (get t i) eqn:E.
  - split; [intros _ | by eauto].
    apply get_Some in E as [Hin <-]. apply list_elem_of_fmap. by exists r.
  - split; [by intros [? ?] | intros Hin]. by apply get_None in E.
Qed.

Lemma get_member t r : NoDup (List.map id t) -> r ∈ t -> get t (id r) = Some r.
Proof.
  unfold get. induction t as [|r' t IH]; simpl; intros Hnd Hin.
  - by apply elem_of_nil in Hin.
  - apply NoDup_cons in Hnd as [Hnotin Hnd].
    apply elem_of_cons in Hin as [->|Hin].
    + by rewrite String.eqb_refl.
    + destruct (String.eqb_spec (id r') (id r)) as [Heq|_]; [|by apply IH].
      exfalso. apply Hnotin. rewrite Heq. apply list_elem_of_fmap. by exists r.
Qed.

Lemma get_permutation t t' i :
  NoDup (List.map id t) -> t ≡ₚ t' -> get t i = get t' i.
Proof.
  intros Hnd Hp.
  assert (Hnd' : NoDup (List.map id t')) by (by rewrite <- Hp).
  destruct (get t i) as [r|] eqn:E.
  - apply get_Some in E as [Hin <-]. symmetry. apply get_member; [done | by rewrite <- Hp].
  - symmetry. apply get_None. apply get_None in E. by rewrite <- Hp.
Qed.

Lemma get_all_in t ids i :
  i ∈ ids -> get (all (record_id_in ids) t) i = get t i.
Proof.
  intros Hi. unfold get, all. induction t as [|r t IH]; simpl; [done|].
  destruct (record_id_in ids r) eqn:E; simpl.
  - by destruct (String.eqb (id r) i).
  - destruct (String.eqb_spec (id r) i) as [Heq|_]; [|done].
    exfalso. unfold record_id_in in E. apply not_true_iff_false in E. apply E.
    apply existsb_exists. exists i. split; [by apply list_elem_of_In | by apply String.eqb_eq].
Qed.

Lemma all_NoDup (p : row F -> bool) t :
  NoDup (List.map id t) -> NoDup (List.map id (all p t)).
Proof.
  unfold all. induction t as [|r t IH]; simpl; [done|].
  rewrite NoDup_cons. intros [Hnotin Hnd]. destruct (p r); simpl; [|by apply IH].
  apply NoDup_cons. split; [|by apply IH].
  intros Hin. apply Hnotin. apply list_elem_of_fmap in Hin as (r' & -> & Hin).
  apply list_elem_of_fmap. exists r'. split; [done|].
  apply list_elem_of_In in Hin. apply filter_In in Hin as [Hin _]. by apply list_elem_of_In.
Qed.

Lemma get_app t t' i :
  get (t ++ t') i = match get t i with Some r => Some r | None => get t' i end.
Proof.
  unfold get. induction t as [|r t IH]; simpl; [done|].
  by destruct (String.eqb (id r) i).
Qed.

Lemma records_by_id_from (l : list (row F)) (m : gmap rid (row F)) i :
  foldl (fun m rec => <[id rec := rec]> m) m l !! i =
  match get (reverse l) i with
  | Some r => Some r
  | None => m !! i
  end.
Proof.
  revert m. induction l as [|r l IH]; intros m; simpl; [done|].
  rewrite IH, reverse_cons, get_app.
  destruct (get (reverse l) i); [done|]. unfold get. simpl.
  destruct (String.eqb_spec (id r) i) as [<-|Hne].
  - by rewrite lookup_insert_eq.
  - by rewrite lookup_insert_ne.
Qed.

Lemma records_by_id_lookup (l : list (row F)) i :
  NoDup (List.map id l) -> JsonAutomation.records_by_id l !! i = get l i.
Proof.
  intros Hnd. unfold JsonAutomation.records_by_id. rewrite records_by_id_from.
  rewrite lookup_empty, <- (get_permutation l (reverse l) i Hnd).
  - by destruct (get l i).
  - by rewrite reverse_Permutation.
Qed.

End TableFacts.

(** ** The compressor *)

Section CompressorFacts.
Import Airtable Store JsonAutomation.

Lemma get_all_linked_record_ids_linked_ids (v : link_field) :
  get_all_linked_record_ids v = linked_ids v.
Proof.
  destruct v as [items|]; [|done]. simpl.
  induction items as [|it items IH]; [done|].
  destruct it as [i|[i|]|]; simpl; first [exact IH | f_equal; exact IH].
Qed.

Lemma compress_experience_lookup (applicant_record : row applicant_fields) (s : store) :
  NoDup (List.map id (work_experience_table s)) ->
  (compress_experience applicant_record s).1 =
  omap (fun link_id => experience_of <$> get (work_experience_table s) link_id)
       (get_all_linked_record_ids (Work_Experience (fields applicant_record))).
Proof.
  intros Hnd. unfold compress_experience.
  destruct (get_all_linked_record_ids _) as [|i0 ids] eqn:E; [done|]. cbn [fst].
  apply list_omap_ext, Forall2_same_length_lookup_2; [done|].
  intros k i i' Hi Hi'. assert (i' = i) as -> by congruence.
  rewrite records_by_id_lookup by (by apply all_NoDup).
  rewrite get_all_in; [done|]. by eapply list_elem_of_lookup_2.
Qed.

(** C3.  The ["experience"] array that [compress_applicant_data] serialises
    has one item per linked identifier that is a record of the table, in
    the order of the applicant's link field; it is the same whatever the
    order in which the store returns the records. *)
Theorem compress_experience_follows_link_field
    (applicant_record : row applicant_fields) (s s' : store) :
  NoDup (List.map id (work_experience_table s)) ->
  work_experience_table s' ≡ₚ work_experience_table s ->
  Snapshot.experience_section (compressed_data applicant_record s) =
    omap (fun link_id => experience_of <$> get (work_experience_table s) link_id)
         (get_all_linked_record_ids (Work_Experience (fields applicant_record))) /\
  Snapshot.experience_section (compressed_data applicant_record s') =
    Snapshot.experience_section (compressed_data applicant_record s).
Proof.
  intros Hnd Hp.
  assert (Hnd' : NoDup (List.map id (work_experience_table s'))) by (by rewrite Hp).
  unfold compressed_data. cbn [Snapshot.experience_section].
  rewrite !compress_experience_lookup by done. split; [done|].
  apply list_omap_ext, Forall2_same_length_lookup_2; [done|].
  intros k i i' Hi Hi'. assert (i' = i) as -> by congruence.
  by rewrite (get_permutation _ _ i Hnd' Hp).
Qed.

End CompressorFacts.

Lemma compress_experience_follows_link_field_witness :
  Snapshot.experience_section (JsonAutomation.compressed_data Fixture.ann Fixture.base) =
    [JsonAutomation.experience_of Fixture.ann_globex;
     JsonAutomation.experience_of Fixture.ann_acme] /\
  Snapshot.experience_section (JsonAutomation.compressed_data Fixture.ann Fixture.base_reordered) =
    Snapshot.experience_section (JsonAutomation.compressed_data Fixture.ann Fixture.base).
Proof.
  apply (compress_experience_follows_link_field Fixture.ann Fixture.base Fixture.base_reordered).
  - refine (@bool_decide_unpack _ (NoDup_dec _) _). vm_compute. exact I.
  - apply Permutation_swap.
Defined.

(** ** The shortlister *)

Section ShortlisterFacts.
Import Airtable Store ShortlistAutomation Spec.
Context {py : PyLib}.

Lemma entry_dates_spec now exp :
  spec_entry_years now exp =
  match entry_dates now exp with
  | Counted days => Some (years_of_days days)
  | _ => None
  end.
Proof.
  unfold spec_entry_years, entry_dates.
  destruct (Snapshot.start_date exp) as [[|c rest]|]; simpl; [done| |done].
  destruct (strptime (String c rest)) as [start|]; [|done].
  destruct (Snapshot.end_date exp) as [[|c' rest']|]; simpl.
  - rewrite Z.leb_antisym. by destruct (now <? start)%Z.
  - destruct (strptime (String c' rest')) as [e|]; [|done].
    rewrite Z.leb_antisym. by destruct (e <? start)%Z.
  - rewrite Z.leb_antisym. by destruct (now <? start)%Z.
Qed.

Lemma count_entries_total now l acc :
  total_years (foldl (count_entry now) acc l) =
  foldl PrimFloat.add (total_years acc) (omap (spec_entry_years now) l).
Proof.
  revert acc. induction l as [|exp l IH]; intros acc; [done|].
  cbn [foldl]. rewrite IH. unfold count_entry.
  change (omap (spec_entry_years now) (exp :: l)) with
    (match spec_entry_years now exp with
     | Some y => y :: omap (spec_entry_years now) l
     | None => omap (spec_entry_years now) l
     end).
  rewrite entry_dates_spec. by destruct (entry_dates now exp).
Qed.

Lemma count_entries_tier now l acc :
  tier_1_company_present (foldl (count_entry now) acc l) =
  tier_1_company_present acc || existsb (fun exp => is_tier_1 (Snapshot.company exp)) l.
Proof.
  revert acc. induction l as [|exp l IH]; intros acc; simpl.
  - by rewrite orb_false_r.
  - rewrite IH, orb_assoc. f_equal. unfold count_entry. by destruct (entry_dates now exp).
Qed.

Lemma is_tier_1_spec exp : is_tier_1 (Snapshot.company exp) = true <-> spec_tier_1 exp.
Proof.
  unfold is_tier_1, spec_tier_1. destruct (Snapshot.company exp) as [company|].
  - rewrite andb_true_iff, existsb_exists. split.
    + intros [_ (c & Hin & Heq)]. exists company, c.
      by rewrite <- list_elem_of_In, String.eqb_eq in *.
    + intros (company' & c & [= <-] & Hin & Heq). split.
      * destruct company; [|done]. exfalso. revert Hin Heq. unfold TIER_1_COMPANIES.
        rewrite !elem_of_cons, elem_of_nil. intros Hc Heq.
        destruct Hc as [->|[->|[->|[->|[->|[->|[->|[->|[]]]]]]]]]; discriminate Heq.
      * exists c. by rewrite <- list_elem_of_In, String.eqb_eq.
  - split; [done | by intros (? & ? & ? & _)].
Qed.

(** C6.  The total that [calculate_experience_years] returns is the sum, in
    the order of the list, of [days / 365.25] over the entries whose start
    date is present and parses, whose end date parses or is absent (then
    it is the current time) and whose start is not after the end; the
    experience criterion is met exactly when that total is at least 4 or
    some entry is of a tier-1 company. *)
Theorem experience_years_and_criterion (now : Z) (experience_list : list Snapshot.experience) :
  total_years (calculate_experience_years now experience_list) =
    spec_total_years now experience_list /\
  (experience_criteria_met now experience_list = true <->
     PrimFloat.leb 4%float (spec_total_years now experience_list) = true \/
     exists exp, exp ∈ experience_list /\ spec_tier_1 exp).
Proof.
  assert (Ht : total_years (calculate_experience_years now experience_list) =
               spec_total_years now experience_list)
    by apply count_entries_total.
  split; [done|].
  unfold experience_criteria_met. rewrite Ht, orb_true_iff.
  unfold calculate_experience_years. rewrite count_entries_tier. cbn [tier_1_company_present orb].
  rewrite existsb_exists. split; (intros [H|H]; [by left | right]).
  - destruct H as (exp & Hin & Ht1). exists exp.
    split; [by apply list_elem_of_In | by apply is_tier_1_spec].
  - destruct H as (exp & Hin & Ht1). exists exp.
    split; [by apply list_elem_of_In | by apply is_tier_1_spec].
Qed.

End ShortlisterFacts.

(** ** Updates *)

Section UpdateFacts.
Import Airtable.
Context {F : Type}.
Implicit Types (t : table F) (r : row F) (i : rid).

Lemma update_Some t i r (f : F -> F) :
  get t i = Some r ->
  exists t', update i f t = Some t' /\ get t' i = Some (Row i (f (fields r))) /\
             List.map id t' = List.map id t /\
             forall j, j <> i -> get t' j = get t j.
Proof.
  unfold get. induction t as [|r0 t IH]; simpl; [done|].
  destruct (String.eqb_spec (id r0) i) as [Heq|Hne].
  - intros [= ->]. eexists. split; [done|]. simpl. rewrite String.eqb_refl.
    split; [done|]. split; [by rewrite Heq|].
    intros j Hj. destruct (String.eqb_spec i j); [congruence|].
    destruct (String.eqb_spec (id r) j); [congruence | done].
  - intros Hget. destruct (IH Hget) as (t' & -> & Hg & Hids & Hother).
    eexists. split; [done|]. simpl.
    destruct (String.eqb_spec (id r0) i); [done|]. split; [done|].
    split; [by rewrite Hids|]. intros j Hj. by rewrite (Hother j Hj).
Qed.

Lemma update_None t i (f : F -> F) : get t i = None -> update i f t = None.
Proof.
  unfold get. induction t as [|r0 t IH]; simpl; [done|].
  destruct (String.eqb (id r0) i); [done|]. intros Hget. by rewrite IH.
Qed.

Lemma all_head (p : row F -> bool) t r rest :
  all p t = r :: rest -> r ∈ t /\ p r = true.
Proof.
  intros H. assert (Hin : In r (all p t)) by (rewrite H; by left).
  apply filter_In in Hin as [Hin Hp]. split; [by apply list_elem_of_In | done].
Qed.

Lemma all_head_get (p : row F -> bool) t r rest :
  all p t = r :: rest -> is_Some (get t (id r)).
Proof.
  intros H. apply all_head in H as [Hin _]. apply get_is_Some.
  apply list_elem_of_fmap. by exists r.
Qed.

End UpdateFacts.

(** ** Events *)

Section TraceFacts.

Lemma llm_calls_app (e1 e2 : list event) :
  Trace.llm_calls (e1 ++ e2) = Trace.llm_calls e1 ++ Trace.llm_calls e2.
Proof. apply omap_app. Qed.

Lemma sleeps_app (e1 e2 : list event) :
  Trace.sleeps (e1 ++ e2) = Trace.sleeps e1 ++ Trace.sleeps e2.
Proof. apply omap_app. Qed.

Lemma errors_app (e1 e2 : list event) :
  Trace.errors (e1 ++ e2) = Trace.errors e1 ++ Trace.errors e2.
Proof. apply omap_app. Qed.

Lemma only_logs_app (e1 e2 : list event) :
  forallb Trace.is_log (e1 ++ e2) = forallb Trace.is_log e1 && forallb Trace.is_log e2.
Proof. apply forallb_app. Qed.

Lemma only_logs_no_calls (events : list event) :
  forallb Trace.is_log events = true -> Trace.llm_calls events = [].
Proof.
  induction events as [|e events IH]; [done|]. simpl. intros [He Hes]%andb_true_iff.
  destruct e; try done; by apply IH.
Qed.

Lemma only_logs_no_sleeps (events : list event) :
  forallb Trace.is_log events = true -> Trace.sleeps events = [].
Proof.
  induction events as [|e events IH]; [done|]. simpl. intros [He Hes]%andb_true_iff.
  destruct e; try done; by apply IH.
Qed.

End TraceFacts.

(** ** Text *)

Section TextFacts.

Lemma contains_app_r (sub a b : string) :
  Py.contains sub b = true -> Py.contains sub (a +:+ b) = true.
Proof.
  intros H. induction a as [|c a IH]; [done|].
  change (String c a +:+ b) with (String c (a +:+ b)).
  cbn [Py.contains]. rewrite IH. apply orb_true_r.
Qed.

Lemma startswith_app (p s : string) : Py.startswith p (p +:+ s) = true.
Proof.
  induction p as [|c p IH]; [done|]. simpl. by rewrite Ascii.eqb_refl.
Qed.

Lemma contains_prefix (p s : string) : Py.contains p (p +:+ s) = true.
Proof.
  destruct p as [|c p]; [by destruct s|].
  change (String c p +:+ s) with (String c (p +:+ s)).
  cbn [Py.contains]. change (String c (p +:+ s)) with (String c p +:+ s).
  by rewrite startswith_app.
Qed.

Lemma append_assoc (a b c : string) : (a +:+ b) +:+ c = a +:+ (b +:+ c).
Proof.
  induction a as [|x a IH]; [done|].
  change (String x ((a +:+ b) +:+ c) = String x (a +:+ (b +:+ c))). by rewrite IH.
Qed.

End TextFacts.

(** ** A document of the compressor among the values of any shape *)

Section ShapeFacts.
Import Airtable Store JsonAutomation ShortlistAutomation Invariants.
Context {py : PyLib}.

Lemma objects_document (entries : list Snapshot.experience) :
  Snapshot.objects (List.map Some entries) = Some entries.
Proof. induction entries as [|e entries IH]; [done|]. cbn. by rewrite IH. Qed.

Lemma objects_leading (items : list (option Snapshot.experience))
    (entries : list Snapshot.experience) :
  Snapshot.objects items = Some entries -> Snapshot.leading items = entries.
Proof.
  revert entries. induction items as [|[e|] items IH]; intros entries; cbn; [congruence| |done].
  destruct (Snapshot.objects items) as [es|]; [|done].
  intros [= <-]. by rewrite (IH es).
Qed.

Lemma read_snapshot_document (now : Z) (data : Snapshot.t) :
  read_snapshot now (Snapshot.document data) = inl data.
Proof.
  unfold read_snapshot, Snapshot.document. rewrite objects_document. by destruct data.
Qed.

Lemma decompress_value_document (a : row applicant_fields) (data : Snapshot.t) (s : store) :
  decompress_value a (Snapshot.document data) s =
  (Py.RTrue, (decompress_sections a data s).1,
   (decompress_sections a data s).2 ++
   [Log INFO "Successfully decompressed data for Applicant ID: {applicant_id_text}"]).
Proof.
  unfold decompress_value, Snapshot.document, decompress_sections.
  rewrite objects_document. cbn [Snapshot.fields_of fst snd].
  by rewrite <- !app_assoc.
Qed.

End ShapeFacts.

(** ** The shortlisting decision *)

Section DecisionFacts.
Import Airtable Store ShortlistAutomation.
Context {py : PyLib}.

Lemma set_status_Some (i : rid) (status : string) (s : store) (r : row applicant_fields) :
  get (applicants_table s) i = Some r ->
  exists s1, set_status i status s = Some s1 /\
    (exists r1, get (applicants_table s1) i = Some r1 /\
                Shortlist_Status (fields r1) = Some status) /\
    personal_details_table s1 = personal_details_table s /\
    work_experience_table s1 = work_experience_table s /\
    salary_preferences_table s1 = salary_preferences_table s /\
    shortlisted_leads_table s1 = shortlisted_leads_table s.
Proof.
  intros Hget. unfold set_status.
  destruct (update_Some _ _ _ (patch_applicant (status_fields status)) Hget)
    as (t' & -> & Hg & _ & _).
  eexists. split; [done|]. split; [|done]. eexists. split; [exact Hg | done].
Qed.

Lemma warnings_only_logs now l acc :
  forallb Trace.is_log (warnings acc) = true ->
  forallb Trace.is_log (warnings (foldl (count_entry now) acc l)) = true.
Proof.
  revert acc. induction l as [|exp l IH]; intros acc Hacc; [done|].
  cbn [foldl]. apply IH. unfold count_entry.
  destruct (entry_dates now exp); cbn [warnings]; [done|..];
    by rewrite only_logs_app, Hacc.
Qed.

(** What [shortlist_applicant] does for an applicant whose snapshot reads
    as a document of the compressor and fails a criterion. *)
Lemma shortlist_applicant_rejects (now : Z) (applicant_id_text : string) (s : store)
    (a : row applicant_fields) (rest : list (row applicant_fields))
    (json : string) (data : Snapshot.t) :
  all (applicant_id_is applicant_id_text) (applicants_table s) = a :: rest ->
  Compressed_JSON (fields a) = Some json ->
  Py.truthy json = true ->
  json_loads json = Some (Snapshot.document data) ->
  is_shortlisted now data = false ->
  exists s1 events,
    shortlist_applicant now applicant_id_text s = (Py.RNone, s1, events) /\
    set_status (id a) "Not Shortlisted" s = Some s1 /\
    (exists r1, get (applicants_table s1) (id a) = Some r1 /\
                Shortlist_Status (fields r1) = Some "Not Shortlisted") /\
    shortlisted_leads_table s1 = shortlisted_leads_table s /\
    forallb Trace.is_log events = true.
Proof.
  intros Hall Hjson Htruthy Hloads Hno.
  destruct (all_head_get _ _ _ _ Hall) as [r Hget].
  destruct (set_status_Some (id a) "Not Shortlisted" s r Hget)
    as (s1 & Hset & Hstatus & _ & _ & _ & Hleads).
  unfold shortlist_applicant. rewrite Hall, Hjson. cbn [Py.truthy_opt from_option].
  rewrite Htruthy, Hloads, read_snapshot_document, Hno, Hset.
  eexists _, _. split; [done|]. repeat split; try done.
  rewrite !only_logs_app. cbn [forallb Trace.is_log andb].
  rewrite andb_true_r. by apply warnings_only_logs.
Qed.

Lemma compensation_criteria_met_iff (salary_data : option Snapshot.salary) :
  compensation_criteria_met salary_data = true <->
  exists rate availability,
    salary_get Snapshot.preferred_rate salary_data = Some rate /\
    salary_get Snapshot.currency salary_data = Some "USD" /\
    (rate <= 100)%Q /\
    salary_get Snapshot.availability_hrs_wk salary_data = Some availability /\
    (20 <= availability)%Q.
Proof.
  unfold compensation_criteria_met, rate_ok, availability_ok.
  rewrite andb_true_iff. split.
  - intros [Hrate Havail].
    destruct (salary_get Snapshot.preferred_rate salary_data) as [rate|]; [|done].
    destruct (salary_get Snapshot.currency salary_data) as [currency|]; [|done].
    destruct (salary_get Snapshot.availability_hrs_wk salary_data) as [availability|]; [|done].
    apply andb_true_iff in Hrate as [Hcur Hle]. apply String.eqb_eq in Hcur as ->.
    exists rate, availability. repeat split; try done; by apply Qle_bool_iff.
  - intros (rate & availability & -> & -> & Hle & -> & Hge).
    rewrite String.eqb_refl. split; [|by apply Qle_bool_iff].
    by apply Qle_bool_iff in Hle as ->.
Qed.

Lemma compensation_reason_failed (salary_data : option Snapshot.salary) :
  compensation_criteria_met salary_data = false ->
  Py.startswith "FAILED: Compensation" (compensation_reason salary_data) = true.
Proof. intros H. unfold compensation_reason. by rewrite H. Qed.

Lemma score_reasons_compensation (now : Z) (data : Snapshot.t) :
  compensation_criteria_met (Snapshot.salary_section data) = false ->
  Py.contains "FAILED: Compensation" (Py.join "; " (score_reasons now data)) = true.
Proof.
  intros H. unfold score_reasons, compensation_reason. rewrite H.
  cbn [Py.join]. apply contains_app_r, contains_app_r.
  match goal with
  | |- context [ "FAILED: Compensation - " +:+ ?x ] =>
      change ("FAILED: Compensation - " +:+ x) with ("FAILED: Compensation" +:+ (" - " +:+ x))
  end.
  rewrite append_assoc. apply contains_prefix.
Qed.

(** C5.  The compensation criterion is met exactly when the preferred rate
    is present, the currency is ["USD"], the rate is at most 100, and the
    availability is present and at least 20.  An applicant whose snapshot
    asks for more than 100 an hour (150 USD, say) gets the status
    ["Not Shortlisted"], the leads stay as they were, and the reasons,
    joined, contain ["FAILED: Compensation"]. *)
Theorem compensation_criterion :
  (forall salary_data : option Snapshot.salary,
     compensation_criteria_met salary_data = true <->
     exists rate availability,
       salary_get Snapshot.preferred_rate salary_data = Some rate /\
       salary_get Snapshot.currency salary_data = Some "USD" /\
       (rate <= 100)%Q /\
       salary_get Snapshot.availability_hrs_wk salary_data = Some availability /\
       (20 <= availability)%Q) /\
  (forall (now : Z) (applicant_id_text : string) (s : store)
          (a : row applicant_fields) (rest : list (row applicant_fields))
          (json : string) (data : Snapshot.t) (rate : Q),
     all (applicant_id_is applicant_id_text) (applicants_table s) = a :: rest ->
     Compressed_JSON (fields a) = Some json ->
     Py.truthy json = true ->
     json_loads json = Some (Snapshot.document data) ->
     salary_get Snapshot.preferred_rate (Snapshot.salary_section data) = Some rate ->
     (100 < rate)%Q ->
     (shortlist_applicant now applicant_id_text s).1.1 = Py.RNone /\
     (exists r1,
        get (applicants_table (shortlist_applicant now applicant_id_text s).1.2) (id a) = Some r1 /\
        Shortlist_Status (fields r1) = Some "Not Shortlisted") /\
     shortlisted_leads_table (shortlist_applicant now applicant_id_text s).1.2 =
       shortlisted_leads_table s /\
     Py.contains "FAILED: Compensation" (Py.join "; " (score_reasons now data)) = true).
Proof.
  split; [apply compensation_criteria_met_iff|].
  intros now applicant_id_text s a rest json data rate Hall Hjson Htruthy Hloads Hrate Hgt.
  assert (Hcomp : compensation_criteria_met (Snapshot.salary_section data) = false).
  { apply not_true_iff_false. intros Hmet.
    apply compensation_criteria_met_iff in Hmet as (rate' & _ & Hr & _ & Hle & _).
    rewrite Hrate in Hr. injection Hr as <-. by apply Qlt_not_le in Hgt. }
  assert (Hno : is_shortlisted now data = false).
  { unfold is_shortlisted. rewrite Hcomp. by rewrite andb_false_r. }
  destruct (shortlist_applicant_rejects now applicant_id_text s a rest json data
              Hall Hjson Htruthy Hloads Hno) as (s1 & events & -> & _ & Hstatus & Hleads & _).
  cbn [fst snd]. repeat split; try done. by apply score_reasons_compensation.
Qed.

End DecisionFacts.

(** ** The library instance of the examples *)

Section FixtureFacts.

Lemma of_bits_bits (p : positive) : Fixture.of_bits (Fixture.bits p) = Some p.
Proof. induction p as [p IH|p IH|]; simpl; by rewrite ?IH. Qed.

Lemma loads_dumps (data : Snapshot.t) :
  Fixture.loads (Fixture.dumps data) = Some (Snapshot.document data).
Proof.
  unfold Fixture.loads, Fixture.dumps.
  assert (H : forall rest, String.eqb (String "{" rest) "[]" ||
                           String.eqb (String "{" rest) "null" = false) by done.
  rewrite H. change (Ascii.eqb "{"%char "{"%char) with true. cbv iota.
  rewrite of_bits_bits. by rewrite decode_encode.
Qed.


Lemma dumps_truthy (data : Snapshot.t) : Py.truthy (Fixture.dumps data) = true.
Proof. done. Qed.

End FixtureFacts.

Lemma compensation_criterion_witness :
  (ShortlistAutomation.shortlist_applicant (py:=Fixture.python) 20000 "APP002"
     Fixture.pricey_store).1.1 = Py.RNone /\
  (exists r1,
     Airtable.get
       (Airtable.applicants_table
          (ShortlistAutomation.shortlist_applicant (py:=Fixture.python) 20000 "APP002"
             Fixture.pricey_store).1.2) "recA2" = Some r1 /\
     Airtable.Shortlist_Status (Airtable.fields r1) = Some "Not Shortlisted") /\
  Airtable.shortlisted_leads_table
    (ShortlistAutomation.shortlist_applicant (py:=Fixture.python) 20000 "APP002"
       Fixture.pricey_store).1.2 = [] /\
  Py.contains "FAILED: Compensation"
    (Py.join "; " (ShortlistAutomation.score_reasons (py:=Fixture.python) 20000
                     Fixture.pricey_doc)) = true.
Proof.
  apply (proj2 (compensation_criterion (py:=Fixture.python)) 20000%Z "APP002"
               Fixture.pricey_store Fixture.pricey [] (Fixture.dumps Fixture.pricey_doc)
               Fixture.pricey_doc 150%Q).
  - reflexivity.
  - reflexivity.
  - reflexivity.
  - apply loads_dumps.
  - reflexivity.
  - reflexivity.
Defined.

(** ** The dispatcher *)

Section DispatcherFacts.
Import Airtable Store.
Context {py : PyLib}.

Lemma compress_only_logs (applicant_id_text : string) (s : store) :
  forallb Trace.is_log (JsonAutomation.compress_applicant_data applicant_id_text s).2 = true.
Proof.
  unfold JsonAutomation.compress_applicant_data.
  destruct (all _ _) as [|a rest]; [done|].
  assert (Hp : forallb Trace.is_log (JsonAutomation.compress_personal a s).2 = true).
  { unfold JsonAutomation.compress_personal.
    destruct (JsonAutomation.get_first_linked_record_id _) as [i|]; [|done].
    destruct (Py.truthy i); [|done]. by destruct (get _ i). }
  assert (Hy : forallb Trace.is_log (JsonAutomation.compress_salary a s).2 = true).
  { unfold JsonAutomation.compress_salary.
    destruct (JsonAutomation.get_first_linked_record_id _) as [i|]; [|done].
    destruct (Py.truthy i); [|done]. by destruct (get _ i). }
  assert (He : forallb Trace.is_log (JsonAutomation.compress_experience a s).2 = true).
  { unfold JsonAutomation.compress_experience.
    destruct (JsonAutomation.get_all_linked_record_ids _) as [|i0 ids]; [done|].
    cbn [snd]. set (m := JsonAutomation.records_by_id _). clearbody m.
    generalize (i0 :: ids). intros l.
    induction l as [|i l IH]; [done|].
    change (omap ?f (i :: l)) with
      (match f i with Some y => y :: omap f l | None => omap f l end).
    cbv beta. destruct (_ !! i); simpl; exact IH. }
  destruct (update _ _ _); cbn [snd]; rewrite !only_logs_app, Hp, He, Hy; done.
Qed.

Lemma block_skipped (exits : bool) (banner failure : string)
    (component : store -> Py.result * store * list event) (r : Main.run) :
  Main.block false exits banner failure component r = r.
Proof. unfold Main.block. by destruct (Main.ended r). Qed.

Lemma block_after_end (applies exits : bool) (banner failure : string)
    (component : store -> Py.result * store * list event) (r : Main.run) :
  is_Some (Main.ended r) ->
  Main.block applies exits banner failure component r = r.
Proof. intros [e He]. unfold Main.block. by rewrite He. Qed.

Lemma block_failed (exits : bool) (banner failure : string)
    (component : store -> Py.result * store * list event) (r : Main.run) :
  Main.ended r = None ->
  Py.falsy (component (Main.world r)).1.1 = true ->
  Main.block true exits banner failure component r =
  Main.Run false (component (Main.world r)).1.2
           ((Main.trace r ++ [Log INFO banner] ++ (component (Main.world r)).2) ++
            [Log ERROR failure])
           (if exits then Some (Main.SysExit (-1)) else None).
Proof.
  intros He Hf. unfold Main.block. rewrite He.
  destruct (component (Main.world r)).1.1; [done| | |done]; done.
Qed.

Lemma block_succeeded (exits : bool) (banner failure : string)
    (component : store -> Py.result * store * list event) (r : Main.run) :
  Main.ended r = None ->
  (component (Main.world r)).1.1 = Py.RTrue ->
  Main.block true exits banner failure component r =
  Main.Run (Main.success r) (component (Main.world r)).1.2
           (Main.trace r ++ [Log INFO banner] ++ (component (Main.world r)).2) None.
Proof. intros He Hf. unfold Main.block. by rewrite He, Hf. Qed.

(** C9.  For an applicant whose snapshot reads as a document of the
    compressor and fails a criterion, [shortlist_applicant] writes the
    status ["Not Shortlisted"] and ends without [return]: its result is
    [None], which is false.  The dispatcher takes that for a failure:
    [shortlist] exits with -1, and [all] exits with -1 after the
    shortlisting and never calls the language model. *)
Theorem not_shortlisted_is_a_failure_to_the_dispatcher
    (now : Z) (applicant_id_text : string) (s : store)
    (a : row applicant_fields) (rest : list (row applicant_fields))
    (json : string) (data : Snapshot.t) :
  all (applicant_id_is applicant_id_text) (applicants_table s) = a :: rest ->
  Compressed_JSON (fields a) = Some json ->
  Py.truthy json = true ->
  json_loads json = Some (Snapshot.document data) ->
  ShortlistAutomation.is_shortlisted now data = false ->
  (ShortlistAutomation.shortlist_applicant now applicant_id_text s).1.1 = Py.RNone /\
  Py.falsy Py.RNone = true /\
  (exists r1,
     get (applicants_table
            (ShortlistAutomation.shortlist_applicant now applicant_id_text s).1.2) (id a)
       = Some r1 /\
     Shortlist_Status (fields r1) = Some "Not Shortlisted") /\
  (forall (now_iso : string) (max_retries : Z) (initial_delay : Q)
          (llm : nat -> LlmAutomation.llm_reply),
     Main.ended (Main.main now now_iso max_retries initial_delay llm Main.shortlist
                           applicant_id_text s) = Some (Main.SysExit (-1))) /\
  (forall (now_iso : string) (max_retries : Z) (initial_delay : Q)
          (llm : nat -> LlmAutomation.llm_reply) (s0 : store),
     (JsonAutomation.compress_applicant_data applicant_id_text s0).1 = (Py.RTrue, s) ->
     Main.ended (Main.main now now_iso max_retries initial_delay llm Main.all
                           applicant_id_text s0) = Some (Main.SysExit (-1)) /\
     Trace.llm_calls (Main.trace (Main.main now now_iso max_retries initial_delay llm Main.all
                                            applicant_id_text s0)) = []).
Proof.
  intros Hall Hjson Htruthy Hloads Hno.
  destruct (shortlist_applicant_rejects now applicant_id_text s a rest json data
              Hall Hjson Htruthy Hloads Hno) as (s1 & events & Hrun & _ & Hstatus & _ & Hlogs).
  rewrite Hrun. cbn [fst snd]. split; [done|]. split; [done|]. split; [done|]. split.
  - intros now_iso max_retries initial_delay llm.
    unfold Main.main. cbv zeta. cbv iota. rewrite !block_skipped.
    rewrite (block_failed false) by (cbn [Main.ended Main.world]; by rewrite ?Hrun).
    done.
  - intros now_iso max_retries initial_delay llm s0 Hcompress.
    pose proof (compress_only_logs applicant_id_text s0) as Hclogs.
    destruct (JsonAutomation.compress_applicant_data applicant_id_text s0)
      as [[result s'] cevents] eqn:Hc.
    cbn [fst snd] in *. injection Hcompress as -> ->.
    unfold Main.main. cbv zeta. cbv iota. cbn [Main.is_all].
    rewrite (block_succeeded true) by (cbn [Main.ended Main.world]; by rewrite ?Hc).
    cbn [Main.success Main.world]. rewrite Hc. cbn [fst snd].
    rewrite (block_failed true) by (cbn [Main.ended Main.world]; by rewrite ?Hrun).
    rewrite !block_after_end by (by eexists).
    cbn [Main.ended Main.trace Main.world]. rewrite Hrun. cbn [fst snd].
    split; [done|].
    rewrite !llm_calls_app.
    rewrite (only_logs_no_calls _ Hclogs), (only_logs_no_calls _ Hlogs). done.
Qed.

End DispatcherFacts.

Lemma not_shortlisted_is_a_failure_to_the_dispatcher_witness :
  (ShortlistAutomation.shortlist_applicant (py:=Fixture.python) 20000 "APP002"
     Fixture.pricey_store).1.1 = Py.RNone /\
  Main.ended (Main.main (py:=Fixture.python) 20000 "2024-05-01T10:00:00" 3 1
                        (fun _ => LlmAutomation.Content "Summary: fine") Main.shortlist
                        "APP002" Fixture.pricey_store) = Some (Main.SysExit (-1)).
Proof.
  pose proof (not_shortlisted_is_a_failure_to_the_dispatcher (py:=Fixture.python)
                20000%Z "APP002" Fixture.pricey_store Fixture.pricey []
                (Fixture.dumps Fixture.pricey_doc) Fixture.pricey_doc
                eq_refl eq_refl eq_refl (loads_dumps _) eq_refl) as (H1 & _ & _ & H2 & _).
  exact (conj H1 (H2 "2024-05-01T10:00:00" 3%Z 1%Q (fun _ => LlmAutomation.Content "Summary: fine"))).
Defined.

(** ** The evaluator *)

Section EvaluatorFacts.
Import Airtable Store LlmAutomation Spec.
Context {py : PyLib}.

(** C7.  When the applicant has a snapshot and the stored
    [LLM Last Evaluated] is at or after the stored [Last Modified],
    [evaluate_applicant_with_llm] returns [True], leaves the store as it
    was and calls the language model not once. *)
Theorem evaluation_skipped_when_up_to_date
    (max_retries : Z) (initial_delay : Q) (llm : nat -> llm_reply)
    (now_iso applicant_id_text : string) (s : store)
    (a : row applicant_fields) (rest : list (row applicant_fields))
    (modified evaluated : string) (compressed_dt evaluated_dt : Py.datetime) :
  all (applicant_id_is applicant_id_text) (applicants_table s) = a :: rest ->
  Py.truthy_opt (Compressed_JSON (fields a)) = true ->
  Last_Modified (fields a) = Some modified ->
  Py.truthy modified = true ->
  fromisoformat (Py.replace_Z modified) = Some compressed_dt ->
  LLM_Last_Evaluated (fields a) = Some evaluated ->
  Py.truthy evaluated = true ->
  fromisoformat (Py.replace_Z evaluated) = Some evaluated_dt ->
  Py.datetime_ge evaluated_dt compressed_dt = Some true ->
  (evaluate_applicant_with_llm max_retries initial_delay llm now_iso applicant_id_text s).1
    = (Py.RTrue, s) /\
  Trace.llm_calls
    (evaluate_applicant_with_llm max_retries initial_delay llm now_iso applicant_id_text s).2
    = [].
Proof.
  intros Hall Hjson Hm Hmt Hmp He Het Hep Hge.
  unfold evaluate_applicant_with_llm. rewrite Hall, Hjson.
  unfold parse_timestamps. rewrite Hm, He. cbn [Py.truthy_opt from_option].
  rewrite Hmt, Het, Hmp, Hep. cbn [fst snd already_evaluated]. rewrite Hge. done.
Qed.

Lemma parse_timestamps_unparseable (modified evaluated : option string) :
  unparseable modified \/ unparseable evaluated ->
  parse_timestamps modified evaluated =
  (Some Py.datetime_min, Some Py.datetime_min,
   [Log WARNING "Warning: Could not parse timestamp for {applicant_id_text}: {e}. Proceeding with evaluation."]).
Proof.
  unfold parse_timestamps.
  intros [(t & -> & Ht & Hp)|(t & -> & Ht & Hp)]; cbn [Py.truthy_opt from_option].
  - by rewrite Ht, Hp.
  - rewrite Ht, Hp. destruct (Py.truthy_opt modified); [|done].
    by destruct (fromisoformat (Py.replace_Z (from_option _ _ modified))).
Qed.

(** C10, amended.  When the applicant has a snapshot and [Last Modified] or
    [LLM Last Evaluated] is present and does not parse, both timestamps
    become [datetime.min], the comparison holds, and the function returns
    [True] with the store as it was and without a call to the language
    model, after logging that it proceeds with the evaluation. *)
Theorem unparseable_timestamp_skips_evaluation
    (max_retries : Z) (initial_delay : Q) (llm : nat -> llm_reply)
    (now_iso applicant_id_text : string) (s : store)
    (a : row applicant_fields) (rest : list (row applicant_fields)) :
  all (applicant_id_is applicant_id_text) (applicants_table s) = a :: rest ->
  Py.truthy_opt (Compressed_JSON (fields a)) = true ->
  unparseable (Last_Modified (fields a)) \/ unparseable (LLM_Last_Evaluated (fields a)) ->
  (parse_timestamps (Last_Modified (fields a)) (LLM_Last_Evaluated (fields a))).1
    = (Some Py.datetime_min, Some Py.datetime_min) /\
  (evaluate_applicant_with_llm max_retries initial_delay llm now_iso applicant_id_text s).1
    = (Py.RTrue, s) /\
  Trace.llm_calls
    (evaluate_applicant_with_llm max_retries initial_delay llm now_iso applicant_id_text s).2
    = [] /\
  Log WARNING "Warning: Could not parse timestamp for {applicant_id_text}: {e}. Proceeding with evaluation."
    ∈ (evaluate_applicant_with_llm max_retries initial_delay llm now_iso applicant_id_text s).2.
Proof.
  intros Hall Hjson Hun.
  unfold evaluate_applicant_with_llm. rewrite Hall, Hjson.
  rewrite (parse_timestamps_unparseable _ _ Hun). cbn.
  repeat split; try done.
  rewrite !elem_of_cons. right. by left.
Qed.

(** *** The retry loop *)

Lemma llm_attempts_calls_bound (llm : nat -> llm_reply) (left retries : nat) (delay : Q) :
  length (Trace.llm_calls (llm_attempts llm left retries delay).2) <= left.
Proof.
  revert retries delay. induction left as [|left IH]; intros retries delay; [done|].
  cbn [llm_attempts]. destruct (llm retries).
  - cbn. lia.
  - destruct left as [|left'].
    + cbn. lia.
    + destruct (time_sleep delay); [cbn; lia|].
      cbn [snd]. rewrite !llm_calls_app.
      specialize (IH (S retries) (delay * 2)%Q).
      rewrite !length_app. cbn [Trace.llm_calls omap list_omap length] in *. lia.
  - cbn. lia.
  - cbn. lia.
Qed.

Lemma spec_delay_shift (d : Q) (k : nat) :
  Spec.spec_delay (d * 2)%Q k = Spec.spec_delay d (S k).
Proof. unfold Spec.spec_delay. by rewrite Nat.iter_succ_r. Qed.

(** After [k] calls that raise [APIError], each followed by a sleep that
    returns, with more than [k] attempts allowed, the loop is where it
    started, [k] attempts later. *)
Lemma llm_attempts_after_errors (llm : nat -> llm_reply) (k left retries : nat) (delay : Q) :
  (forall j, j < k -> llm (retries + j) = APIError) ->
  (forall j, j < k -> time_sleep (Spec.spec_delay delay j) = None) ->
  (llm_attempts llm (k + S left) retries delay).1 =
    (llm_attempts llm (S left) (retries + k) (Spec.spec_delay delay k)).1 /\
  Trace.llm_calls (llm_attempts llm (k + S left) retries delay).2 =
    seq retries k ++
    Trace.llm_calls (llm_attempts llm (S left) (retries + k) (Spec.spec_delay delay k)).2 /\
  Trace.sleeps (llm_attempts llm (k + S left) retries delay).2 =
    List.map (Spec.spec_delay delay) (seq 0 k) ++
    Trace.sleeps (llm_attempts llm (S left) (retries + k) (Spec.spec_delay delay k)).2.
Proof.
  revert retries delay. induction k as [|k IH]; intros retries delay Herr Hsleep.
  - by rewrite Nat.add_0_r.
  - assert (H0 : llm retries = APIError).
    { rewrite <- (Nat.add_0_r retries). apply Herr. lia. }
    assert (Hs0 : time_sleep delay = None) by (apply (Hsleep 0); lia).
    destruct (IH (S retries) (delay * 2)%Q) as (IH1 & IH2 & IH3).
    { intros j Hj. replace (S retries + j) with (retries + S j) by lia. apply Herr. lia. }
    { intros j Hj. rewrite spec_delay_shift. apply Hsleep. lia. }
    replace (S retries + k) with (retries + S k) in IH1, IH2, IH3 by lia.
    rewrite spec_delay_shift in IH1, IH2, IH3.
    set (rest := llm_attempts llm (S left) (retries + S k) (Spec.spec_delay delay (S k))) in *.
    replace (S k + S left) with (S (S (k + left))) by lia.
    replace (k + S left) with (S (k + left)) in IH1, IH2, IH3 by lia.
    set (inner := llm_attempts llm (S (k + left)) (S retries) (delay * 2)%Q) in *.
    assert (Hstep : llm_attempts llm (S (S (k + left))) retries delay =
              (inner.1,
               ([Log INFO "Making LLM call for {applicant_id_text} (Attempt {retries + 1}/{MAX_RETRIES}). Model: {LLM_MODEL}";
                 LlmCall retries] ++
                [Log ERROR "Groq API error for {applicant_id_text} (Status: {e.status_code}): {e}"]) ++
               [Log INFO "Retrying in {delay} seconds..."; Sleep delay] ++ inner.2)).
    { unfold inner. cbn [llm_attempts]. by rewrite H0, Hs0. }
    rewrite Hstep. cbn [fst snd]. split; [exact IH1|].
    rewrite !llm_calls_app, !sleeps_app, IH2, IH3.
    split; [done|]. cbn. f_equal. f_equal.
    rewrite <- seq_shift, List.map_map. apply List.map_ext. intros j.
    by rewrite spec_delay_shift.
Qed.

End EvaluatorFacts.

Section RetryFacts.
Import Airtable Store LlmAutomation.
Context {py : PyLib}.

Lemma llm_attempts_first_reply (llm : nat -> llm_reply) (n k : nat) (delay : Q) :
  k < n ->
  (forall j, j < k -> llm j = APIError) ->
  (forall j, j < k -> time_sleep (Spec.spec_delay delay j) = None) ->
  llm k <> APIError ->
  (llm_attempts llm n 0 delay).1 =
    match llm k with
    | Content text => Answered (Py.strip text)
    | APIErrorWithoutStatus => HandlerRaised "AttributeError"
    | _ => ReturnedFalse
    end /\
  Trace.llm_calls (llm_attempts llm n 0 delay).2 = seq 0 (S k) /\
  Trace.sleeps (llm_attempts llm n 0 delay).2 = List.map (Spec.spec_delay delay) (seq 0 k).
Proof.
  intros Hk Herr Hsleep Hreply.
  destruct (llm_attempts_after_errors llm k (n - k - 1) 0 delay Herr Hsleep) as (H1 & H2 & H3).
  replace (k + S (n - k - 1)) with n in * by lia. cbn [Nat.add] in *.
  rewrite H1, H2, H3, seq_S. cbn [llm_attempts Nat.add].
  destruct (llm k) as [text| | |]; [|done| |]; cbn; by rewrite ?app_nil_r.
Qed.

Lemma llm_attempts_exhausted (llm : nat -> llm_reply) (n : nat) (delay : Q) :
  0 < n ->
  (forall j, j < n -> llm j = APIError) ->
  (forall j, j < n - 1 -> time_sleep (Spec.spec_delay delay j) = None) ->
  (llm_attempts llm n 0 delay).1 = ReturnedFalse /\
  Trace.llm_calls (llm_attempts llm n 0 delay).2 = seq 0 n /\
  Trace.sleeps (llm_attempts llm n 0 delay).2 =
    List.map (Spec.spec_delay delay) (seq 0 (n - 1)).
Proof.
  intros Hn Herr Hsleep. destruct n as [|m]; [lia|]. clear Hn.
  replace (S m - 1) with m in * by lia.
  destruct (llm_attempts_after_errors llm m 0 0 delay) as (H1 & H2 & H3).
  { intros j Hj. apply Herr. lia. }
  { done. }
  replace (m + 1) with (S m) in * by lia. cbn [Nat.add] in *.
  rewrite H1, H2, H3. cbn [llm_attempts]. rewrite (Herr m) by lia. cbn.
  rewrite app_nil_r. split; [done|]. split; [|done].
  by rewrite <- seq_S.
Qed.

(** A sleep that raises, after [k] failures and sleeps that returned: the
    loop ends there with the exception. *)
Lemma llm_attempts_sleep_raises (llm : nat -> llm_reply) (n k : nat) (delay : Q)
    (exn : string) :
  S k < n ->
  (forall j, j <= k -> llm j = APIError) ->
  (forall j, j < k -> time_sleep (Spec.spec_delay delay j) = None) ->
  time_sleep (Spec.spec_delay delay k) = Some exn ->
  (llm_attempts llm n 0 delay).1 = HandlerRaised exn /\
  Trace.llm_calls (llm_attempts llm n 0 delay).2 = seq 0 (S k) /\
  Trace.sleeps (llm_attempts llm n 0 delay).2 = List.map (Spec.spec_delay delay) (seq 0 k).
Proof.
  intros Hk Herr Hsleep Hraise.
  destruct (llm_attempts_after_errors llm k (n - k - 1) 0 delay) as (H1 & H2 & H3).
  { intros j Hj. apply Herr. lia. }
  { done. }
  replace (k + S (n - k - 1)) with n in * by lia. cbn [Nat.add] in *.
  rewrite H1, H2, H3, seq_S. cbn [llm_attempts Nat.add].
  rewrite (Herr k) by lia.
  destruct (n - k - 1) as [|m] eqn:E; [lia|].
  rewrite Hraise. cbn. by rewrite ?app_nil_r.
Qed.

(** C8, amended.  The defaults are 3 attempts and a delay of 1 second.  The
    loop calls the language model at most [MAX_RETRIES] times.  While calls
    raise an [APIError] with a status code, and [time.sleep] takes the
    delay, it retries, sleeping the initial delay, then twice that, and so
    on; the first call that returns or raises something else ends it at
    once, any other exception with [return False].  When every attempt
    raises [APIError] and every sleep returns, the loop and the function
    end with [False].  A sleep that raises (a negative delay) ends the loop
    and the function with that exception, and so does an [APIError]
    without a status code, with [AttributeError]. *)
Theorem retry_policy (llm : nat -> llm_reply) (max_retries : Z) (initial_delay : Q) :
  MAX_RETRIES None = 3%Z /\
  INITIAL_BACKOFF_DELAY None = 1%Q /\
  length (Trace.llm_calls (llm_attempts llm (Z.to_nat max_retries) 0 initial_delay).2)
    <= Z.to_nat max_retries /\
  (forall k : nat,
     k < Z.to_nat max_retries ->
     (forall j, j < k -> llm j = APIError) ->
     (forall j, j < k -> time_sleep (Spec.spec_delay initial_delay j) = None) ->
     llm k <> APIError ->
     (llm_attempts llm (Z.to_nat max_retries) 0 initial_delay).1 =
       match llm k with
       | Content text => Answered (Py.strip text)
       | APIErrorWithoutStatus => HandlerRaised "AttributeError"
       | _ => ReturnedFalse
       end /\
     Trace.llm_calls (llm_attempts llm (Z.to_nat max_retries) 0 initial_delay).2 = seq 0 (S k) /\
     Trace.sleeps (llm_attempts llm (Z.to_nat max_retries) 0 initial_delay).2 =
       List.map (Spec.spec_delay initial_delay) (seq 0 k)) /\
  ((forall j, j < Z.to_nat max_retries -> llm j = APIError) ->
   (forall j, j < Z.to_nat max_retries - 1 ->
              time_sleep (Spec.spec_delay initial_delay j) = None) ->
   (0 < max_retries)%Z ->
   (llm_attempts llm (Z.to_nat max_retries) 0 initial_delay).1 = ReturnedFalse /\
   Trace.llm_calls (llm_attempts llm (Z.to_nat max_retries) 0 initial_delay).2 =
     seq 0 (Z.to_nat max_retries) /\
   Trace.sleeps (llm_attempts llm (Z.to_nat max_retries) 0 initial_delay).2 =
     List.map (Spec.spec_delay initial_delay) (seq 0 (Z.to_nat max_retries - 1))) /\
  (forall (k : nat) (exn : string),
     S k < Z.to_nat max_retries ->
     (forall j, j <= k -> llm j = APIError) ->
     (forall j, j < k -> time_sleep (Spec.spec_delay initial_delay j) = None) ->
     time_sleep (Spec.spec_delay initial_delay k) = Some exn ->
     (llm_attempts llm (Z.to_nat max_retries) 0 initial_delay).1 = HandlerRaised exn /\
     Trace.llm_calls (llm_attempts llm (Z.to_nat max_retries) 0 initial_delay).2 = seq 0 (S k) /\
     Trace.sleeps (llm_attempts llm (Z.to_nat max_retries) 0 initial_delay).2 =
       List.map (Spec.spec_delay initial_delay) (seq 0 k)) /\
  (forall (now_iso applicant_id_text : string) (s : store)
          (a : row applicant_fields) (rest : list (row applicant_fields)),
     all (applicant_id_is applicant_id_text) (applicants_table s) = a :: rest ->
     Py.truthy_opt (Compressed_JSON (fields a)) = true ->
     already_evaluated
       (parse_timestamps (Last_Modified (fields a)) (LLM_Last_Evaluated (fields a))).1.1
       (parse_timestamps (Last_Modified (fields a)) (LLM_Last_Evaluated (fields a))).1.2
       = Some false ->
     ((forall j, j < Z.to_nat max_retries -> llm j = APIError) ->
      (forall j, j < Z.to_nat max_retries - 1 ->
                 time_sleep (Spec.spec_delay initial_delay j) = None) ->
      (evaluate_applicant_with_llm max_retries initial_delay llm now_iso applicant_id_text s).1
        = (Py.RFalse, s)) /\
     (forall (k : nat) (exn : string),
        S k < Z.to_nat max_retries ->
        (forall j, j <= k -> llm j = APIError) ->
        (forall j, j < k -> time_sleep (Spec.spec_delay initial_delay j) = None) ->
        time_sleep (Spec.spec_delay initial_delay k) = Some exn ->
        (evaluate_applicant_with_llm max_retries initial_delay llm now_iso applicant_id_text s).1
          = (Py.Raised exn, s))).
Proof.
  split; [done|]. split; [done|]. split; [apply llm_attempts_calls_bound|].
  split; [intros k; apply llm_attempts_first_reply|].
  split; [intros Herr Hsleep Hpos; apply llm_attempts_exhausted; [lia | done | done]|].
  split; [intros k exn; apply llm_attempts_sleep_raises|].
  intros now_iso applicant_id_text s a rest Hall Hjson Hnot. split.
  - intros Herr Hsleep.
    unfold evaluate_applicant_with_llm. rewrite Hall, Hjson, Hnot.
    destruct (Z.to_nat max_retries) as [|n] eqn:Hn; [done|].
    destruct (llm_attempts_exhausted llm (S n) initial_delay) as (-> & _);
      [lia | done | done | done].
  - intros k exn Hk Herr Hsleep Hraise.
    unfold evaluate_applicant_with_llm. rewrite Hall, Hjson, Hnot.
    by destruct (llm_attempts_sleep_raises llm (Z.to_nat max_retries) k initial_delay exn
                   Hk Herr Hsleep Hraise) as (-> & _).
Qed.

End RetryFacts.

Lemma evaluation_skipped_when_up_to_date_witness :
  (LlmAutomation.evaluate_applicant_with_llm (py:=Fixture.python) 3 1 Fixture.answers
     "2024-05-03T08:00:00" "APP003" Fixture.evaluated_store).1
    = (Py.RTrue, Fixture.evaluated_store) /\
  Trace.llm_calls
    (LlmAutomation.evaluate_applicant_with_llm (py:=Fixture.python) 3 1 Fixture.answers
       "2024-05-03T08:00:00" "APP003" Fixture.evaluated_store).2 = [].
Proof.
  apply (evaluation_skipped_when_up_to_date (py:=Fixture.python) 3%Z 1%Q Fixture.answers
           "2024-05-03T08:00:00" "APP003" Fixture.evaluated_store Fixture.evaluated []
           "2024-05-01T10:00:00Z" "2024-05-02T09:30:00Z"
           (Py.Datetime true 63876592800000000) (Py.Datetime true 63876677400000000));
    vm_compute; reflexivity.
Defined.

Lemma unparseable_timestamp_skips_evaluation_witness :
  (LlmAutomation.evaluate_applicant_with_llm (py:=Fixture.python) 3 1 Fixture.answers
     "2024-05-03T08:00:00" "APP004" Fixture.undated_store).1
    = (Py.RTrue, Fixture.undated_store) /\
  Trace.llm_calls
    (LlmAutomation.evaluate_applicant_with_llm (py:=Fixture.python) 3 1 Fixture.answers
       "2024-05-03T08:00:00" "APP004" Fixture.undated_store).2 = [].
Proof.
  pose proof (unparseable_timestamp_skips_evaluation (py:=Fixture.python) 3%Z 1%Q
                Fixture.answers "2024-05-03T08:00:00" "APP004" Fixture.undated_store
                Fixture.undated [] eq_refl eq_refl
                (or_introl (ex_intro _ "yesterday" (conj eq_refl (conj eq_refl eq_refl)))))
    as (_ & H1 & H2 & _).
  exact (conj H1 H2).
Defined.

(** Without a snapshot the same applicant is not evaluated and the result
    is [False]. *)
Lemma unparseable_timestamp_without_snapshot :
  (LlmAutomation.evaluate_applicant_with_llm (py:=Fixture.python) 3 1 Fixture.answers
     "2024-05-03T08:00:00" "APP005" Fixture.undated_empty_store).1
    = (Py.RFalse, Fixture.undated_empty_store) /\
  Airtable.Last_Modified (Airtable.fields Fixture.undated_empty) = Some "yesterday" /\
  fromisoformat (PyLib:=Fixture.python) (Py.replace_Z "yesterday") = None.
Proof. by vm_compute. Qed.

Lemma retry_policy_witness :
  (LlmAutomation.llm_attempts (py:=Fixture.python) Fixture.unreachable 3 0 1).1
    = LlmAutomation.ReturnedFalse /\
  Trace.llm_calls (LlmAutomation.llm_attempts (py:=Fixture.python) Fixture.unreachable 3 0 1).2
    = [0; 1; 2] /\
  Trace.sleeps (LlmAutomation.llm_attempts (py:=Fixture.python) Fixture.unreachable 3 0 1).2 =
    [Spec.spec_delay 1 0; Spec.spec_delay 1 1].
Proof.
  destruct (retry_policy (py:=Fixture.python) Fixture.unreachable 3 1) as (_ & _ & _ & _ & H & _).
  apply H.
  - reflexivity.
  - intros j Hj. destruct j as [|[|j]]; [reflexivity | reflexivity | cbn in Hj; lia].
  - reflexivity.
Defined.

(** With a negative delay the first [APIError] is not followed by a retry:
    [time.sleep] raises [ValueError] inside the handler, the function ends
    with that exception after one call, and so does the process. *)
Lemma negative_delay_ends_with_an_exception :
  time_sleep (PyLib:=Fixture.python) (-1) = Some "ValueError" /\
  (LlmAutomation.evaluate_applicant_with_llm (py:=Fixture.python) 3 (-1) Fixture.unreachable
     "2024-05-03T08:00:00" "APP002" Fixture.pricey_store).1
    = (Py.Raised "ValueError", Fixture.pricey_store) /\
  Trace.llm_calls
    (LlmAutomation.evaluate_applicant_with_llm (py:=Fixture.python) 3 (-1) Fixture.unreachable
       "2024-05-03T08:00:00" "APP002" Fixture.pricey_store).2 = [0] /\
  Main.ended (Main.main (py:=Fixture.python) 20000 "2024-05-03T08:00:00" 3 (-1)
                        Fixture.unreachable Main.llm_evaluate "APP002" Fixture.pricey_store)
    = Some (Main.Uncaught "ValueError").
Proof. by vm_compute. Qed.

(** ** The decompressor without a snapshot *)

Section NoSnapshotFacts.
Import Airtable Store JsonAutomation.
Context {py : PyLib}.

(** C4, amended.  When the applicant's record exists and its
    [Compressed JSON] is empty or absent, [decompress_applicant_data]
    leaves the store as it was and logs no error, and it returns [False];
    the dispatcher takes that for a failure and exits with -1.  When no
    record has the identifier, the function returns [False] as well, and
    logs an error. *)
Theorem decompress_without_snapshot
    (applicant_id_text : string) (s : store)
    (a : row applicant_fields) (rest : list (row applicant_fields)) :
  all (applicant_id_is applicant_id_text) (applicants_table s) = a :: rest ->
  Py.truthy_opt (Compressed_JSON (fields a)) = false ->
  (decompress_applicant_data applicant_id_text s).1 = (Py.RFalse, s) /\
  Trace.errors (decompress_applicant_data applicant_id_text s).2 = [] /\
  (forall (now : Z) (now_iso : string) (max_retries : Z) (initial_delay : Q)
          (llm : nat -> LlmAutomation.llm_reply),
     Main.ended (Main.main now now_iso max_retries initial_delay llm Main.decompress
                           applicant_id_text s) = Some (Main.SysExit (-1)) /\
     Main.world (Main.main now now_iso max_retries initial_delay llm Main.decompress
                           applicant_id_text s) = s) /\
  (forall (absent_id_text : string) (s' : store),
     all (applicant_id_is absent_id_text) (applicants_table s') = [] ->
     (decompress_applicant_data absent_id_text s').1 = (Py.RFalse, s') /\
     Trace.errors (decompress_applicant_data absent_id_text s').2 =
       ["Error: Applicant with ID '{applicant_id_text}' not found in 'Applicants' table."]).
Proof.
  intros Hall Hjson.
  assert (Hrun : decompress_applicant_data applicant_id_text s =
                 (Py.RFalse, s,
                  [Log INFO "Attempting to decompress data for Applicant ID: {applicant_id_text}"] ++
                  [Log INFO "No 'Compressed JSON' found for Applicant ID: {applicant_id_text}. Skipping decompression."])).
  { unfold decompress_applicant_data. by rewrite Hall, Hjson. }
  rewrite Hrun. split; [done|]. split; [done|]. split.
  - intros now now_iso max_retries initial_delay llm.
    unfold Main.main. cbv zeta. cbv iota. rewrite !block_skipped.
    rewrite (block_failed false) by (cbn [Main.ended Main.world]; by rewrite ?Hrun).
    cbn [Main.ended Main.success Main.world]. by rewrite Hrun.
  - intros absent_id_text s' Hnone. unfold decompress_applicant_data. by rewrite Hnone.
Qed.

End NoSnapshotFacts.

Lemma decompress_without_snapshot_witness :
  (JsonAutomation.decompress_applicant_data (py:=Fixture.python) "APP001" Fixture.base).1
    = (Py.RFalse, Fixture.base) /\
  Trace.errors
    (JsonAutomation.decompress_applicant_data (py:=Fixture.python) "APP001" Fixture.base).2 = [].
Proof.
  pose proof (decompress_without_snapshot (py:=Fixture.python) "APP001" Fixture.base
                Fixture.ann [] eq_refl eq_refl) as (H1 & H2 & _).
  exact (conj H1 H2).
Defined.

(** An applicant without a snapshot and an identifier that no applicant has:
    the same result, and the dispatcher reports the first as a failure. *)
Lemma decompress_without_snapshot_looks_like_not_found :
  (JsonAutomation.decompress_applicant_data (py:=Fixture.python) "APP001" Fixture.base).1.1
    = Py.RFalse /\
  (JsonAutomation.decompress_applicant_data (py:=Fixture.python) "APP999" Fixture.base).1.1
    = Py.RFalse /\
  Main.ended (Main.main (py:=Fixture.python) 20000 "2024-05-03T08:00:00" 3 1 Fixture.answers
                        Main.decompress "APP001" Fixture.base) = Some (Main.SysExit (-1)) /\
  Trace.errors
    (Main.trace (Main.main (py:=Fixture.python) 20000 "2024-05-03T08:00:00" 3 1 Fixture.answers
                           Main.decompress "APP001" Fixture.base)) =
    ["Decompression failed for {applicant_id}."; "Action '{action}' failed for {applicant_id}."].
Proof. by vm_compute. Qed.

(** ** More on updates *)

Section UpdateMore.
Import Airtable.
Context {F : Type}.
Implicit Types (t : table F) (r : row F) (i : rid).

(** An update that changes nothing. *)
Lemma update_same t i r (f : F -> F) :
  get t i = Some r -> f (fields r) = fields r -> update i f t = Some t.
Proof.
  unfold get. induction t as [|r0 t IH]; simpl; [done|].
  destruct (String.eqb_spec (id r0) i) as [Heq|Hne].
  - intros [= ->] ->. subst i. by destruct r.
  - intros Hget Hf. by rewrite (IH Hget Hf).
Qed.

Lemma map_unchanged (g : row F -> row F) t :
  (forall r, r ∈ t -> g r = r) -> List.map g t = t.
Proof.
  induction t as [|r0 t IH]; intros Hg; simpl; [done|].
  rewrite Hg by (by left). f_equal. apply IH. intros r Hr. apply Hg. by right.
Qed.

(** With unique identifiers an update is a map over the table. *)
Lemma update_map t t' i (f : F -> F) :
  NoDup (List.map id t) ->
  update i f t = Some t' ->
  t' = List.map (fun r => if String.eqb (id r) i then Row i (f (fields r)) else r) t.
Proof.
  revert t'. induction t as [|r0 t IH]; intros t' Hnd; simpl; [done|].
  apply NoDup_cons in Hnd as [Hnotin Hnd].
  destruct (String.eqb_spec (id r0) i) as [Heq|Hne].
  - intros [= <-]. f_equal. symmetry. apply map_unchanged. intros r Hr.
    destruct (String.eqb_spec (id r) i) as [Heq'|]; [|done].
    exfalso. apply Hnotin. rewrite Heq, <- Heq'. apply list_elem_of_fmap. by exists r.
  - destruct (update i f t) as [t''|] eqn:E; [|done]. intros [= <-]. f_equal. by apply IH.
Qed.

Lemma all_update (p : row F -> bool) t t' i (f : F -> F) :
  NoDup (List.map id t) ->
  update i f t = Some t' ->
  (forall r, r ∈ t -> id r = i -> p (Row i (f (fields r))) = p r) ->
  all p t' = List.map (fun r => if String.eqb (id r) i then Row i (f (fields r)) else r)
                      (all p t).
Proof.
  intros Hnd Hup Hp. rewrite (update_map _ _ _ _ Hnd Hup). clear Hup Hnd.
  unfold all. induction t as [|r0 t IH]; simpl; [done|].
  rewrite IH by (intros r Hr; apply Hp; by right).
  destruct (String.eqb_spec (id r0) i) as [Heq|Hne].
  - rewrite (Hp r0) by (done || by left).
    destruct (p r0); simpl; [|done]. destruct (String.eqb_spec (id r0) i); [done|congruence].
  - destruct (p r0); simpl; [|done]. destruct (String.eqb_spec (id r0) i); [congruence|done].
Qed.

End UpdateMore.

(** ** The round trip: compress, then decompress *)

Section RoundTripFacts.
Import Airtable Store JsonAutomation Spec.

Lemma with_work_same (s : store) : with_work (work_experience_table s) s = s.
Proof. by destruct s. Qed.

Lemma with_personal_same (s : store) : with_personal (personal_details_table s) s = s.
Proof. by destruct s. Qed.

Lemma with_salary_same (s : store) : with_salary (salary_preferences_table s) s = s.
Proof. by destruct s. Qed.

Lemma with_work_twice (t t' : table work_fields) (s : store) :
  with_work t' (with_work t s) = with_work t' s.
Proof. done. Qed.

Lemma keep_same {A} (x : option A) : keep x x = x.
Proof. by destruct x. Qed.

Lemma experience_map_lookup (l : list (row work_fields)) (r : row work_fields) :
  NoDup (List.map record_key l) -> r ∈ l ->
  experience_map l !! record_key r = Some (id r).
Proof.
  unfold experience_map. induction l as [|r0 l IH] using rev_ind; intros Hnd Hin.
  - by apply elem_of_nil in Hin.
  - rewrite foldl_app. cbn [foldl]. rewrite List.map_app in Hnd.
    apply NoDup_app in Hnd as (Hnd & Hdisj & _).
    apply elem_of_app in Hin as [Hin|Hin].
    + rewrite lookup_insert_ne; [by apply IH|].
      intros Heq. apply (Hdisj (record_key r)).
      * apply list_elem_of_fmap. by exists r.
      * rewrite <- Heq. simpl. by left.
    + apply list_elem_of_singleton in Hin as ->. by rewrite lookup_insert_eq.
Qed.

Lemma same_works_refl (t : table work_fields) : same_works t t.
Proof. induction t; constructor; [done | assumption]. Qed.

Lemma same_works_get (t t' : table work_fields) (i : rid) :
  same_works t t' ->
  match get t i with
  | Some r => exists r', get t' i = Some r' /\ same_work r r'
  | None => get t' i = None
  end.
Proof.
  unfold get. induction 1 as [|r r' t t' (Hid & Hview) _ IH]; simpl; [done|].
  rewrite Hid. destruct (String.eqb (id r) i); [|exact IH].
  exists r'. by split.
Qed.

Lemma same_works_update (t t' : table work_fields) (i : rid) (r : row work_fields)
    (f : work_fields -> work_fields) :
  same_works t t' ->
  get t i = Some r ->
  (forall r', same_work r r' -> same_work r (Row i (f (fields r')))) ->
  exists t'', update i f t' = Some t'' /\ same_works t t''.
Proof.
  unfold get. induction 1 as [|r0 r0' t t' Hsame Hrest IH]; simpl; [done|].
  destruct Hsame as (Hid & Hview). rewrite Hid.
  destruct (String.eqb (id r0) i).
  - intros [= ->] Hf. eexists. split; [done|]. constructor; [|done]. by apply Hf.
  - intros Hget Hf. destruct (IH Hget Hf) as (t'' & -> & Hs).
    eexists. split; [done|]. by constructor.
Qed.

(** Writing back what the compressor read leaves the record as the
    compressor reads it. *)
Lemma write_back_same_work (r r' : row work_fields) (company title : string) :
  Company (fields r) = Some company ->
  Title (fields r) = Some title ->
  same_work r r' ->
  same_work r
    (Row (id r)
         (patch_work
            (WorkFields (Some company) (Some title)
                        (Snapshot.start_date (experience_of r))
                        (Snapshot.end_date (experience_of r))
                        (Snapshot.technologies (experience_of r)) None)
            (fields r'))).
Proof.
  intros Hc Ht (Hid & Hview & Hlink). split; [done|]. split; [|done].
  unfold experience_of in *. cbn in *. injection Hview as H1 H2 H3 H4 H5.
  rewrite Hc, Ht, H3, H4. by rewrite !keep_same.
Qed.

(** The loop over the array that the compressor wrote: every item finds the
    record it was read from and writes it back. *)
Lemma round_trip_items (T : table work_fields)
    (cmap : gmap (option string * option string) rid) (aid : rid) (ids : list rid) :
  (forall i r, i ∈ ids -> get T i = Some r ->
     is_Some (Company (fields r)) /\ is_Some (Title (fields r)) /\
     cmap !! record_key r = Some i) ->
  forall st : reconciling,
    same_works T (work_experience_table (current st)) ->
    exists T',
      same_works T T' /\
      current (foldl (decompress_experience_item cmap aid) st
                     (omap (fun i => experience_of <$> get T i) ids))
        = with_work T' (current st) /\
      forall i, i ∈ processed_experience_ids
                      (foldl (decompress_experience_item cmap aid) st
                             (omap (fun i => experience_of <$> get T i) ids))
                <-> i ∈ processed_experience_ids st \/ (i ∈ ids /\ is_Some (get T i)).
Proof.
  induction ids as [|i ids IH]; intros Hids st Hsame.
  - exists (work_experience_table (current st)). split; [done|].
    split; [by rewrite with_work_same|]. intros j. cbn. rewrite elem_of_nil. tauto.
  - assert (Hids' : forall j r, j ∈ ids -> get T j = Some r ->
              is_Some (Company (fields r)) /\ is_Some (Title (fields r)) /\
              cmap !! record_key r = Some j).
    { intros j r Hj. apply Hids. by right. }
    change (omap ?f (i :: ids)) with
      (match f i with Some y => y :: omap f ids | None => omap f ids end).
    cbv beta. destruct (get T i) as [r|] eqn:Hget; cbn [fmap option_fmap option_map].
    + destruct (Hids i r) as ([company Hc] & [title Ht] & Hmap); [by left | done |].
      cbn [foldl].
      assert (Hstep : exists T1,
                same_works T T1 /\
                decompress_experience_item cmap aid st (experience_of r) =
                Reconciling (with_work T1 (current st))
                            ({[i]} ∪ processed_experience_ids st) (logged st)).
      { unfold decompress_experience_item.
        assert (Hc' : Snapshot.company (experience_of r) = Some company) by done.
        assert (Ht' : Snapshot.title (experience_of r) = Some title) by done.
        rewrite Hc', Ht'. unfold record_key in Hmap. rewrite Hc, Ht in Hmap. rewrite Hmap.
        apply get_Some in Hget as Hr. destruct Hr as [_ Hidr].
        destruct (same_works_update _ _ i r
                    (patch_work (WorkFields (Some company) (Some title)
                                   (Snapshot.start_date (experience_of r))
                                   (Snapshot.end_date (experience_of r))
                                   (Snapshot.technologies (experience_of r)) None))
                    Hsame Hget) as (T1 & -> & Hs1).
        { intros r' Hr'. rewrite <- Hidr. by apply write_back_same_work. }
        by exists T1. }
      destruct Hstep as (T1 & Hs1 & ->).
      destruct (IH Hids' (Reconciling (with_work T1 (current st))
                            ({[i]} ∪ processed_experience_ids st) (logged st)))
        as (T' & Hs' & Hcur & Hproc); [done|].
      exists T'. split; [done|]. split; [by rewrite Hcur|].
      intros j. rewrite Hproc. cbn [processed_experience_ids].
      rewrite elem_of_union, elem_of_singleton, elem_of_cons. split.
      * intros [[->|?]|[? ?]]; [right; split; [by left | by rewrite Hget] | by left |].
        right. split; [by right | done].
      * intros [?|[[->|?] ?]]; [left; by right | left; by left | right; by split].
    + destruct (IH Hids' st Hsame) as (T' & Hs' & Hcur & Hproc).
      exists T'. split; [done|]. split; [done|].
      intros j. rewrite Hproc, elem_of_cons. split.
      * intros [?|[? ?]]; [by left | right; split; [by right | done]].
      * intros [?|[[->|?] Hsome]]; [by left | | right; by split].
        rewrite Hget in Hsome. by destruct Hsome.
Qed.

End RoundTripFacts.

Section RoundTrip.
Import Airtable Store JsonAutomation Spec.
Context {py : PyLib}.

(** The ["experience"] section of the round trip: the table keeps its
    records, each as the compressor reads it. *)
Lemma round_trip_experience (a : row applicant_fields) (s : store) :
  NoDup (List.map id (work_experience_table s)) ->
  NoDup (List.map record_key
           (all (record_id_in (get_all_linked_record_ids (Work_Experience (fields a))))
                (work_experience_table s))) ->
  (forall r,
     r ∈ all (record_id_in (get_all_linked_record_ids (Work_Experience (fields a))))
             (work_experience_table s) ->
     is_Some (Company (fields r)) /\ is_Some (Title (fields r))) ->
  exists T',
    same_works (work_experience_table s) T' /\
    (decompress_experience a (compress_experience a s).1 s).1 = with_work T' s.
Proof.
  intros Hnd Hkeys Hfull.
  rewrite compress_experience_lookup by done.
  unfold decompress_experience, experience_loop.
  set (ids := get_all_linked_record_ids (Work_Experience (fields a))) in *.
  set (T := work_experience_table s) in *.
  set (cmap := experience_map match ids with [] => [] | _ :: _ => all (record_id_in ids) T end).
  destruct (round_trip_items T cmap (id a) ids) with (st := Reconciling s ∅ [])
    as (T' & Hsame & Hcur & Hproc).
  { intros i r Hi Hget. apply get_Some in Hget as Hr. destruct Hr as [Hin Hid].
    assert (Hlinked : r ∈ all (record_id_in ids) T).
    { apply list_elem_of_In, filter_In. split; [by apply list_elem_of_In|].
      apply existsb_exists. exists i. split; [by apply list_elem_of_In | by apply String.eqb_eq]. }
    destruct (Hfull r Hlinked) as [Hc Ht]. split; [done|]. split; [done|].
    rewrite <- Hid. subst cmap. destruct ids as [|i0 ids0]; [by apply elem_of_nil in Hi|].
    by apply experience_map_lookup. }
  { apply same_works_refl. }
  set (st := foldl _ _ _) in *. cbn [current] in Hcur.
  exists T'. split; [done|].
  destruct (List.filter _ ids) as [|d ds] eqn:Hdel; [by rewrite Hcur|].
  assert (Hd : In d (List.filter
                       (fun rec_id => bool_decide (rec_id ∉ processed_experience_ids st)) ids))
    by (rewrite Hdel; by left).
  apply filter_In in Hd as [Hdin Hdnot]. apply bool_decide_eq_true in Hdnot.
  assert (Hgone : get T' d = None).
  { pose proof (same_works_get T T' d Hsame) as Hg.
    destruct (get T d) as [r|] eqn:E; [|done].
    exfalso. apply Hdnot, Hproc. right. split; [by apply list_elem_of_In | by rewrite E]. }
  unfold delete_work_experience, batch_delete. rewrite Hcur.
  cbn [work_experience_table with_work forallb]. by rewrite Hgone.
Qed.

Lemma round_trip_personal (a : row applicant_fields) (s : store) :
  (decompress_personal a (compress_personal a s).1 s).1 = s.
Proof.
  unfold compress_personal, decompress_personal.
  destruct (get_first_linked_record_id _) as [i|] eqn:Hi; [|done].
  destruct (Py.truthy i) eqn:Ht; [|done].
  destruct (get _ i) as [r|] eqn:Hget; [|done].
  cbn [fst Py.truthy_opt from_option Snapshot.name Snapshot.email Snapshot.location
       Snapshot.linkedin].
  rewrite Ht, (update_same _ i r); [by rewrite with_personal_same | done |].
  destruct r as [j [? ? ? ? ?]]. unfold patch_personal. cbn. by rewrite !keep_same.
Qed.

Lemma round_trip_salary (a : row applicant_fields) (s s' : store) :
  salary_preferences_table s' = salary_preferences_table s ->
  (decompress_salary a (compress_salary a s).1 s').1 = s'.
Proof.
  intros Htable. unfold compress_salary, decompress_salary.
  destruct (get_first_linked_record_id _) as [i|] eqn:Hi; [|done].
  destruct (Py.truthy i) eqn:Ht; [|done].
  destruct (get _ i) as [r|] eqn:Hget; [|done].
  cbn [fst Py.truthy_opt from_option Snapshot.preferred_rate Snapshot.minimum_rate
       Snapshot.currency Snapshot.availability_hrs_wk].
  rewrite Ht, Htable, (update_same _ i r); [by rewrite <- Htable, with_salary_same | done |].
  destruct r as [j [? ? ? ? ?]]. unfold patch_salary. cbn. by rewrite !keep_same.
Qed.

(** The three sections read from the child tables only. *)
Lemma compressed_data_tables (a a' : row applicant_fields) (s s' : store) :
  Personal_Details (fields a') = Personal_Details (fields a) ->
  Work_Experience (fields a') = Work_Experience (fields a) ->
  Salary_Preferences (fields a') = Salary_Preferences (fields a) ->
  personal_details_table s' = personal_details_table s ->
  work_experience_table s' = work_experience_table s ->
  salary_preferences_table s' = salary_preferences_table s ->
  compressed_data a' s' = compressed_data a s.
Proof.
  intros Hp He Hy Htp Hte Hty.
  unfold compressed_data, compress_personal, compress_experience, compress_salary.
  by rewrite Hp, He, Hy, Htp, Hte, Hty.
Qed.

(** C1, amended.  Take an applicant whose linked Work Experience records
    all have a company and a title, no two of them the same pair, in a store
    whose record identifiers are unique.  Then compressing and decompressing
    at once returns [True] and leaves the Personal Details and Salary
    Preferences tables as they were; the Work Experience table has the same
    records, in the same order, each with the business fields that the
    compressor read: none is created and none is deleted. *)
Theorem compress_then_decompress
    (applicant_id_text : string) (s : store)
    (a : row applicant_fields) (rest : list (row applicant_fields)) :
  (forall data, json_loads (json_dumps data) = Some (Snapshot.document data)) ->
  (forall data, Py.truthy (json_dumps data) = true) ->
  all (applicant_id_is applicant_id_text) (applicants_table s) = a :: rest ->
  NoDup (List.map id (applicants_table s)) ->
  NoDup (List.map id (work_experience_table s)) ->
  NoDup (List.map record_key
           (all (record_id_in (get_all_linked_record_ids (Work_Experience (fields a))))
                (work_experience_table s))) ->
  (forall r,
     r ∈ all (record_id_in (get_all_linked_record_ids (Work_Experience (fields a))))
             (work_experience_table s) ->
     is_Some (Company (fields r)) /\ is_Some (Title (fields r))) ->
  (compress_applicant_data applicant_id_text s).1.1 = Py.RTrue /\
  (decompress_applicant_data applicant_id_text
     (compress_applicant_data applicant_id_text s).1.2).1.1 = Py.RTrue /\
  personal_details_table
    (decompress_applicant_data applicant_id_text
       (compress_applicant_data applicant_id_text s).1.2).1.2 = personal_details_table s /\
  salary_preferences_table
    (decompress_applicant_data applicant_id_text
       (compress_applicant_data applicant_id_text s).1.2).1.2 = salary_preferences_table s /\
  same_works (work_experience_table s)
    (work_experience_table
       (decompress_applicant_data applicant_id_text
          (compress_applicant_data applicant_id_text s).1.2).1.2).
Proof.
  intros Hround Htext Hall Hnda Hndw Hkeys Hfull.
  destruct (all_head_get _ _ _ _ Hall) as [a0 Hget].
  set (patch := patch_applicant
                  (ApplicantFields None None None None
                     (Some (json_dumps (compressed_data a s))) None None None None None None)).
  destruct (update_Some _ _ _ patch Hget) as (t1 & Hup & _).
  assert (Hc : compress_applicant_data applicant_id_text s =
               (Py.RTrue, with_applicants t1 s,
                (compress_applicant_data applicant_id_text s).2)).
  { unfold compress_applicant_data. rewrite Hall. fold patch. by rewrite Hup. }
  rewrite Hc. cbn [fst snd]. split; [done|].
  set (a1 := Row (id a) (patch (fields a))).
  assert (Hall1 : all (applicant_id_is applicant_id_text)
                      (applicants_table (with_applicants t1 s)) =
                  a1 :: List.map (fun r => if String.eqb (id r) (id a)
                                            then Row (id a) (patch (fields r)) else r) rest).
  { cbn [applicants_table with_applicants].
    rewrite (all_update _ _ _ _ _ Hnda Hup).
    - rewrite Hall. cbn [List.map]. by rewrite String.eqb_refl.
    - intros r _ _. unfold applicant_id_is, patch. by destruct r as [j []]. }
  unfold decompress_applicant_data. rewrite Hall1.
  assert (Hjson : Compressed_JSON (fields a1) = Some (json_dumps (compressed_data a s)))
    by done.
  rewrite Hjson. cbn [Py.truthy_opt from_option].
  rewrite Htext, Hround, decompress_value_document. cbn [fst snd].
  unfold Invariants.decompress_sections. cbn [fst snd Snapshot.personal_section
                                   Snapshot.experience_section Snapshot.salary_section
                                   compressed_data].
  set (s1 := with_applicants t1 s).
  assert (Hp : compress_personal a s = compress_personal a1 s1) by done.
  assert (He : compress_experience a s = compress_experience a1 s1) by done.
  assert (Hy : compress_salary a s = compress_salary a1 s1) by done.
  rewrite Hp, round_trip_personal.
  destruct (round_trip_experience a1 s1) as (T' & Hsame & Hexp); [done..|].
  rewrite He, Hexp, Hy, round_trip_salary by done.
  by repeat split.
Qed.

End RoundTrip.

Lemma compress_then_decompress_witness :
  (JsonAutomation.compress_applicant_data (py:=Fixture.python) "APP001" Fixture.base).1.1
    = Py.RTrue /\
  (JsonAutomation.decompress_applicant_data (py:=Fixture.python) "APP001"
     (JsonAutomation.compress_applicant_data (py:=Fixture.python) "APP001" Fixture.base).1.2).1.1
    = Py.RTrue /\
  Airtable.personal_details_table
    (JsonAutomation.decompress_applicant_data (py:=Fixture.python) "APP001"
       (JsonAutomation.compress_applicant_data (py:=Fixture.python) "APP001" Fixture.base).1.2).1.2
    = [Fixture.ann_personal] /\
  Airtable.salary_preferences_table
    (JsonAutomation.decompress_applicant_data (py:=Fixture.python) "APP001"
       (JsonAutomation.compress_applicant_data (py:=Fixture.python) "APP001" Fixture.base).1.2).1.2
    = [Fixture.ann_salary] /\
  Spec.same_works [Fixture.ann_acme; Fixture.ann_globex]
    (Airtable.work_experience_table
       (JsonAutomation.decompress_applicant_data (py:=Fixture.python) "APP001"
          (JsonAutomation.compress_applicant_data (py:=Fixture.python) "APP001" Fixture.base).1.2).1.2).
Proof.
  apply (compress_then_decompress (py:=Fixture.python) "APP001" Fixture.base Fixture.ann []).
  - exact loads_dumps.
  - exact dumps_truthy.
  - reflexivity.
  - refine (@bool_decide_unpack _ (NoDup_dec _) _). vm_compute. exact I.
  - refine (@bool_decide_unpack _ (NoDup_dec _) _). vm_compute. exact I.
  - refine (@bool_decide_unpack _ (NoDup_dec _) _). vm_compute. exact I.
  - intros r Hr. vm_compute in Hr.
    apply elem_of_cons in Hr as [->|Hr]; [by split; eexists|].
    apply elem_of_cons in Hr as [->|Hr]; [by split; eexists|].
    by apply elem_of_nil in Hr.
Defined.

(** A linked record without a title is deleted by the round trip. *)
Lemma round_trip_deletes_untitled_record :
  Airtable.get (Airtable.work_experience_table Fixture.untitled_store) "recW9"
    = Some Fixture.untitled_job /\
  (JsonAutomation.compress_applicant_data (py:=Fixture.python) "APP006"
     Fixture.untitled_store).1.1 = Py.RTrue /\
  (JsonAutomation.decompress_applicant_data (py:=Fixture.python) "APP006"
     (JsonAutomation.compress_applicant_data (py:=Fixture.python) "APP006"
        Fixture.untitled_store).1.2).1.1 = Py.RTrue /\
  Airtable.work_experience_table
    (JsonAutomation.decompress_applicant_data (py:=Fixture.python) "APP006"
       (JsonAutomation.compress_applicant_data (py:=Fixture.python) "APP006"
          Fixture.untitled_store).1.2).1.2 = [].
Proof. by vm_compute. Qed.

(** ** Tables that are related record by record *)

Section RelatedTables.
Import Airtable.
Context {F : Type} (R : row F -> row F -> Prop).
Hypothesis R_id : forall r r', R r r' -> id r' = id r.
Implicit Types (t : table F) (r : row F) (i : rid).

Lemma related_ids t t' : Forall2 R t t' -> List.map id t' = List.map id t.
Proof.
  induction 1 as [|r r' t t' Hr _ IH]; simpl; [done|]. by rewrite IH, (R_id _ _ Hr).
Qed.

Lemma related_get t t' i :
  Forall2 R t t' ->
  match get t i with
  | Some r => exists r', get t' i = Some r' /\ R r r'
  | None => get t' i = None
  end.
Proof.
  unfold get. induction 1 as [|r r' t t' Hr _ IH]; simpl; [done|].
  rewrite (R_id _ _ Hr). destruct (String.eqb (id r) i); [|exact IH].
  exists r'. by split.
Qed.

Lemma related_update t t' t'' i (f : F -> F) :
  Forall2 R t t' ->
  update i f t' = Some t'' ->
  (forall r r', R r r' -> id r = i -> R r (Row i (f (fields r')))) ->
  Forall2 R t t''.
Proof.
  intros Hrel. revert t''. induction Hrel as [|r r' t t' Hr Hrest IH]; intros t''; simpl; [done|].
  destruct (String.eqb_spec (id r') i) as [Heq|Hne].
  - intros [= <-] Hf. constructor; [|done]. apply Hf; [done|]. by rewrite <- (R_id _ _ Hr).
  - destruct (update i f t') as [t1|]; [|done]. intros [= <-] Hf.
    constructor; [done|]. by apply IH.
Qed.

Lemma related_all (p : row F -> bool) t t' :
  Forall2 R t t' ->
  (forall r r', R r r' -> p r' = p r) ->
  Forall2 R (all p t) (all p t').
Proof.
  intros Hrel Hp. unfold all. induction Hrel as [|r r' t t' Hr _ IH]; simpl; [done|].
  rewrite (Hp _ _ Hr). destruct (p r); [by constructor | done].
Qed.

End RelatedTables.

Section GeneralTables.
Import Airtable.
Context {F : Type}.
Implicit Types (t : table F) (r : row F) (i : rid).

Lemma update_is_None t i (f : F -> F) : update i f t = None -> get t i = None.
Proof.
  intros Hup. destruct (get t i) as [r|] eqn:E; [|done].
  destruct (update_Some t i r f E) as (t' & Ht' & _). congruence.
Qed.

Lemma update_get t t' i j (f : F -> F) :
  update i f t = Some t' ->
  get t' j = if String.eqb i j
             then (fun r => Row i (f (fields r))) <$> get t i
             else get t j.
Proof.
  intros Hup. destruct (get t i) as [r|] eqn:E.
  - destruct (update_Some t i r f E) as (t1 & Ht1 & Hg & _ & Hother).
    assert (t1 = t') as -> by congruence.
    destruct (String.eqb_spec i j) as [<-|Hne]; [done|]. by apply Hother.
  - by rewrite (update_None t i f E) in Hup.
Qed.

Lemma update_ids t t' i (f : F -> F) :
  update i f t = Some t' -> List.map id t' = List.map id t.
Proof.
  intros Hup. destruct (get t i) as [r|] eqn:E.
  - destruct (update_Some t i r f E) as (t1 & Ht1 & _ & Hids & _). congruence.
  - by rewrite (update_None t i f E) in Hup.
Qed.

Lemma new_id_longer (used : list rid) (i : rid) :
  i ∈ used -> String.length i <= longest used.
Proof.
  induction used as [|u used IH]; [by intros ?%elem_of_nil|].
  intros [->|Hin]%elem_of_cons; simpl; [lia|]. specialize (IH Hin). lia.
Qed.

Lemma length_letters (n : nat) : String.length (letters n) = n.
Proof. induction n as [|n IH]; [done|]. simpl. by rewrite IH. Qed.

(** The identifier of a new record is not one of the table's. *)
Lemma new_id_fresh (used : list rid) : new_id used ∉ used.
Proof.
  intros Hin. apply new_id_longer in Hin. unfold new_id in Hin.
  change ("rec" +:+ letters (S (longest used)))
    with (String "r" (String "e" (String "c" (letters (S (longest used)))))) in Hin.
  cbn [String.length] in Hin. rewrite length_letters in Hin. lia.
Qed.

Lemma new_id_truthy (used : list rid) : Py.truthy (new_id used) = true.
Proof. done. Qed.

Lemma get_create t (fs : F) i :
  get (create fs t).2 i =
  match get t i with
  | Some r => Some r
  | None => if String.eqb (new_id (List.map id t)) i then Some (create fs t).1 else None
  end.
Proof. unfold create. cbn [fst snd]. rewrite get_app. by destruct (get t i). Qed.

Lemma get_created t (fs : F) : get (create fs t).2 (id (create fs t).1) = Some (create fs t).1.
Proof.
  rewrite get_create. cbn [create fst id].
  assert (Hfresh : get t (new_id (List.map id t)) = None) by apply get_None, new_id_fresh.
  by rewrite Hfresh, String.eqb_refl.
Qed.

End GeneralTables.

(** ** Applicant records under a run of the decompressor *)

Section ApplicantFrames.
Import Airtable Store JsonAutomation Spec Invariants.

Lemma only_link_id (c : child_table) (r r' : row applicant_fields) :
  only_link c r r' -> id r' = id r.
Proof. by intros [? _]. Qed.

Lemma applicant_side_same (c : child_table) (f : applicant_fields) :
  applicant_side c (fun _ => link_of c f) f = f.
Proof. by destruct c, f. Qed.

Lemma applicant_side_twice (c : child_table) (g h : link_field -> link_field)
    (f : applicant_fields) :
  applicant_side c g (applicant_side c h f) = applicant_side c (fun v => g (h v)) f.
Proof. by destruct c. Qed.

Lemma applicant_side_const (c : child_table) (g : link_field -> link_field)
    (f : applicant_fields) :
  applicant_side c g f = applicant_side c (fun _ => g (link_of c f)) f.
Proof. by destruct c. Qed.

Lemma link_of_side (c : child_table) (g : link_field -> link_field) (f : applicant_fields) :
  link_of c (applicant_side c g f) = g (link_of c f).
Proof. by destruct c. Qed.

Lemma link_of_other_side (c c' : child_table) (g : link_field -> link_field)
    (f : applicant_fields) :
  c' <> c -> link_of c' (applicant_side c g f) = link_of c' f.
Proof. by destruct c, c'. Qed.

Lemma only_link_refl (c : child_table) (r : row applicant_fields) : only_link c r r.
Proof. split; [done|]. exists (link_of c (fields r)). by rewrite applicant_side_same. Qed.

Lemma only_links_refl (c : child_table) (t : table applicant_fields) : only_links c t t.
Proof. induction t; constructor; [apply only_link_refl | done]. Qed.

Lemma only_link_side (c : child_table) (g : link_field -> link_field)
    (r r' : row applicant_fields) :
  only_link c r r' -> only_link c r (Row (id r) (applicant_side c g (fields r'))).
Proof.
  intros [Hid [v Hv]]. split; [done|]. rewrite Hv, applicant_side_twice.
  by exists (g v).
Qed.

Lemma only_link_other (c c' : child_table) (r r' : row applicant_fields) :
  only_link c r r' -> c' <> c -> link_of c' (fields r') = link_of c' (fields r).
Proof. intros [_ [v ->]] Hne. by apply link_of_other_side. Qed.

Lemma only_link_data (c : child_table) (r r' : row applicant_fields) :
  only_link c r r' ->
  Applicant_ID (fields r') = Applicant_ID (fields r) /\
  Compressed_JSON (fields r') = Compressed_JSON (fields r).
Proof. intros [_ [v ->]]. by destruct c. Qed.

Lemma only_links_update (c : child_table) (t t' t'' : table applicant_fields) (i : rid)
    (g : link_field -> link_field) :
  only_links c t t' ->
  update i (applicant_side c g) t' = Some t'' ->
  only_links c t t''.
Proof.
  intros Hrel Hup. eapply related_update; [apply only_link_id | done | done |].
  intros r r' Hr <-. by apply only_link_side.
Qed.

Lemma only_links_map (c : child_table) (t t' : table applicant_fields)
    (g : link_field -> link_field) :
  only_links c t t' ->
  only_links c t (List.map (fun a => Row (id a) (applicant_side c g (fields a))) t').
Proof.
  induction 1 as [|r r' t t' Hr _ IH]; simpl; constructor; [|done].
  destruct Hr as [Hid Hv]. rewrite Hid. by apply only_link_side.
Qed.

(** The first record that a query returns, in two related tables. *)
Lemma only_links_query (c : child_table) (t t' : table applicant_fields) (text : string)
    (a : row applicant_fields) (rest : list (row applicant_fields)) :
  only_links c t t' ->
  all (applicant_id_is text) t = a :: rest ->
  exists a' rest', all (applicant_id_is text) t' = a' :: rest' /\ only_link c a a'.
Proof.
  intros Hrel Hall.
  assert (H : Forall2 (only_link c) (all (applicant_id_is text) t)
                      (all (applicant_id_is text) t')).
  { apply related_all; [done|]. intros r r' Hr. unfold applicant_id_is.
    by destruct (only_link_data _ _ _ Hr) as [-> _]. }
  rewrite Hall in H. inversion H as [|? a' ? rest' Ha _]; subst. by exists a', rest'.
Qed.

Lemma keep_keep {A} (x y : option A) : keep x (keep x y) = keep x y.
Proof. by destruct x. Qed.

Lemma patch_personal_twice (d f : personal_fields) :
  patch_personal d (patch_personal d f) = patch_personal d f.
Proof. unfold patch_personal. cbn. by rewrite !keep_keep. Qed.

Lemma patch_salary_twice (d f : salary_fields) :
  patch_salary d (patch_salary d f) = patch_salary d f.
Proof. unfold patch_salary. cbn. by rewrite !keep_keep. Qed.

Lemma patch_work_twice (d f : work_fields) :
  patch_work d (patch_work d f) = patch_work d f.
Proof. unfold patch_work. cbn. by rewrite !keep_keep. Qed.

Lemma first_link_of_new (v : link_field) (n : rid) :
  first_link_sound v ->
  Py.truthy_opt (get_first_linked_record_id v) = false ->
  get_first_linked_record_id (add_link n v) = Some n.
Proof.
  unfold first_link_sound. destruct v as [[|it items]|]; [done| |done].
  intros Ht Hf. congruence.
Qed.

End ApplicantFrames.

(** ** The ["personal"] section *)

Section PersonalSection.
Import Airtable Store JsonAutomation Spec Invariants.

(** A second run of a settled section changes nothing. *)
Lemma decompress_personal_settled (a : row applicant_fields)
    (section : option Snapshot.personal) (s : store) :
  personal_settled section (Personal_Details (fields a)) (personal_details_table s) ->
  (decompress_personal a section s).1 = s.
Proof.
  unfold personal_settled, decompress_personal.
  destruct section as [d|]; [|done]. intros (i & -> & Ht & Hrow).
  cbn [Py.truthy_opt from_option]. rewrite Ht. fold (personal_dict d).
  destruct (get (personal_details_table s) i) as [r|] eqn:Hget.
  - by rewrite (update_same _ i r _ Hget Hrow), with_personal_same.
  - by rewrite (update_None _ i _ Hget).
Qed.

(** What the section leaves: the other tables as they were, the applicant
    records changed at most in their [Personal Details] link, and the
    section settled. *)
Lemma decompress_personal_settles (a : row applicant_fields)
    (section : option Snapshot.personal) (s : store) :
  get (applicants_table s) (id a) = Some a ->
  first_link_sound (Personal_Details (fields a)) ->
  only_links PersonalDetails (applicants_table s)
             (applicants_table (decompress_personal a section s).1) /\
  work_experience_table (decompress_personal a section s).1 = work_experience_table s /\
  salary_preferences_table (decompress_personal a section s).1 = salary_preferences_table s /\
  shortlisted_leads_table (decompress_personal a section s).1 = shortlisted_leads_table s /\
  forall a', get (applicants_table (decompress_personal a section s).1) (id a) = Some a' ->
             personal_settled section (Personal_Details (fields a'))
                              (personal_details_table (decompress_personal a section s).1).
Proof.
  intros Hget Hsound. unfold decompress_personal.
  destruct section as [d|]; [|by repeat split; try apply only_links_refl].
  fold (personal_dict d).
  destruct (Py.truthy_opt (get_first_linked_record_id (Personal_Details (fields a)))) eqn:Ht.
  - destruct (get_first_linked_record_id (Personal_Details (fields a))) as [i|] eqn:Hi; [|done].
    cbn [Py.truthy_opt from_option] in *.
    destruct (update i (patch_personal (personal_dict d)) (personal_details_table s))
      as [t|] eqn:Hup; cbn [fst].
    + repeat split; try apply only_links_refl.
      intros a' Ha'. cbn [applicants_table with_personal] in Ha'.
      assert (a' = a) as -> by congruence.
      exists i. split; [done|]. split; [done|].
      cbn [personal_details_table with_personal].
      rewrite (update_get _ _ _ i _ Hup), String.eqb_refl.
      destruct (get (personal_details_table s) i) as [r|]; [|done].
      cbn. apply patch_personal_twice.
    + repeat split; try apply only_links_refl.
      intros a' Ha'. assert (a' = a) as -> by congruence.
      exists i. split; [done|]. split; [done|].
      by rewrite (update_is_None _ _ _ Hup).
  - set (created := create (personal_dict d) (personal_details_table s)).
    set (n := id created.1).
    unfold link_child_to_applicant, link, child_side.
    cbn [personal_details_table with_personal applicants_table].
    assert (Hnew : get created.2 n = Some created.1) by apply get_created.
    destruct (update_Some _ _ _ (patch_personal (PersonalFields None None None None
                                                    (Some [LinkStr (id a)]))) Hnew)
      as (t2 & Hup2 & Hget2 & _).
    rewrite Hup2. cbn [applicants_table with_personal].
    destruct (update_Some _ _ _ (applicant_side PersonalDetails (add_link n)) Hget)
      as (tA & HupA & HgetA & _).
    rewrite HupA. cbn [fst snd applicants_table with_applicants with_personal
                       work_experience_table salary_preferences_table
                       shortlisted_leads_table personal_details_table].
    split; [by eapply only_links_update; [apply only_links_refl|]|].
    repeat split. intros a' Ha'. assert (a' = Row (id a) (applicant_side PersonalDetails
                                          (add_link n) (fields a))) as -> by congruence.
    exists n. cbn [fields]. split; [by apply first_link_of_new|]. split; [done|].
    rewrite Hget2. cbn [fields]. subst created n. cbn [create fst fields].
    unfold patch_personal, personal_dict. cbn. by rewrite !keep_same.
Qed.

End PersonalSection.

(** ** The ["salary"] section *)

Section SalarySection.
Import Airtable Store JsonAutomation Spec Invariants.

(** A second run of a settled section changes nothing. *)
Lemma decompress_salary_settled (a : row applicant_fields)
    (section : option Snapshot.salary) (s : store) :
  salary_settled section (Salary_Preferences (fields a)) (salary_preferences_table s) ->
  (decompress_salary a section s).1 = s.
Proof.
  unfold salary_settled, decompress_salary.
  destruct section as [d|]; [|done]. intros (i & -> & Ht & Hrow).
  cbn [Py.truthy_opt from_option]. rewrite Ht. fold (salary_dict d).
  destruct (get (salary_preferences_table s) i) as [r|] eqn:Hget.
  - by rewrite (update_same _ i r _ Hget Hrow), with_salary_same.
  - by rewrite (update_None _ i _ Hget).
Qed.

(** What the section leaves: the other tables as they were, the applicant
    records changed at most in their [Salary Preferences] link, and the
    section settled. *)
Lemma decompress_salary_settles (a a_s : row applicant_fields)
    (section : option Snapshot.salary) (s : store) :
  get (applicants_table s) (id a) = Some a_s ->
  Salary_Preferences (fields a_s) = Salary_Preferences (fields a) ->
  first_link_sound (Salary_Preferences (fields a)) ->
  only_links SalaryPreferences (applicants_table s)
             (applicants_table (decompress_salary a section s).1) /\
  work_experience_table (decompress_salary a section s).1 = work_experience_table s /\
  personal_details_table (decompress_salary a section s).1 = personal_details_table s /\
  shortlisted_leads_table (decompress_salary a section s).1 = shortlisted_leads_table s /\
  forall a', get (applicants_table (decompress_salary a section s).1) (id a) = Some a' ->
             salary_settled section (Salary_Preferences (fields a'))
                            (salary_preferences_table (decompress_salary a section s).1).
Proof.
  intros Hget Hsame Hsound. unfold decompress_salary.
  destruct section as [d|]; [|by repeat split; try apply only_links_refl].
  fold (salary_dict d).
  destruct (Py.truthy_opt (get_first_linked_record_id (Salary_Preferences (fields a)))) eqn:Ht.
  - destruct (get_first_linked_record_id (Salary_Preferences (fields a))) as [i|] eqn:Hi; [|done].
    cbn [Py.truthy_opt from_option] in *.
    destruct (update i (patch_salary (salary_dict d)) (salary_preferences_table s))
      as [t|] eqn:Hup; cbn [fst].
    + repeat split; try apply only_links_refl.
      intros a' Ha'. cbn [applicants_table with_salary] in Ha'.
      assert (a' = a_s) as -> by congruence.
      exists i. split; [by rewrite Hsame|]. split; [done|].
      cbn [salary_preferences_table with_salary].
      rewrite (update_get _ _ _ i _ Hup), String.eqb_refl.
      destruct (get (salary_preferences_table s) i) as [r|]; [|done].
      cbn. apply patch_salary_twice.
    + repeat split; try apply only_links_refl.
      intros a' Ha'. assert (a' = a_s) as -> by congruence.
      exists i. split; [by rewrite Hsame|]. split; [done|].
      by rewrite (update_is_None _ _ _ Hup).
  - set (created := create (salary_dict d) (salary_preferences_table s)).
    set (n := id created.1).
    unfold link_child_to_applicant, link, child_side.
    cbn [salary_preferences_table with_salary applicants_table].
    assert (Hnew : get created.2 n = Some created.1) by apply get_created.
    destruct (update_Some _ _ _ (patch_salary (SalaryFields None None None None
                                                 (Some [LinkStr (id a)]))) Hnew)
      as (t2 & Hup2 & Hget2 & _).
    rewrite Hup2. cbn [applicants_table with_salary].
    destruct (update_Some _ _ _ (applicant_side SalaryPreferences (add_link n)) Hget)
      as (tA & HupA & HgetA & _).
    rewrite HupA. cbn [fst snd applicants_table with_applicants with_salary
                       work_experience_table salary_preferences_table
                       shortlisted_leads_table personal_details_table].
    split; [by eapply only_links_update; [apply only_links_refl|]|].
    repeat split. intros a' Ha'.
    assert (a' = Row (id a) (applicant_side SalaryPreferences (add_link n) (fields a_s)))
      as -> by congruence.
    exists n. cbn [fields].
    change (Salary_Preferences (applicant_side SalaryPreferences (add_link n) (fields a_s)))
      with (add_link n (Salary_Preferences (fields a_s))).
    rewrite Hsame. split; [by apply first_link_of_new|]. split; [done|].
    rewrite Hget2. cbn [fields]. subst created n. cbn [create fst fields].
    unfold patch_salary, salary_dict. cbn. by rewrite !keep_same.
Qed.

End SalarySection.

(** ** The ["experience"] section, once it is settled *)

Section ExperienceSettled.
Import Airtable Store JsonAutomation Spec Invariants.

Lemma experience_map_Some (l : list (row work_fields))
    (k : option string * option string) (j : rid) :
  experience_map l !! k = Some j -> exists r, r ∈ l /\ record_key r = k /\ id r = j.
Proof.
  unfold experience_map. induction l as [|r0 l IH] using rev_ind.
  - cbn [foldl]. by rewrite lookup_empty.
  - rewrite foldl_app. cbn [foldl].
    destruct (decide (record_key r0 = k)) as [<-|Hne].
    + rewrite lookup_insert_eq. intros [= <-]. exists r0.
      split; [apply elem_of_app; right; by left | done].
    + rewrite lookup_insert_ne by done. intros H. destruct (IH H) as (r & Hin & Hk & Hj).
      exists r. split; [apply elem_of_app; by left | done].
Qed.

Lemma carries_key (e : Snapshot.experience) (r : row work_fields) :
  is_Some (Snapshot.company e) -> is_Some (Snapshot.title e) ->
  carries e r -> record_key r = entry_key e.
Proof.
  intros [c Hc] [t Ht]. unfold carries, record_key, entry_key, patch_work, entry_fields.
  rewrite Hc, Ht. destruct r as [i [? ? ? ? ? ?]]. cbn. by intros [= <- <- _ _ _].
Qed.

Lemma rows_in_table (T : table work_fields) (entries : list Snapshot.experience)
    (rows : list (row work_fields)) :
  Forall2 (fun e r => get T (id r) = Some r /\ carries e r) entries rows ->
  forall r, r ∈ rows -> get T (id r) = Some r.
Proof.
  induction 1 as [|e r0 entries rows [Hg _] _ IH]; intros r Hr.
  - by apply elem_of_nil in Hr.
  - apply elem_of_cons in Hr as [->|Hr]; [done | by apply IH].
Qed.

Lemma rows_keys (T : table work_fields) (entries : list Snapshot.experience)
    (rows : list (row work_fields)) :
  (forall e, e ∈ entries -> is_Some (Snapshot.company e) /\ is_Some (Snapshot.title e)) ->
  Forall2 (fun e r => get T (id r) = Some r /\ carries e r) entries rows ->
  List.map record_key rows = List.map entry_key entries.
Proof.
  intros Hvalid. induction 1 as [|e r entries rows [_ Hc] _ IH]; [done|]. simpl.
  destruct (Hvalid e) as [H1 H2]; [by left|].
  rewrite (carries_key e r H1 H2 Hc), IH; [done|]. intros e' He'. apply Hvalid. by right.
Qed.

Lemma rows_ids_NoDup (T : table work_fields) (rows : list (row work_fields)) :
  NoDup rows -> (forall r, r ∈ rows -> get T (id r) = Some r) -> NoDup (List.map id rows).
Proof.
  intros Hnd Hget. apply NoDup_fmap_2_strong; [|done].
  intros r r' Hr Hr' Heq. apply Hget in Hr, Hr'. congruence.
Qed.

Lemma filter_nil {A} (p : A -> bool) (l : list A) :
  (forall x, x ∈ l -> p x = false) -> List.filter p l = [].
Proof.
  induction l as [|x l IH]; intros Hp; [done|]. simpl. rewrite Hp by (by left).
  apply IH. intros y Hy. apply Hp. by right.
Qed.

(** An item that has its record finds it and writes what is there. *)
Lemma decompress_experience_item_settled
    (cmap : gmap (option string * option string) rid) (aid : rid) (st : reconciling)
    (e : Snapshot.experience) (r : row work_fields) :
  is_Some (Snapshot.company e) -> is_Some (Snapshot.title e) ->
  cmap !! entry_key e = Some (id r) ->
  get (work_experience_table (current st)) (id r) = Some r ->
  carries e r ->
  decompress_experience_item cmap aid st e =
  Reconciling (current st) ({[id r]} ∪ processed_experience_ids st) (logged st).
Proof.
  intros [c Hc] [t Ht] Hmap Hget Hcarries.
  unfold decompress_experience_item, carries, entry_key, entry_fields in *.
  rewrite Hc, Ht in *. rewrite Hmap.
  by rewrite (update_same _ _ r _ Hget Hcarries), with_work_same.
Qed.

Lemma decompress_experience_settled (a : row applicant_fields)
    (entries : list Snapshot.experience) (s : store) :
  NoDup (List.map id (work_experience_table s)) ->
  (forall e, e ∈ entries -> is_Some (Snapshot.company e) /\ is_Some (Snapshot.title e)) ->
  NoDup (List.map entry_key entries) ->
  corresponds entries a s ->
  (decompress_experience a entries s).1 = s.
Proof.
  intros Hnd Hvalid Hkeys (rows & Hrows & Hperm).
  rewrite <- get_all_linked_record_ids_linked_ids in Hperm.
  unfold decompress_experience, experience_loop.
  set (L := get_all_linked_record_ids (Work_Experience (fields a))) in *.
  set (T := work_experience_table s) in *.
  set (cur := match L with [] => [] | _ :: _ => all (record_id_in L) T end).
  assert (Hin_table := rows_in_table T entries rows Hrows).
  assert (Hrkeys := rows_keys T entries rows Hvalid Hrows).
  assert (Hnd_rows : NoDup rows).
  { assert (Hk : NoDup (List.map record_key rows)) by (by rewrite Hrkeys).
    exact (NoDup_fmap_1 record_key rows Hk). }
  assert (Hcur : forall r, r ∈ rows -> r ∈ cur).
  { intros r Hr. assert (Hi : id r ∈ L).
    { rewrite <- Hperm. apply list_elem_of_fmap. by exists r. }
    subst cur. destruct L as [|i0 L0] eqn:HL; [by apply elem_of_nil in Hi|].
    apply list_elem_of_In, filter_In. split.
    - apply list_elem_of_In. by destruct (get_Some _ _ _ (Hin_table r Hr)).
    - apply existsb_exists. exists (id r). split; [by apply list_elem_of_In|].
      apply String.eqb_refl. }
  assert (Hcur' : forall r, r ∈ cur -> r ∈ rows).
  { intros r Hr. subst cur. destruct L as [|i0 L0] eqn:HL; [by apply elem_of_nil in Hr|].
    apply list_elem_of_In, filter_In in Hr as [Hr Hid].
    apply existsb_exists in Hid as (i & Hi & Heq). apply String.eqb_eq in Heq. subst i.
    assert (Hi' : id r ∈ List.map id rows) by (rewrite Hperm; by apply list_elem_of_In).
    apply list_elem_of_fmap in Hi' as (r' & Hid' & Hr').
    assert (get T (id r) = Some r) by (apply get_member; [done | by apply list_elem_of_In]).
    assert (get T (id r') = Some r') by (by apply Hin_table).
    assert (r = r') as -> by congruence. done. }
  assert (Hnd_cur : NoDup cur).
  { assert (Hk : NoDup (List.map id cur)).
    { subst cur. destruct L; [constructor | by apply all_NoDup]. }
    exact (NoDup_fmap_1 id cur Hk). }
  assert (Hcur_keys : NoDup (List.map record_key cur)).
  { assert (Hp : cur ≡ₚ rows).
    { apply NoDup_Permutation; [done | done |]. intros r. split; [apply Hcur' | apply Hcur]. }
    rewrite (Permutation_map record_key Hp). by rewrite Hrkeys. }
  set (cmap := experience_map cur).
  assert (Hloop : forall (es : list Snapshot.experience) (rs : list (row work_fields))
                         (st : reconciling),
             Forall2 (fun e r => get T (id r) = Some r /\ carries e r) es rs ->
             (forall e, e ∈ es -> is_Some (Snapshot.company e) /\ is_Some (Snapshot.title e)) ->
             (forall r, r ∈ rs -> r ∈ rows) ->
             current st = s ->
             current (foldl (decompress_experience_item cmap (id a)) st es) = s /\
             forall i, i ∈ processed_experience_ids st \/ i ∈ List.map id rs ->
                       i ∈ processed_experience_ids
                             (foldl (decompress_experience_item cmap (id a)) st es)).
  { intros es rs st Hes. revert st.
    induction Hes as [|e r es rs [Hg Hc] _ IH]; intros st Hv Hsub Hst.
    - split; [done|]. intros i [?|Hi]; [done|]. by apply elem_of_nil in Hi.
    - destruct (Hv e) as [H1 H2]; [by left|].
      cbn [foldl].
      rewrite (decompress_experience_item_settled cmap (id a) st e r H1 H2).
      + destruct (IH (Reconciling (current st) ({[id r]} ∪ processed_experience_ids st)
                                  (logged st))) as [IH1 IH2].
        * intros e' He'. apply Hv. by right.
        * intros r' Hr'. apply Hsub. by right.
        * done.
        * split; [done|]. intros i Hi. apply IH2. cbn [processed_experience_ids].
          rewrite elem_of_union, elem_of_singleton. cbn [List.map] in Hi.
          rewrite elem_of_cons in Hi. tauto.
      + rewrite <- (carries_key e r H1 H2 Hc). apply experience_map_lookup; [done|].
        apply Hcur, Hsub. by left.
      + by rewrite Hst.
      + done. }
  destruct (Hloop entries rows (Reconciling s ∅ []) Hrows Hvalid (fun r H => H) eq_refl)
    as [Hstore Hproc].
  set (st := foldl _ _ _) in *.
  rewrite filter_nil; [done|].
  intros i Hi. apply bool_decide_eq_false. intros Hnot. apply Hnot, Hproc. right.
  by rewrite Hperm.
Qed.

End ExperienceSettled.

(** ** The ["experience"] section, the first time *)

Section LinkFacts.
Import Airtable Store.

Lemma linked_ids_add_link (n : rid) (v : link_field) :
  n ∉ linked_ids v -> linked_ids (add_link n v) = linked_ids v ++ [n].
Proof.
  intros Hn. unfold add_link.
  destruct (existsb (String.eqb n) (linked_ids v)) eqn:E.
  - exfalso. apply Hn. apply existsb_exists in E as (i & Hi & Heq).
    apply String.eqb_eq in Heq as ->. by apply list_elem_of_In.
  - destruct v as [items|]; cbn [linked_ids from_option]; [|done].
    by rewrite omap_app.
Qed.

Lemma linked_ids_remove_links (D : list rid) (v : link_field) :
  linked_ids (remove_links D v) =
  List.filter (fun i => negb (existsb (String.eqb i) D)) (linked_ids v).
Proof.
  destruct v as [items|]; [|done]. cbn [remove_links linked_ids].
  induction items as [|it items IH]; [done|]. cbn [List.filter].
  destruct (link_item_id it) as [i|] eqn:Hit.
  - change (omap link_item_id (it :: items)) with
      (match link_item_id it with Some y => y :: omap link_item_id items
                                | None => omap link_item_id items end).
    rewrite Hit. cbn [List.filter].
    destruct (negb (existsb (String.eqb i) D)); [|exact IH].
    change (omap link_item_id (it :: ?l)) with
      (match link_item_id it with Some y => y :: omap link_item_id l
                                | None => omap link_item_id l end).
    rewrite Hit. f_equal. exact IH.
  - change (omap link_item_id (it :: items)) with
      (match link_item_id it with Some y => y :: omap link_item_id items
                                | None => omap link_item_id items end).
    change (omap link_item_id (it :: ?l)) with
      (match link_item_id it with Some y => y :: omap link_item_id l
                                | None => omap link_item_id l end).
    rewrite Hit. exact IH.
Qed.

Context {F : Type}.
Implicit Types (t : table F) (i : rid).

Lemma batch_delete_Some (D : list rid) t :
  (forall d, d ∈ D -> is_Some (get t d)) ->
  batch_delete D t = Some (List.filter (fun r => negb (existsb (String.eqb (id r)) D)) t).
Proof.
  intros HD. unfold batch_delete.
  assert (H : forallb (fun i => match get t i with Some _ => true | None => false end) D = true).
  { apply forallb_forall. intros d Hd. apply list_elem_of_In in Hd.
    by destruct (HD d Hd) as [r ->]. }
  by rewrite H.
Qed.

Lemma get_filter_ids (D : list rid) t i :
  get (List.filter (fun r => negb (existsb (String.eqb (id r)) D)) t) i =
  if existsb (String.eqb i) D then None else get t i.
Proof.
  unfold get. induction t as [|r t IH]; simpl; [by destruct (existsb (String.eqb i) D)|].
  destruct (String.eqb_spec (id r) i) as [<-|Hne].
  - destruct (existsb (String.eqb (id r)) D) eqn:E; simpl.
    + exact IH.
    + by rewrite String.eqb_refl.
  - destruct (negb (existsb (String.eqb (id r)) D)); simpl; [|exact IH].
    destruct (String.eqb_spec (id r) i); [done | exact IH].
Qed.

Lemma get_map_fields (g : F -> F) t i :
  get (List.map (fun a => Row (id a) (g (fields a))) t) i =
  (fun r => Row (id r) (g (fields r))) <$> get t i.
Proof.
  unfold get. induction t as [|r t IH]; simpl; [done|].
  destruct (String.eqb (id r) i); [done | exact IH].
Qed.

Lemma existsb_eqb_elem_of (i : rid) (D : list rid) :
  existsb (String.eqb i) D = true <-> i ∈ D.
Proof.
  rewrite existsb_exists. split.
  - intros (d & Hd & Heq). apply String.eqb_eq in Heq as ->. by apply list_elem_of_In.
  - intros Hi. exists i. split; [by apply list_elem_of_In | apply String.eqb_refl].
Qed.

End LinkFacts.

Section ExperienceLoop.
Import Airtable Store JsonAutomation Spec Invariants.
Variables (T0 : table work_fields) (A0 : table applicant_fields) (L0 : list rid)
          (cmap0 : gmap (option string * option string) rid) (aid : rid) (s0 : store).
Hypothesis L0_in_table : forall i, i ∈ L0 -> i ∈ List.map id T0.
Hypothesis cmap0_linked :
  forall k j, cmap0 !! k = Some j ->
              j ∈ L0 /\ forall k', cmap0 !! k' = Some j -> k' = k.

Lemma rows_avoid {A} (Q : A -> row work_fields -> Prop) (done : list A)
    (rows : list (row work_fields)) (j : rid) :
  Forall2 Q done rows -> j ∉ List.map id rows ->
  Forall2 (fun e r => Q e r /\ id r <> j) done rows.
Proof.
  induction 1 as [|e r done rows Hq _ IH]; intros Hj; constructor.
  - split; [done|]. intros Heq. apply Hj. rewrite <- Heq. by left.
  - apply IH. intros Hin. apply Hj. by right.
Qed.

Lemma matched_not_done (done : list Snapshot.experience) (rows : list (row work_fields))
    (created : list rid) (st : reconciling)
    (k : option string * option string) (j : rid) :
  reconciled T0 A0 L0 cmap0 aid s0 done rows created st ->
  cmap0 !! k = Some j ->
  k ∉ List.map entry_key done ->
  j ∉ List.map id rows.
Proof.
  intros Hrec Hk. destruct (cmap0_linked k j Hk) as [HjL Hinj].
  assert (Hjc : j ∉ created).
  { intros Hjc. pose proof (rec_nodup _ _ _ _ _ _ _ _ _ _ Hrec) as Hnd.
    apply NoDup_app in Hnd as (_ & Hdisj & _). by apply (Hdisj j (L0_in_table j HjL)). }
  pose proof (rec_rows _ _ _ _ _ _ _ _ _ _ Hrec) as Hrows. clear Hrec.
  induction Hrows as [|e r done rows (_ & _ & Hor) _ IH]; intros Hnot.
  - apply not_elem_of_nil.
  - cbn [List.map] in *. apply not_elem_of_cons in Hnot as [Hne Hnot].
    apply not_elem_of_cons. split; [|by apply IH].
    intros ->. destruct Hor as [Hm|Hc]; [|done]. apply Hne. symmetry. by apply Hinj.
Qed.

(** One item that has a company and a title and whose key is new. *)
Lemma reconciled_step (done : list Snapshot.experience) (rows : list (row work_fields))
    (created : list rid) (st : reconciling) (e : Snapshot.experience) :
  reconciled T0 A0 L0 cmap0 aid s0 done rows created st ->
  is_Some (Snapshot.company e) -> is_Some (Snapshot.title e) ->
  entry_key e ∉ List.map entry_key done ->
  exists r created',
    reconciled T0 A0 L0 cmap0 aid s0 (done ++ [e]) (rows ++ [r]) created'
               (decompress_experience_item cmap0 aid st e).
Proof.
  intros Hrec [c Hc] [t Ht] Hnew.
  pose proof Hrec as [Hids Hnd Happ (a_c & Hac & Hlinks) Hp Hy Hl Hrows Hrnd Hproc Hcr].
  unfold decompress_experience_item. rewrite Hc, Ht.
  assert (Hfields : WorkFields (Some c) (Some t) (Snapshot.start_date e)
                               (Snapshot.end_date e) (Snapshot.technologies e) None
                    = entry_fields e).
  { unfold entry_fields. by rewrite Hc, Ht. }
  assert (Hkey : (Some c, Some t) = entry_key e).
  { unfold entry_key. by rewrite Hc, Ht. }
  rewrite Hfields, Hkey.
  assert (Hrows_in : forall i, i ∈ List.map id rows ->
                               i ∈ List.map id (work_experience_table (current st))).
  { intros i Hi. apply list_elem_of_fmap in Hi as (r & -> & Hr).
    apply get_is_Some. clear - Hrows Hr.
    induction Hrows as [|e0 r0 done rows (Hg & _) _ IH]; [by apply elem_of_nil in Hr|].
    apply elem_of_cons in Hr as [->|Hr]; [by rewrite Hg | by apply IH]. }
  destruct (cmap0 !! entry_key e) as [j|] eqn:Hmap.
  - (* the item has a record: it is updated in place *)
    destruct (cmap0_linked _ _ Hmap) as [HjL _].
    assert (Hj : j ∉ List.map id rows) by (by eapply matched_not_done).
    assert (Hjin : j ∈ List.map id (work_experience_table (current st))).
    { rewrite Hids. apply elem_of_app. left. by apply L0_in_table. }
    apply get_is_Some in Hjin as [rj Hgj].
    destruct (update_Some _ _ _ (patch_work (entry_fields e)) Hgj) as (T1 & -> & Hg1 & Hids1 & Hoth).
    exists (Row j (patch_work (entry_fields e) (fields rj))), created.
    constructor; cbn [current processed_experience_ids applicants_table with_work
                      work_experience_table personal_details_table
                      salary_preferences_table shortlisted_leads_table]; try done.
    + by rewrite Hids1.
    + by exists a_c.
    + apply Forall2_app.
      * eapply Forall2_impl; [apply (rows_avoid _ _ _ j Hrows Hj)|].
        intros e' r' [(Hg & Hcar & Hor) Hne]. split; [|done].
        rewrite Hoth; [done | congruence].
      * constructor; [|constructor]. cbn [id]. split; [done|]. split; [|by left].
        unfold carries. cbn [fields]. apply patch_work_twice.
    + rewrite List.map_app. apply NoDup_app. split; [done|]. split.
      * intros i Hi [->|Hin]%elem_of_cons; [done | by apply elem_of_nil in Hin].
      * apply NoDup_singleton.
    + intros i. rewrite List.map_app, elem_of_union, elem_of_singleton, elem_of_app, Hproc.
      cbn [List.map id]. rewrite list_elem_of_singleton. tauto.
    + intros i Hi. rewrite List.map_app. apply elem_of_app. left. by apply Hcr.
  - (* the item has none: a record is created and linked *)
    set (cr := create (entry_fields e) (work_experience_table (current st))).
    set (n := id cr.1).
    assert (Hn : n ∉ List.map id (work_experience_table (current st))) by apply new_id_fresh.
    assert (Hnew_get : get cr.2 n = Some cr.1) by apply get_created.
    unfold link_child_to_applicant, link, child_side.
    cbn [work_experience_table with_work applicants_table].
    destruct (update_Some _ _ _ (patch_work (WorkFields None None None None None
                                               (Some [LinkStr aid]))) Hnew_get)
      as (T2 & HupT & Hg2 & Hids2 & Hoth2).
    rewrite HupT. cbn [applicants_table with_work].
    destruct (update_Some _ _ _ (applicant_side WorkExperience (add_link n)) Hac)
      as (A1 & HupA & HgA & _).
    rewrite HupA. cbn [fst snd].
    assert (Hcr_ids : List.map id cr.2 = List.map id (work_experience_table (current st)) ++ [n]).
    { subst cr n. unfold create. cbn [fst snd id]. by rewrite List.map_app. }
    exists (Row n (patch_work (WorkFields None None None None None (Some [LinkStr aid]))
                              (fields cr.1))), (created ++ [n]).
    constructor; cbn [current processed_experience_ids applicants_table with_work
                      with_applicants work_experience_table personal_details_table
                      salary_preferences_table shortlisted_leads_table]; try done.
    + by rewrite Hids2, Hcr_ids, Hids, app_assoc.
    + rewrite app_assoc, <- Hids. apply NoDup_app. split; [by rewrite Hids|].
      split; [|apply NoDup_singleton].
      intros i Hi [->|Hin]%elem_of_cons; [done | by apply elem_of_nil in Hin].
    + by eapply only_links_update.
    + eexists. split; [exact HgA|]. cbn [fields].
      change (Work_Experience (applicant_side WorkExperience (add_link n) (fields a_c)))
        with (add_link n (Work_Experience (fields a_c))).
      rewrite linked_ids_add_link, Hlinks, app_assoc; [done|].
      rewrite Hlinks. intros [Hi|Hi]%elem_of_app; apply Hn; rewrite Hids.
      * apply elem_of_app. left. by apply L0_in_table.
      * apply elem_of_app. by right.
    + apply Forall2_app.
      * eapply Forall2_impl; [apply (rows_avoid _ _ _ n Hrows)|].
        { intros Hin. by apply Hn, Hrows_in. }
        intros e' r' [(Hg & Hcar & Hor) Hne]. split; [|split; [done|]].
        -- rewrite Hoth2 by congruence. subst cr. unfold create. cbn [snd].
           by rewrite get_app, Hg.
        -- destruct Hor as [?|?]; [by left | right; apply elem_of_app; by left].
      * constructor; [|constructor]. cbn [id]. split; [done|]. split.
        -- unfold carries. subst cr. cbn [create fst fields].
           unfold patch_work, entry_fields. cbn. by rewrite !keep_same.
        -- right. apply elem_of_app. right. by left.
    + rewrite List.map_app. apply NoDup_app. split; [done|]. split; [|apply NoDup_singleton].
      intros i Hi [->|Hin]%elem_of_cons; [by apply Hn, Hrows_in | by apply elem_of_nil in Hin].
    + intros i. rewrite List.map_app, elem_of_union, elem_of_singleton, elem_of_app, Hproc.
      cbn [List.map id]. rewrite list_elem_of_singleton. tauto.
    + intros i [Hi|Hi]%elem_of_app; rewrite List.map_app; apply elem_of_app.
      * left. by apply Hcr.
      * right. apply list_elem_of_singleton in Hi as ->. by left.
Qed.

(** The whole loop. *)
Lemma reconciled_loop (es done : list Snapshot.experience) (rows : list (row work_fields))
    (created : list rid) (st : reconciling) :
  reconciled T0 A0 L0 cmap0 aid s0 done rows created st ->
  (forall e, e ∈ es -> is_Some (Snapshot.company e) /\ is_Some (Snapshot.title e)) ->
  NoDup (List.map entry_key (done ++ es)) ->
  exists rows' created',
    reconciled T0 A0 L0 cmap0 aid s0 (done ++ es) rows' created'
               (foldl (decompress_experience_item cmap0 aid) st es).
Proof.
  revert done rows created st. induction es as [|e es IH]; intros done rows created st Hrec Hv Hnd.
  - rewrite app_nil_r. by exists rows, created.
  - destruct (Hv e) as [H1 H2]; [by left|].
    assert (Hnew : entry_key e ∉ List.map entry_key done).
    { rewrite List.map_app in Hnd. apply NoDup_app in Hnd as (_ & Hdisj & _).
      intros Hin. apply (Hdisj _ Hin). cbn [List.map]. by left. }
    destruct (reconciled_step done rows created st e Hrec H1 H2 Hnew) as (r & created' & Hrec').
    cbn [foldl]. replace (done ++ e :: es) with ((done ++ [e]) ++ es) in *
      by (by rewrite <- app_assoc).
    apply (IH _ _ _ _ Hrec'); [|done]. intros e' He'. apply Hv. by right.
Qed.

End ExperienceLoop.

Section ExperienceSettles.
Import Airtable Store JsonAutomation Spec Invariants.

Lemma rows_origin (T : table work_fields)
    (cmap0 : gmap (option string * option string) rid) (L0 created : list rid)
    (done : list Snapshot.experience) (rows : list (row work_fields)) :
  (forall k j, cmap0 !! k = Some j -> j ∈ L0) ->
  Forall2 (fun e r => get T (id r) = Some r /\ carries e r /\
                      (cmap0 !! entry_key e = Some (id r) \/ id r ∈ created)) done rows ->
  forall i, i ∈ List.map id rows -> i ∈ L0 \/ i ∈ created.
Proof.
  intros Hm. induction 1 as [|e r done rows (_ & _ & Hor) _ IH]; intros i Hi.
  - by apply elem_of_nil in Hi.
  - cbn [List.map] in Hi. apply elem_of_cons in Hi as [->|Hi]; [|by apply IH].
    destruct Hor as [H|H]; [left; by eapply Hm | by right].
Qed.

Lemma filter_NoDup {A} (p : A -> bool) (l : list A) :
  NoDup l -> NoDup (List.filter p l).
Proof.
  induction l as [|x l IH]; [done|]. rewrite NoDup_cons. intros [Hx Hnd].
  simpl. destruct (p x); [|by apply IH]. apply NoDup_cons. split; [|by apply IH].
  intros Hin. apply Hx. apply list_elem_of_In in Hin. apply filter_In in Hin as [Hin _].
  by apply list_elem_of_In.
Qed.

Lemma Forall2_with_member {A} (Q : A -> row work_fields -> Prop) (l1 : list A)
    (l2 : list (row work_fields)) :
  Forall2 Q l1 l2 -> Forall2 (fun e r => Q e r /\ id r ∈ List.map id l2) l1 l2.
Proof.
  induction 1 as [|e r l1 l2 Hq _ IH]; constructor.
  - split; [done|]. by left.
  - eapply Forall2_impl; [exact IH|]. intros e' r' [? ?]. split; [done|]. by right.
Qed.

Lemma decompress_experience_settles (a a_s : row applicant_fields)
    (entries : list Snapshot.experience) (s : store) :
  get (applicants_table s) (id a) = Some a_s ->
  Work_Experience (fields a_s) = Work_Experience (fields a) ->
  NoDup (List.map id (work_experience_table s)) ->
  NoDup (linked_ids (Work_Experience (fields a))) ->
  (forall i, i ∈ linked_ids (Work_Experience (fields a)) ->
             is_Some (get (work_experience_table s) i)) ->
  (forall e, e ∈ entries -> is_Some (Snapshot.company e) /\ is_Some (Snapshot.title e)) ->
  NoDup (List.map entry_key entries) ->
  only_links WorkExperience (applicants_table s)
             (applicants_table (decompress_experience a entries s).1) /\
  personal_details_table (decompress_experience a entries s).1 = personal_details_table s /\
  salary_preferences_table (decompress_experience a entries s).1 = salary_preferences_table s /\
  shortlisted_leads_table (decompress_experience a entries s).1 = shortlisted_leads_table s /\
  NoDup (List.map id (work_experience_table (decompress_experience a entries s).1)) /\
  forall a', get (applicants_table (decompress_experience a entries s).1) (id a) = Some a' ->
             corresponds entries a' (decompress_experience a entries s).1.
Proof.
  intros Hget Hwe Hnd HndL Hexist Hvalid Hkeys.
  unfold decompress_experience, experience_loop.
  rewrite get_all_linked_record_ids_linked_ids.
  set (L0 := linked_ids (Work_Experience (fields a))) in *.
  set (T0 := work_experience_table s) in *.
  set (cur0 := match L0 with [] => [] | _ :: _ => all (record_id_in L0) T0 end).
  set (cmap0 := experience_map cur0).
  assert (Hcur0 : forall r, r ∈ cur0 -> r ∈ T0 /\ id r ∈ L0).
  { intros r Hr. subst cur0. destruct L0 as [|i0 L0'] eqn:HL; [by apply elem_of_nil in Hr|].
    apply list_elem_of_In, filter_In in Hr as [Hr Hid]. split; [by apply list_elem_of_In|].
    by apply existsb_eqb_elem_of. }
  assert (HL0 : forall i, i ∈ L0 -> i ∈ List.map id T0).
  { intros i Hi. by apply get_is_Some, Hexist. }
  assert (Hcmap : forall k j, cmap0 !! k = Some j ->
                              j ∈ L0 /\ forall k', cmap0 !! k' = Some j -> k' = k).
  { intros k j Hk. apply experience_map_Some in Hk as (r & Hr & <- & <-).
    destruct (Hcur0 r Hr) as [HrT HrL]. split; [done|].
    intros k' Hk'. apply experience_map_Some in Hk' as (r' & Hr' & <- & Hid).
    destruct (Hcur0 r' Hr') as [HrT' _].
    assert (get T0 (id r) = Some r) by (by apply get_member).
    assert (get T0 (id r') = Some r') by (by apply get_member).
    assert (r' = r) as -> by congruence. done. }
  assert (Hinit : reconciled T0 (applicants_table s) L0 cmap0 (id a) s [] [] []
                             (Reconciling s ∅ [])).
  { constructor; cbn [current processed_experience_ids].
    - by rewrite app_nil_r.
    - by rewrite app_nil_r.
    - apply only_links_refl.
    - exists a_s. split; [done|]. by rewrite Hwe, app_nil_r.
    - done.
    - done.
    - done.
    - constructor.
    - constructor.
    - intros i. cbn [List.map]. rewrite elem_of_nil. split; [|done].
      apply not_elem_of_empty.
    - intros i Hi. by apply elem_of_nil in Hi. }
  destruct (reconciled_loop T0 (applicants_table s) L0 cmap0 (id a) s HL0 Hcmap
              entries [] [] [] (Reconciling s ∅ []) Hinit Hvalid Hkeys)
    as (rows & created & Hrec).
  cbn [app] in Hrec. set (st := foldl _ _ _) in *.
  destruct Hrec as [Hids Hnd' Happ (a_c & Hac & Hlinks) Hp Hy Hl Hrows Hrnd Hproc Hcr].
  assert (Horigin := rows_origin _ cmap0 L0 created entries rows
                                 (fun k j H => proj1 (Hcmap k j H)) Hrows).
  assert (HndLC : NoDup (L0 ++ created)).
  { apply NoDup_app in Hnd' as (_ & Hdisj & Hndc). apply NoDup_app. split; [done|].
    split; [|done]. intros i Hi. by apply Hdisj, HL0. }
  assert (Hweak : Forall2 (fun e r => get (work_experience_table (current st)) (id r) = Some r /\
                                      carries e r) entries rows).
  { eapply Forall2_impl; [exact Hrows|]. by intros e r (? & ? & _). }
  set (D := List.filter (fun rec_id => bool_decide (rec_id ∉ processed_experience_ids st)) L0).
  assert (HD : forall d, d ∈ D <-> d ∈ L0 /\ d ∉ processed_experience_ids st).
  { intros d. subst D. rewrite list_elem_of_In, filter_In, <- list_elem_of_In.
    by rewrite bool_decide_eq_true. }
  assert (Hrows_iff : forall i, i ∈ List.map id rows <->
                                (i ∈ L0 ++ created /\ i ∉ D)).
  { intros i. rewrite HD, elem_of_app. split.
    - intros Hi. split; [by apply Horigin|]. intros [_ Hnot]. by apply Hnot, Hproc.
    - intros [[Hi|Hi] Hnot]; [|by apply Hcr].
      apply Hproc. destruct (decide (i ∈ processed_experience_ids st)); [done|].
      exfalso. by apply Hnot. }
  destruct D as [|d0 D'] eqn:HDeq.
  - (* nothing to delete *)
    cbn [fst]. rewrite Hp, Hy, Hl. repeat split; try done.
    + by rewrite Hids.
    + intros a' Ha'. assert (a' = a_c) as -> by congruence.
      exists rows. split; [done|]. rewrite Hlinks.
      apply NoDup_Permutation; [done | done |].
      intros i. rewrite Hrows_iff. split; [by intros [? _] | intros ?; split; [done|]].
      apply not_elem_of_nil.
  - (* the records that no item claimed are deleted *)
    rewrite <- HDeq in *. clear HDeq.
    assert (Hexists : forall d, d ∈ D -> is_Some (get (work_experience_table (current st)) d)).
    { intros d Hd. apply get_is_Some. rewrite Hids. apply elem_of_app. left.
      apply HL0. by apply HD in Hd as [? _]. }
    unfold delete_work_experience. rewrite (batch_delete_Some D _ Hexists).
    cbn [fst applicants_table with_applicants with_work work_experience_table
         personal_details_table salary_preferences_table shortlisted_leads_table].
    split; [by apply only_links_map|]. repeat split; try done.
    + apply (all_NoDup (fun r => negb (existsb (String.eqb (id r)) D))). by rewrite Hids.
    + intros a' Ha'. rewrite get_map_fields, Hac in Ha'. cbn in Ha'.
      injection Ha' as <-. exists rows. split.
      * eapply Forall2_impl; [apply (Forall2_with_member _ _ _ Hweak)|].
        intros e r [[Hg Hc] Hin]. split; [|done].
        cbn [work_experience_table with_applicants with_work].
        rewrite get_filter_ids.
        destruct (existsb (String.eqb (id r)) D) eqn:E; [|done].
        apply existsb_eqb_elem_of in E. by apply Hrows_iff in Hin as [_ Hnot].
      * cbn [fields].
        change (Work_Experience (applicant_side WorkExperience (remove_links D) (fields a_c)))
          with (remove_links D (Work_Experience (fields a_c))).
        rewrite linked_ids_remove_links, Hlinks.
        apply NoDup_Permutation; [done | by apply filter_NoDup |].
        intros i. rewrite Hrows_iff. split.
        -- intros [Hin Hnot]. apply list_elem_of_In, filter_In.
           split; [by apply list_elem_of_In|].
           apply negb_true_iff, not_true_iff_false. by rewrite existsb_eqb_elem_of.
        -- intros Hi. apply list_elem_of_In, filter_In in Hi as [Hin Hnot].
           split; [by apply list_elem_of_In|].
           apply negb_true_iff, not_true_iff_false in Hnot.
           by rewrite existsb_eqb_elem_of in Hnot.
Qed.

End ExperienceSettles.

(** ** Decompressing, and decompressing again *)

Section Reconciliation.
Import Airtable Store JsonAutomation Spec Invariants.
Context {py : PyLib}.

(** A run on a store where the three sections are settled changes
    nothing. *)
Lemma decompress_sections_settled (a : row applicant_fields) (data : Snapshot.t) (s : store) :
  NoDup (List.map id (work_experience_table s)) ->
  (forall e, e ∈ Snapshot.experience_section data ->
             is_Some (Snapshot.company e) /\ is_Some (Snapshot.title e)) ->
  NoDup (List.map entry_key (Snapshot.experience_section data)) ->
  personal_settled (Snapshot.personal_section data) (Personal_Details (fields a))
                   (personal_details_table s) ->
  corresponds (Snapshot.experience_section data) a s ->
  salary_settled (Snapshot.salary_section data) (Salary_Preferences (fields a))
                 (salary_preferences_table s) ->
  (decompress_sections a data s).1 = s.
Proof.
  intros Hnd Hvalid Hkeys Hp He Hy. unfold decompress_sections. cbn [fst].
  rewrite (decompress_personal_settled a _ s Hp).
  rewrite (decompress_experience_settled a _ s Hnd Hvalid Hkeys He).
  by rewrite (decompress_salary_settled a _ s Hy).
Qed.

(** What the first run leaves. *)
Lemma decompress_sections_settles (a : row applicant_fields) (data : Snapshot.t) (s : store) :
  get (applicants_table s) (id a) = Some a ->
  consistent a s ->
  (forall e, e ∈ Snapshot.experience_section data ->
             is_Some (Snapshot.company e) /\ is_Some (Snapshot.title e)) ->
  NoDup (List.map entry_key (Snapshot.experience_section data)) ->
  exists a1,
    get (applicants_table (decompress_sections a data s).1) (id a) = Some a1 /\
    Applicant_ID (fields a1) = Applicant_ID (fields a) /\
    Compressed_JSON (fields a1) = Compressed_JSON (fields a) /\
    List.map id (applicants_table (decompress_sections a data s).1) =
      List.map id (applicants_table s) /\
    (forall text rest,
       all (applicant_id_is text) (applicants_table s) = a :: rest ->
       exists a1' rest',
         all (applicant_id_is text) (applicants_table (decompress_sections a data s).1)
           = a1' :: rest' /\ id a1' = id a) /\
    NoDup (List.map id (work_experience_table (decompress_sections a data s).1)) /\
    personal_settled (Snapshot.personal_section data) (Personal_Details (fields a1))
                     (personal_details_table (decompress_sections a data s).1) /\
    corresponds (Snapshot.experience_section data) a1 (decompress_sections a data s).1 /\
    salary_settled (Snapshot.salary_section data) (Salary_Preferences (fields a1))
                   (salary_preferences_table (decompress_sections a data s).1).
Proof.
  intros Hget (Hnda & Hndw & HndL & Hexist & Hsp & Hsy) Hvalid Hkeys.
  unfold decompress_sections. cbn [fst].
  (* the personal section *)
  destruct (decompress_personal_settles a (Snapshot.personal_section data) s Hget Hsp)
    as (HP_app & HP_we & HP_sal & _ & HP_set).
  set (sP := (decompress_personal a (Snapshot.personal_section data) s).1) in *.
  pose proof (related_get _ (only_link_id PersonalDetails) _ _ (id a) HP_app) as HgP.
  rewrite Hget in HgP. destruct HgP as (aP & HgetP & HlinkP).
  assert (HweP : Work_Experience (fields aP) = Work_Experience (fields a)).
  { by apply (only_link_other PersonalDetails WorkExperience _ _ HlinkP). }
  assert (HsalP : Salary_Preferences (fields aP) = Salary_Preferences (fields a)).
  { by apply (only_link_other PersonalDetails SalaryPreferences _ _ HlinkP). }
  (* the experience section *)
  destruct (decompress_experience_settles a aP (Snapshot.experience_section data) sP)
    as (HE_app & HE_per & HE_sal & _ & HE_nd & HE_set).
  { done. }
  { done. }
  { by rewrite HP_we. }
  { done. }
  { by rewrite HP_we. }
  { done. }
  { done. }
  set (sE := (decompress_experience a (Snapshot.experience_section data) sP).1) in *.
  pose proof (related_get _ (only_link_id WorkExperience) _ _ (id a) HE_app) as HgE.
  rewrite HgetP in HgE. destruct HgE as (aE & HgetE & HlinkE).
  assert (HsalE : Salary_Preferences (fields aE) = Salary_Preferences (fields aP)).
  { by apply (only_link_other WorkExperience SalaryPreferences _ _ HlinkE). }
  assert (HperE : Personal_Details (fields aE) = Personal_Details (fields aP)).
  { by apply (only_link_other WorkExperience PersonalDetails _ _ HlinkE). }
  (* the salary section *)
  destruct (decompress_salary_settles a aE (Snapshot.salary_section data) sE)
    as (HY_app & HY_we & HY_per & _ & HY_set).
  { done. }
  { congruence. }
  { done. }
  set (sY := (decompress_salary a (Snapshot.salary_section data) sE).1) in *.
  pose proof (related_get _ (only_link_id SalaryPreferences) _ _ (id a) HY_app) as HgY.
  rewrite HgetE in HgY. destruct HgY as (aY & HgetY & HlinkY).
  assert (HperY : Personal_Details (fields aY) = Personal_Details (fields aE)).
  { by apply (only_link_other SalaryPreferences PersonalDetails _ _ HlinkY). }
  assert (HweY : Work_Experience (fields aY) = Work_Experience (fields aE)).
  { by apply (only_link_other SalaryPreferences WorkExperience _ _ HlinkY). }
  exists aY. split; [done|].
  destruct (only_link_data _ _ _ HlinkP) as [HidP HjsP].
  destruct (only_link_data _ _ _ HlinkE) as [HidE HjsE].
  destruct (only_link_data _ _ _ HlinkY) as [HidY HjsY].
  split; [congruence|]. split; [congruence|]. split.
  { rewrite (related_ids _ (only_link_id SalaryPreferences) _ _ HY_app).
    rewrite (related_ids _ (only_link_id WorkExperience) _ _ HE_app).
    by rewrite (related_ids _ (only_link_id PersonalDetails) _ _ HP_app). }
  split.
  { intros text rest Hall.
    destruct (only_links_query _ _ _ text a rest HP_app Hall) as (x1 & r1 & H1 & [Hi1 _]).
    destruct (only_links_query _ _ _ text x1 r1 HE_app H1) as (x2 & r2 & H2 & [Hi2 _]).
    destruct (only_links_query _ _ _ text x2 r2 HY_app H2) as (x3 & r3 & H3 & [Hi3 _]).
    exists x3, r3. split; [done | congruence]. }
  split; [by rewrite HY_we|]. split.
  { rewrite HY_per, HE_per, HperY, HperE. by apply HP_set. }
  split; [|by apply HY_set].
  destruct (HE_set aE HgetE) as (rows & Hrows & Hperm).
  exists rows. rewrite HY_we. split; [done|]. by rewrite HweY.
Qed.

(** C2, amended.  Take an applicant with a snapshot that reads as a
    document of the compressor, whose items all have a company and a title,
    no two the same pair, in a store that is consistent around the
    applicant.  After
    [decompress_applicant_data] the Work Experience records that the
    applicant links correspond to the items of the array, one record for
    each item; and a second run returns [True] and leaves the store exactly
    as the first run left it, so that it creates no record in any table and
    every record keeps its identifier. *)
Theorem decompress_reconciles_and_settles
    (applicant_id_text : string) (s : store)
    (a : row applicant_fields) (rest : list (row applicant_fields))
    (json : string) (data : Snapshot.t) :
  all (applicant_id_is applicant_id_text) (applicants_table s) = a :: rest ->
  Compressed_JSON (fields a) = Some json ->
  Py.truthy json = true ->
  json_loads json = Some (Snapshot.document data) ->
  consistent a s ->
  (forall e, e ∈ Snapshot.experience_section data ->
             is_Some (Snapshot.company e) /\ is_Some (Snapshot.title e)) ->
  NoDup (List.map entry_key (Snapshot.experience_section data)) ->
  (decompress_applicant_data applicant_id_text s).1.1 = Py.RTrue /\
  (exists a1,
     get (applicants_table (decompress_applicant_data applicant_id_text s).1.2) (id a)
       = Some a1 /\
     corresponds (Snapshot.experience_section data) a1
                 (decompress_applicant_data applicant_id_text s).1.2) /\
  (decompress_applicant_data applicant_id_text
     (decompress_applicant_data applicant_id_text s).1.2).1
    = (Py.RTrue, (decompress_applicant_data applicant_id_text s).1.2).
Proof.
  intros Hall Hjson Htruthy Hloads Hcons Hvalid Hkeys.
  assert (Hget : get (applicants_table s) (id a) = Some a).
  { apply get_member; [by destruct Hcons | by destruct (all_head _ _ _ _ Hall)]. }
  destruct (decompress_sections_settles a data s Hget Hcons Hvalid Hkeys)
    as (a1 & Hget1 & Hid1 & Hjs1 & Hids & Hquery & Hnd1 & Hp1 & He1 & Hy1).
  assert (Hrun : decompress_applicant_data applicant_id_text s =
                 (Py.RTrue, (decompress_sections a data s).1,
                  (decompress_applicant_data applicant_id_text s).2)).
  { unfold decompress_applicant_data. rewrite Hall, Hjson.
    cbn [Py.truthy_opt from_option].
    by rewrite Htruthy, Hloads, decompress_value_document. }
  rewrite Hrun. cbn [fst snd]. split; [done|]. split; [by exists a1|].
  set (s1 := (decompress_sections a data s).1) in *.
  destruct (Hquery applicant_id_text rest Hall) as (a1' & rest' & Hall1 & Hida).
  assert (a1' = a1) as ->.
  { assert (Hg : get (applicants_table s1) (id a1') = Some a1').
    { apply get_member; [|by destruct (all_head _ _ _ _ Hall1)].
      rewrite Hids. by destruct Hcons. }
    rewrite Hida in Hg. congruence. }
  unfold decompress_applicant_data. rewrite Hall1, Hjs1, Hjson.
  cbn [Py.truthy_opt from_option].
  rewrite Htruthy, Hloads, decompress_value_document. cbn [fst snd].
  by rewrite (decompress_sections_settled a1 data s1 Hnd1 Hvalid Hkeys Hp1 He1 Hy1).
Qed.

End Reconciliation.

Lemma decompress_reconciles_and_settles_witness :
  (JsonAutomation.decompress_applicant_data (py:=Fixture.python) "APP001"
     Fixture.edited_store).1.1 = Py.RTrue /\
  (exists a1,
     Airtable.get
       (Airtable.applicants_table
          (JsonAutomation.decompress_applicant_data (py:=Fixture.python) "APP001"
             Fixture.edited_store).1.2) (Airtable.id Fixture.edited) = Some a1 /\
     Spec.corresponds (Snapshot.experience_section Fixture.edited_doc) a1
       (JsonAutomation.decompress_applicant_data (py:=Fixture.python) "APP001"
          Fixture.edited_store).1.2) /\
  (JsonAutomation.decompress_applicant_data (py:=Fixture.python) "APP001"
     (JsonAutomation.decompress_applicant_data (py:=Fixture.python) "APP001"
        Fixture.edited_store).1.2).1
    = (Py.RTrue,
       (JsonAutomation.decompress_applicant_data (py:=Fixture.python) "APP001"
          Fixture.edited_store).1.2).
Proof.
  apply (decompress_reconciles_and_settles (py:=Fixture.python) "APP001"
           Fixture.edited_store Fixture.edited [] (Fixture.dumps Fixture.edited_doc)
           Fixture.edited_doc).
  - reflexivity.
  - reflexivity.
  - exact (dumps_truthy Fixture.edited_doc).
  - exact (loads_dumps Fixture.edited_doc).
  - repeat split.
    + refine (@bool_decide_unpack _ (NoDup_dec _) _). vm_compute. exact I.
    + refine (@bool_decide_unpack _ (NoDup_dec _) _). vm_compute. exact I.
    + refine (@bool_decide_unpack _ (NoDup_dec _) _). vm_compute. exact I.
    + intros i Hi. vm_compute in Hi.
      apply elem_of_cons in Hi as [->|Hi]; [by eexists|].
      apply elem_of_cons in Hi as [->|Hi]; [by eexists|].
      by apply elem_of_nil in Hi.
  - intros e He. vm_compute in He.
    apply elem_of_cons in He as [->|He]; [by split; eexists|].
    apply elem_of_cons in He as [->|He]; [by split; eexists|].
    by apply elem_of_nil in He.
  - refine (@bool_decide_unpack _ (NoDup_dec _) _). vm_compute. exact I.
Defined.

(** An item of the array without a title gets no record: the snapshot
    reads as a document with one item, the run returns [True], and afterwards the
    Work Experience table is empty and the applicant links nothing. *)
Lemma decompress_skips_item_without_title :
  Airtable.all (Airtable.applicant_id_is "APP007")
               (Airtable.applicants_table Fixture.nameless_store) = [Fixture.nameless] /\
  json_loads (PyLib:=Fixture.python) (Fixture.dumps Fixture.nameless_doc)
    = Some (Snapshot.document Fixture.nameless_doc) /\
  length (Snapshot.experience_section Fixture.nameless_doc) = 1 /\
  (JsonAutomation.decompress_applicant_data (py:=Fixture.python) "APP007"
     Fixture.nameless_store).1.1 = Py.RTrue /\
  Airtable.work_experience_table
    (JsonAutomation.decompress_applicant_data (py:=Fixture.python) "APP007"
       Fixture.nameless_store).1.2 = [] /\
  Airtable.applicants_table
    (JsonAutomation.decompress_applicant_data (py:=Fixture.python) "APP007"
       Fixture.nameless_store).1.2 = [Fixture.nameless].
Proof.
  split; [reflexivity|]. split; [exact (loads_dumps Fixture.nameless_doc)|].
  split; [reflexivity|]. by vm_compute.
Qed.

(** ** What each automation leaves alone *)

Section Frames.
Import Airtable Store Invariants.

Lemma agree_refl {A} (view : applicant_fields -> A) (r : row applicant_fields) :
  agree view r r.
Proof. by split. Qed.

Lemma agrees_refl {A} (view : applicant_fields -> A) (t : table applicant_fields) :
  agrees view t t.
Proof. induction t; constructor; [apply agree_refl | done]. Qed.

Lemma agrees_trans {A} (view : applicant_fields -> A) (t1 t2 t3 : table applicant_fields) :
  agrees view t1 t2 -> agrees view t2 t3 -> agrees view t1 t3.
Proof.
  intros H12. revert t3. induction H12 as [|r1 r2 t1 t2 [Hi Hv] _ IH]; intros t3 H23.
  - inversion H23. constructor.
  - inversion H23 as [|? r3 ? t3' [Hi' Hv'] Hrest]; subst. constructor; [|by apply IH].
    split; congruence.
Qed.

Lemma agree_id {A} (view : applicant_fields -> A) (r r' : row applicant_fields) :
  agree view r r' -> id r' = id r.
Proof. by intros [? _]. Qed.

(** A coarser view of records that agree. *)
Lemma agrees_through {A B} (view : applicant_fields -> A) (g : A -> B)
    (t t' : table applicant_fields) :
  agrees view t t' -> agrees (fun f => g (view f)) t t'.
Proof.
  induction 1 as [|r r' t t' [Hi Hv] _ IH]; constructor; [|done].
  split; [done|]. by rewrite Hv.
Qed.

Lemma update_agrees {A} (view : applicant_fields -> A) (i : rid)
    (f : applicant_fields -> applicant_fields) (t t' : table applicant_fields) :
  (forall x, view (f x) = view x) -> update i f t = Some t' -> agrees view t t'.
Proof.
  intros Hf Hup.
  apply (related_update (agree view) (agree_id view) t t t' i f); [apply agrees_refl | done |].
  intros r r' [Hi Hv] Hr. split; [by simpl | simpl; by rewrite Hf].
Qed.

Lemma map_agrees {A} (view : applicant_fields -> A)
    (f : applicant_fields -> applicant_fields) (t : table applicant_fields) :
  (forall x, view (f x) = view x) ->
  agrees view t (List.map (fun a => Row (id a) (f (fields a))) t).
Proof.
  intros Hf. induction t as [|r t IH]; simpl; constructor; [|done].
  split; [done | simpl; by rewrite Hf].
Qed.

Lemma same_children_refl (s : store) : same_children s s.
Proof. by repeat split. Qed.

Lemma same_children_trans (s1 s2 s3 : store) :
  same_children s1 s2 -> same_children s2 s3 -> same_children s1 s3.
Proof. intros (? & ? & ?) (? & ? & ?). repeat split; congruence. Qed.

End Frames.

Section CompressorFrame.
Import Airtable Store Invariants JsonAutomation.
Context {py : PyLib}.

Lemma compress_keeps_links (applicant_id_text : string) (s : store) :
  same_children s (compress_applicant_data applicant_id_text s).1.2 /\
  agrees links_of (applicants_table s)
         (applicants_table (compress_applicant_data applicant_id_text s).1.2).
Proof.
  unfold compress_applicant_data.
  destruct (all _ _) as [|a rest]; cbn [fst snd];
    [by split; [apply same_children_refl | apply agrees_refl]|].
  destruct (update _ _ _) as [t|] eqn:Hup; cbn [fst snd];
    [|by split; [apply same_children_refl | apply agrees_refl]].
  split; [by repeat split|]. eapply update_agrees; [|exact Hup]. by intros [].
Qed.

(** [compress_applicant_data] writes one field.  Whatever the store and the
    identifier, the run leaves the child tables and the leads as they were,
    and every applicant record keeps its place, its identifier and all its
    fields but [Compressed JSON]. *)
Theorem compress_writes_only_the_snapshot (applicant_id_text : string) (s : store) :
  agrees but_snapshot (applicants_table s)
         (applicants_table (compress_applicant_data applicant_id_text s).1.2) /\
  same_children s (compress_applicant_data applicant_id_text s).1.2 /\
  shortlisted_leads_table (compress_applicant_data applicant_id_text s).1.2
    = shortlisted_leads_table s.
Proof.
  unfold compress_applicant_data.
  destruct (all _ _) as [|a rest]; cbn [fst snd].
  { split; [apply agrees_refl | by split; [apply same_children_refl|]]. }
  destruct (update _ _ _) as [t|] eqn:Hup; cbn [fst snd].
  - split; [|by split; [repeat split|]].
    eapply update_agrees; [|exact Hup]. by intros [].
  - split; [apply agrees_refl | by split; [apply same_children_refl|]].
Qed.

End CompressorFrame.

Section EvaluatorFrame.
Import Airtable Store Invariants LlmAutomation.
Context {py : PyLib}.

Lemma record_evaluation_frame (i : rid) (now_iso content : string) (s : store) :
  agrees but_llm (applicants_table s)
         (applicants_table (record_evaluation i now_iso content s).1.2) /\
  same_children s (record_evaluation i now_iso content s).1.2 /\
  shortlisted_leads_table (record_evaluation i now_iso content s).1.2
    = shortlisted_leads_table s.
Proof.
  unfold record_evaluation.
  destruct (Py.truthy content); cbn [fst snd];
    [|split; [apply agrees_refl | by split; [apply same_children_refl|]]].
  destruct (update _ _ _) as [t|] eqn:Hup; cbn [fst snd].
  - split; [|by split; [repeat split|]].
    eapply update_agrees; [|exact Hup]. by intros [].
  - split; [apply agrees_refl | by split; [apply same_children_refl|]].
Qed.

Lemma evaluation_keeps_links
    (max_retries : Z) (initial_delay : Q) (llm : nat -> llm_reply)
    (now_iso applicant_id_text : string) (s : store) :
  same_children s
    (evaluate_applicant_with_llm max_retries initial_delay llm now_iso
                                 applicant_id_text s).1.2 /\
  agrees links_of (applicants_table s)
         (applicants_table
            (evaluate_applicant_with_llm max_retries initial_delay llm now_iso
                                         applicant_id_text s).1.2).
Proof.
  assert (Hsame : same_children s s /\
                  agrees links_of (applicants_table s) (applicants_table s))
    by (split; [apply same_children_refl | apply agrees_refl]).
  unfold evaluate_applicant_with_llm.
  destruct (all _ _) as [|a rest]; cbn [fst snd]; [done|].
  destruct (Py.truthy_opt _); cbn [fst snd]; [|done].
  destruct (already_evaluated _ _) as [[|]|]; cbn [fst snd]; [done| |done].
  destruct (llm_attempts _ _ _ _).1 as [content| | |exn]; cbn [fst snd];
    [|done|done|done].
  destruct (record_evaluation_frame (id a) now_iso content s) as (Hag & Hch & _).
  split; [done|]. exact (agrees_through but_llm (fun v => v.1.1.1.2) _ _ Hag).
Qed.

(** [evaluate_applicant_with_llm] writes the four fields of the evaluation
    and nothing else: whatever the language model answers, the child tables
    and the leads are as they were, and every applicant record keeps its
    place, its identifier, its links, its snapshot and its status. *)
Theorem evaluation_writes_only_its_fields
    (max_retries : Z) (initial_delay : Q) (llm : nat -> llm_reply)
    (now_iso applicant_id_text : string) (s : store) :
  agrees but_llm (applicants_table s)
         (applicants_table
            (evaluate_applicant_with_llm max_retries initial_delay llm now_iso
                                         applicant_id_text s).1.2) /\
  same_children s
    (evaluate_applicant_with_llm max_retries initial_delay llm now_iso
                                 applicant_id_text s).1.2 /\
  shortlisted_leads_table
    (evaluate_applicant_with_llm max_retries initial_delay llm now_iso
                                 applicant_id_text s).1.2
    = shortlisted_leads_table s.
Proof.
  assert (Hsame : agrees but_llm (applicants_table s) (applicants_table s) /\
                  same_children s s /\
                  shortlisted_leads_table s = shortlisted_leads_table s).
  { split; [apply agrees_refl | by split; [apply same_children_refl|]]. }
  unfold evaluate_applicant_with_llm.
  destruct (all _ _) as [|a rest]; cbn [fst snd]; [done|].
  destruct (Py.truthy_opt _); cbn [fst snd]; [|done].
  destruct (already_evaluated _ _) as [[|]|]; cbn [fst snd]; [done| |done].
  destruct (llm_attempts _ _ _ _).1 as [content| | |exn]; cbn [fst snd];
    [|done|done|done].
  apply record_evaluation_frame.
Qed.

End EvaluatorFrame.

Section ShortlisterFrame.
Import Airtable Store Invariants ShortlistAutomation.
Context {py : PyLib}.

Lemma set_status_frame (i : rid) (status : string) (s s1 : store) :
  set_status i status s = Some s1 ->
  agrees but_status (applicants_table s) (applicants_table s1) /\
  same_children s s1 /\
  shortlisted_leads_table s1 = shortlisted_leads_table s.
Proof.
  unfold set_status. destruct (update _ _ _) as [t|] eqn:Hup; [|done].
  intros [= <-]. split; [|by split; [repeat split|]].
  eapply update_agrees; [|exact Hup]. by intros [].
Qed.

Lemma upsert_lead_frame (a : row applicant_fields) (json : string) (reasons : list string)
    (s : store) :
  applicants_table (upsert_lead a json reasons s).1.2 = applicants_table s /\
  same_children s (upsert_lead a json reasons s).1.2 /\
  List.map id (shortlisted_leads_table s)
    `prefix_of` List.map id (shortlisted_leads_table (upsert_lead a json reasons s).1.2) /\
  length (shortlisted_leads_table (upsert_lead a json reasons s).1.2)
    <= S (length (shortlisted_leads_table s)).
Proof.
  unfold upsert_lead. destruct (all _ _) as [|existing rest]; cbn [fst snd].
  - split; [done|]. split; [by repeat split|]. unfold create, with_leads.
    cbn [snd shortlisted_leads_table].
    rewrite List.map_app, length_app. cbn [length]. split; [by eexists | lia].
  - destruct (update _ _ _) as [t|] eqn:Hup; cbn [fst snd].
    + split; [done|]. split; [by repeat split|].
      unfold with_leads. cbn [shortlisted_leads_table].
      rewrite (update_ids _ _ _ _ Hup). split; [done|].
      rewrite <- (length_map id t), (update_ids _ _ _ _ Hup), length_map. lia.
    + split; [done|]. split; [by repeat split|]. split; [done | lia].
Qed.

Lemma shortlisting_keeps_links (now : Z) (applicant_id_text : string) (s : store) :
  same_children s (shortlist_applicant now applicant_id_text s).1.2 /\
  agrees links_of (applicants_table s)
         (applicants_table (shortlist_applicant now applicant_id_text s).1.2).
Proof.
  assert (Hsame : same_children s s /\
                  agrees links_of (applicants_table s) (applicants_table s))
    by (split; [apply same_children_refl | apply agrees_refl]).
  assert (Hset : forall i status s1, set_status i status s = Some s1 ->
            same_children s s1 /\
            agrees links_of (applicants_table s) (applicants_table s1)).
  { intros i status s1 H. destruct (set_status_frame _ _ _ _ H) as (Ha & Hc & _).
    split; [done|]. exact (agrees_through but_status (fun v => v.1.1.1.2) _ _ Ha). }
  unfold shortlist_applicant.
  destruct (all _ _) as [|a rest]; cbn [fst snd]; [done|].
  destruct (Py.truthy_opt _); cbn [fst snd].
  - destruct (json_loads _) as [loaded|]; cbn [fst snd].
    + destruct (read_snapshot now loaded) as [data|[exn warned]]; cbn [fst snd]; [|done].
      destruct (set_status (id a) _ s) as [s1|] eqn:Hs1; cbn [fst snd]; [|done].
      destruct (is_shortlisted now data); cbn [fst snd]; [|by eapply Hset].
      destruct (Hset _ _ _ Hs1) as [Hc Ha].
      destruct (upsert_lead_frame a (from_option (fun t => t) "" (Compressed_JSON (fields a)))
                                  (score_reasons now data) s1) as (Ha' & Hc' & _).
      rewrite Ha'. split; [by eapply same_children_trans | done].
    + destruct (set_status (id a) _ s) as [s1|] eqn:Hs1; cbn [fst snd]; [by eapply Hset | done].
  - destruct (set_status (id a) _ s) as [s1|] eqn:Hs1; cbn [fst snd]; [by eapply Hset | done].
Qed.

(** [shortlist_applicant] writes the status and at most one lead.  Whatever
    the store and the identifier, the child tables are as they were; every
    applicant record keeps its place, its identifier and all its fields but
    [Shortlist Status]; and the leads that were there stay, in their order,
    with at most one more after them. *)
Theorem shortlisting_writes_status_and_one_lead
    (now : Z) (applicant_id_text : string) (s : store) :
  agrees but_status (applicants_table s)
         (applicants_table (shortlist_applicant now applicant_id_text s).1.2) /\
  same_children s (shortlist_applicant now applicant_id_text s).1.2 /\
  List.map id (shortlisted_leads_table s)
    `prefix_of`
    List.map id (shortlisted_leads_table (shortlist_applicant now applicant_id_text s).1.2) /\
  length (shortlisted_leads_table (shortlist_applicant now applicant_id_text s).1.2)
    <= S (length (shortlisted_leads_table s)).
Proof.
  assert (Hsame : agrees but_status (applicants_table s) (applicants_table s) /\
                  same_children s s /\
                  List.map id (shortlisted_leads_table s)
                    `prefix_of` List.map id (shortlisted_leads_table s) /\
                  length (shortlisted_leads_table s) <= S (length (shortlisted_leads_table s))).
  { split; [apply agrees_refl|]. split; [apply same_children_refl|]. split; [done | lia]. }
  assert (Hset : forall i status s1, set_status i status s = Some s1 ->
            agrees but_status (applicants_table s) (applicants_table s1) /\
            same_children s s1 /\
            List.map id (shortlisted_leads_table s)
              `prefix_of` List.map id (shortlisted_leads_table s1) /\
            length (shortlisted_leads_table s1) <= S (length (shortlisted_leads_table s))).
  { intros i status s1 H. destruct (set_status_frame _ _ _ _ H) as (Ha & Hc & Hl).
    rewrite Hl. split; [done|]. split; [done|]. split; [done | lia]. }
  unfold shortlist_applicant.
  destruct (all _ _) as [|a rest]; cbn [fst snd]; [done|].
  destruct (Py.truthy_opt _); cbn [fst snd].
  - destruct (json_loads _) as [loaded|]; cbn [fst snd].
    + destruct (read_snapshot now loaded) as [data|[exn warned]]; cbn [fst snd]; [|done].
      destruct (set_status (id a) _ s) as [s1|] eqn:Hs1; cbn [fst snd]; [|done].
      destruct (is_shortlisted now data); cbn [fst snd]; [|by eapply Hset].
      destruct (set_status_frame _ _ _ _ Hs1) as (Ha & Hc & Hl).
      destruct (upsert_lead_frame a (from_option (fun t => t) "" (Compressed_JSON (fields a)))
                                  (score_reasons now data) s1) as (Ha' & Hc' & Hp & Hn).
      rewrite Ha'. split; [done|]. split; [by eapply same_children_trans|].
      by rewrite <- Hl.
    + destruct (set_status (id a) _ s) as [s1|] eqn:Hs1; cbn [fst snd]; [by eapply Hset | done].
  - destruct (set_status (id a) _ s) as [s1|] eqn:Hs1; cbn [fst snd]; [by eapply Hset | done].
Qed.

End ShortlisterFrame.

Section DecompressorFrame.
Import Airtable Store Invariants JsonAutomation.

Lemma mended_refl (s : store) : mended s s.
Proof. split; [apply agrees_refl | done]. Qed.

Lemma mended_trans (s1 s2 s3 : store) : mended s1 s2 -> mended s2 s3 -> mended s1 s3.
Proof.
  intros [Ha Hl] [Ha' Hl']. split; [by eapply agrees_trans | congruence].
Qed.

Lemma child_side_frame (c : child_table) (child : rid) (v : link_field) (s s1 : store) :
  child_side c child v s = Some s1 ->
  applicants_table s1 = applicants_table s /\
  shortlisted_leads_table s1 = shortlisted_leads_table s.
Proof.
  unfold child_side. destruct c; destruct (update _ _ _); intros [= <-]; by split.
Qed.

Lemma link_child_to_applicant_frame (c : child_table) (child applicant : rid) (s : store) :
  mended s (link_child_to_applicant c child applicant s).1.
Proof.
  unfold link_child_to_applicant, link.
  destruct (child_side c child _ s) as [s1|] eqn:Hside; cbn [fst]; [|apply mended_refl].
  destruct (child_side_frame _ _ _ _ _ Hside) as [Ha Hl].
  destruct (update _ _ (applicants_table s1)) as [t|] eqn:Hup; cbn [fst]; [|apply mended_refl].
  split; [|done]. cbn [applicants_table with_applicants]. rewrite <- Ha.
  eapply update_agrees; [|exact Hup]. intros x. by destruct c, x.
Qed.

Lemma decompress_personal_frame (a : row applicant_fields)
    (section : option Snapshot.personal) (s : store) :
  mended s (decompress_personal a section s).1.
Proof.
  unfold decompress_personal. destruct section as [d|]; [|apply mended_refl].
  destruct (Py.truthy_opt _).
  - destruct (update _ _ _); cbn [fst]; [by split; [apply agrees_refl|] | apply mended_refl].
  - cbn [fst]. eapply mended_trans; [|apply link_child_to_applicant_frame].
    split; [apply agrees_refl | done].
Qed.

Lemma decompress_salary_frame (a : row applicant_fields)
    (section : option Snapshot.salary) (s : store) :
  mended s (decompress_salary a section s).1.
Proof.
  unfold decompress_salary. destruct section as [d|]; [|apply mended_refl].
  destruct (Py.truthy_opt _).
  - destruct (update _ _ _); cbn [fst]; [by split; [apply agrees_refl|] | apply mended_refl].
  - cbn [fst]. eapply mended_trans; [|apply link_child_to_applicant_frame].
    split; [apply agrees_refl | done].
Qed.

Lemma decompress_experience_item_frame
    (cmap : gmap (option string * option string) rid) (aid : rid) (st : reconciling)
    (e : Snapshot.experience) :
  mended (current st) (current (decompress_experience_item cmap aid st e)).
Proof.
  unfold decompress_experience_item.
  destruct (Snapshot.company e), (Snapshot.title e); cbn [current]; try apply mended_refl.
  destruct (cmap !! _) as [j|].
  - destruct (update _ _ _); cbn [current]; [by split; [apply agrees_refl|] | apply mended_refl].
  - cbn [current]. eapply mended_trans; [|apply link_child_to_applicant_frame].
    split; [apply agrees_refl | done].
Qed.

Lemma decompress_experience_items_frame
    (cmap : gmap (option string * option string) rid) (aid : rid)
    (entries : list Snapshot.experience) (st : reconciling) :
  mended (current st) (current (foldl (decompress_experience_item cmap aid) st entries)).
Proof.
  revert st. induction entries as [|e entries IH]; intros st; [apply mended_refl|].
  cbn [foldl]. eapply mended_trans; [apply decompress_experience_item_frame | apply IH].
Qed.

Lemma decompress_experience_frame (a : row applicant_fields)
    (entries : list Snapshot.experience) (s : store) :
  mended s (decompress_experience a entries s).1.
Proof.
  unfold decompress_experience, experience_loop.
  set (cmap := experience_map _).
  pose proof (decompress_experience_items_frame cmap (id a) entries (Reconciling s ∅ []))
    as Hloop.
  cbn [current] in Hloop.
  set (st := foldl _ _ entries) in *.
  destruct (List.filter _ _) as [|d ds]; cbn [fst]; [done|].
  unfold delete_work_experience.
  destruct (batch_delete _ _) as [t|]; cbn [fst]; [|done].
  eapply mended_trans; [exact Hloop|].
  split; [|done]. cbn [applicants_table with_applicants].
  apply map_agrees. by intros [].
Qed.

Lemma experience_loop_frame (a : row applicant_fields)
    (entries : list Snapshot.experience) (s : store) :
  mended s (current (experience_loop a entries s)).
Proof.
  unfold experience_loop.
  exact (decompress_experience_items_frame _ (id a) entries (Reconciling s ∅ [])).
Qed.

Lemma decompress_value_frame (a : row applicant_fields) (data : Snapshot.json) (s : store) :
  mended s (decompress_value a data s).1.2.
Proof.
  unfold decompress_value.
  destruct data as [personal_data experience_data salary_data|]; [|apply mended_refl].
  assert (Hp : forall section, mended s (decompress_personal a section s).1)
    by (intros section; apply decompress_personal_frame).
  assert (Hrest : forall section,
            mended s
              (match experience_data with
               | Snapshot.NotIterable =>
                   (Py.Raised "TypeError", (decompress_personal a section s).1,
                    (decompress_personal a section s).2)
               | Snapshot.Items items =>
                   match Snapshot.objects items with
                   | None =>
                       let st := experience_loop a (Snapshot.leading items)
                                   (decompress_personal a section s).1 in
                       (Py.Raised "AttributeError", current st,
                        (decompress_personal a section s).2 ++ logged st)
                   | Some entries =>
                       let e := decompress_experience a entries
                                  (decompress_personal a section s).1 in
                       match salary_data with
                       | Snapshot.Other true =>
                           (Py.Raised "AttributeError", e.1,
                            (decompress_personal a section s).2 ++ e.2)
                       | _ =>
                           let y := decompress_salary a (Snapshot.fields_of salary_data) e.1 in
                           (Py.RTrue, y.1,
                            (decompress_personal a section s).2 ++ e.2 ++ y.2 ++
                            [Log INFO "Successfully decompressed data for Applicant ID: {applicant_id_text}"])
                       end
                   end
               end).1.2).
  { intros section. destruct experience_data as [items|]; cbn [fst snd]; [|apply Hp].
    destruct (Snapshot.objects items) as [entries|]; cbn [fst snd].
    - assert (He : mended s (decompress_experience a entries
                               (decompress_personal a section s).1).1)
        by (eapply mended_trans; [apply Hp | apply decompress_experience_frame]).
      destruct salary_data as [fields|[|]]; cbn [fst snd]; try exact He;
        (eapply mended_trans; [exact He | apply decompress_salary_frame]).
    - eapply mended_trans; [apply Hp | apply experience_loop_frame]. }
  destruct personal_data as [fields|[|]]; [apply Hrest | apply mended_refl | apply Hrest].
Qed.

Context {py : PyLib}.

(** [decompress_applicant_data] writes the child tables and the links to
    them.  Whatever the store and the identifier, the leads are as they
    were, and every applicant record keeps its place, its identifier, its
    [Applicant ID], its snapshot, its status and its evaluation. *)
Theorem decompress_leaves_leads_and_snapshots (applicant_id_text : string) (s : store) :
  agrees but_links (applicants_table s)
         (applicants_table (decompress_applicant_data applicant_id_text s).1.2) /\
  shortlisted_leads_table (decompress_applicant_data applicant_id_text s).1.2
    = shortlisted_leads_table s.
Proof.
  unfold decompress_applicant_data.
  destruct (all _ _) as [|a rest]; cbn [fst snd]; [apply mended_refl|].
  destruct (Py.truthy_opt _); cbn [fst snd]; [|apply mended_refl].
  destruct (json_loads _) as [data|]; cbn [fst snd]; [|apply mended_refl].
  apply decompress_value_frame.
Qed.

(** A run of [decompress_applicant_data] that returns [False] has written
    nothing.  Whatever the store and the identifier, the run returns
    [True], or returns [False] with the store as it was, or ends with the
    [AttributeError] or the [TypeError] of a snapshot that is JSON of
    another shape than the code reads. *)
Theorem decompress_fails_before_writing (applicant_id_text : string) (s : store) :
  (decompress_applicant_data applicant_id_text s).1.1 = Py.RTrue \/
  (decompress_applicant_data applicant_id_text s).1 = (Py.RFalse, s) \/
  (decompress_applicant_data applicant_id_text s).1.1 = Py.Raised "AttributeError" \/
  (decompress_applicant_data applicant_id_text s).1.1 = Py.Raised "TypeError".
Proof.
  unfold decompress_applicant_data.
  destruct (all _ _) as [|a rest]; cbn [fst snd]; [by right; left|].
  destruct (Py.truthy_opt _); cbn [fst snd]; [|by right; left].
  destruct (json_loads _) as [data|]; cbn [fst snd]; [|by right; left].
  unfold decompress_value.
  destruct data as [[personal|[|]] [items|] [salary|[|]]|]; cbn [fst snd];
    try destruct (Snapshot.objects items); cbn [fst snd]; auto.
Qed.

End DecompressorFrame.

(** ** The dispatcher and the automations together *)

Section DispatcherRuns.
Import Airtable Store Invariants.
Context {py : PyLib}.

Lemma block_run (exits : bool) (banner failure : string)
    (component : store -> Py.result * store * list event)
    (ok : bool) (w : store) (tr : list event) :
  Main.block true exits banner failure component (Main.Run ok w tr None) =
  match (component w).1.1 with
  | Py.Raised exn =>
      Main.Run ok (component w).1.2 (tr ++ [Log INFO banner] ++ (component w).2)
               (Some (Main.Uncaught exn))
  | Py.RTrue =>
      Main.Run ok (component w).1.2 (tr ++ [Log INFO banner] ++ (component w).2) None
  | _ =>
      Main.Run false (component w).1.2
               ((tr ++ [Log INFO banner] ++ (component w).2) ++ [Log ERROR failure])
               (if exits then Some (Main.SysExit (-1)) else None)
  end.
Proof. unfold Main.block. cbn. by destruct (component w).1.1. Qed.

Lemma block_ended (applies exits : bool) (banner failure : string)
    (component : store -> Py.result * store * list event)
    (ok : bool) (w : store) (tr : list event) (e : Main.ending) :
  Main.block applies exits banner failure component (Main.Run ok w tr (Some e)) =
  Main.Run ok w tr (Some e).
Proof. done. Qed.

(** An action other than [all] runs one automation: the store that [main]
    leaves is the store that the automation leaves, and the process ends by
    the automation's result: it returns after [True], exits with -1 after
    [False] or [None], and an exception goes up. *)
Theorem single_action_runs_one_automation
    (now : Z) (now_iso : string) (max_retries : Z) (initial_delay : Q)
    (llm : nat -> LlmAutomation.llm_reply) (applicant_id : string) (s : store) :
  (Main.world (Main.main now now_iso max_retries initial_delay llm Main.compress applicant_id s)
     = (JsonAutomation.compress_applicant_data applicant_id s).1.2 /\
   Main.ended (Main.main now now_iso max_retries initial_delay llm Main.compress applicant_id s)
     = Some (Spec.outcome (JsonAutomation.compress_applicant_data applicant_id s).1.1)) /\
  (Main.world (Main.main now now_iso max_retries initial_delay llm Main.decompress applicant_id s)
     = (JsonAutomation.decompress_applicant_data applicant_id s).1.2 /\
   Main.ended (Main.main now now_iso max_retries initial_delay llm Main.decompress applicant_id s)
     = Some (Spec.outcome (JsonAutomation.decompress_applicant_data applicant_id s).1.1)) /\
  (Main.world (Main.main now now_iso max_retries initial_delay llm Main.shortlist applicant_id s)
     = (ShortlistAutomation.shortlist_applicant now applicant_id s).1.2 /\
   Main.ended (Main.main now now_iso max_retries initial_delay llm Main.shortlist applicant_id s)
     = Some (Spec.outcome (ShortlistAutomation.shortlist_applicant now applicant_id s).1.1)) /\
  (Main.world (Main.main now now_iso max_retries initial_delay llm Main.llm_evaluate
                         applicant_id s)
     = (LlmAutomation.evaluate_applicant_with_llm max_retries initial_delay llm now_iso
                                                  applicant_id s).1.2 /\
   Main.ended (Main.main now now_iso max_retries initial_delay llm Main.llm_evaluate
                         applicant_id s)
     = Some (Spec.outcome
               (LlmAutomation.evaluate_applicant_with_llm max_retries initial_delay llm now_iso
                                                          applicant_id s).1.1)).
Proof.
  unfold Main.main. cbv zeta. cbv iota.
  rewrite !block_skipped, !block_run. cbn [fst snd Main.is_all].
  generalize (JsonAutomation.compress_applicant_data applicant_id s)
             (JsonAutomation.decompress_applicant_data applicant_id s)
             (ShortlistAutomation.shortlist_applicant now applicant_id s)
             (LlmAutomation.evaluate_applicant_with_llm max_retries initial_delay llm now_iso
                                                        applicant_id s).
  intros [[c ?] ?] [[d ?] ?] [[h ?] ?] [[e ?] ?]. cbn [fst snd].
  repeat split.
  - by destruct c.
  - by destruct c.
  - by destruct d.
  - by destruct d.
  - by destruct h.
  - by destruct h.
  - by destruct e.
  - by destruct e.
Qed.

(** The action [all] lets [main] return exactly when the compressor, then
    the shortlister on the store the compressor left, then the evaluator on
    the store the shortlister left, all return [True]; the store is then
    the one the evaluator left. *)
Theorem all_returns_when_the_three_succeed
    (now : Z) (now_iso : string) (max_retries : Z) (initial_delay : Q)
    (llm : nat -> LlmAutomation.llm_reply) (applicant_id : string) (s : store) :
  Main.ended (Main.main now now_iso max_retries initial_delay llm Main.all applicant_id s)
    = Some Main.Returns <->
  (JsonAutomation.compress_applicant_data applicant_id s).1.1 = Py.RTrue /\
  (ShortlistAutomation.shortlist_applicant now applicant_id
     (JsonAutomation.compress_applicant_data applicant_id s).1.2).1.1 = Py.RTrue /\
  (LlmAutomation.evaluate_applicant_with_llm max_retries initial_delay llm now_iso applicant_id
     (ShortlistAutomation.shortlist_applicant now applicant_id
        (JsonAutomation.compress_applicant_data applicant_id s).1.2).1.2).1.1 = Py.RTrue /\
  Main.world (Main.main now now_iso max_retries initial_delay llm Main.all applicant_id s)
    = (LlmAutomation.evaluate_applicant_with_llm max_retries initial_delay llm now_iso
         applicant_id
         (ShortlistAutomation.shortlist_applicant now applicant_id
            (JsonAutomation.compress_applicant_data applicant_id s).1.2).1.2).1.2.
Proof.
  unfold Main.main. cbv zeta. cbv iota. rewrite block_skipped, !block_run.
  cbn [Main.is_all].
  destruct (JsonAutomation.compress_applicant_data applicant_id s) as [[c s1] ?].
  cbn [fst snd].
  destruct c; cbn [Main.success]; rewrite ?block_ended, ?block_skipped;
    cbn [Main.ended Main.success Main.world];
    try (split; [done | by intros (? & _)]).
  rewrite !block_run.
  destruct (ShortlistAutomation.shortlist_applicant now applicant_id s1) as [[h s2] ?].
  cbn [fst snd].
  destruct h; cbn [Main.success]; rewrite ?block_ended, ?block_skipped;
    cbn [Main.ended Main.success Main.world];
    try (split; [done | by intros (_ & ? & _)]).
  rewrite !block_run.
  destruct (LlmAutomation.evaluate_applicant_with_llm _ _ _ _ _ s2) as [[e s3] ?].
  cbn [fst snd].
  destruct e; cbn [Main.ended Main.success Main.world];
    (split; [done | by intros (_ & _ & ? & _)]).
Qed.

End DispatcherRuns.

Section DispatcherFrames.
Import Airtable Store Invariants.
Context {py : PyLib}.

Lemma block_keeps (K : store -> store -> Prop) (applies exits : bool)
    (banner failure : string) (component : store -> Py.result * store * list event)
    (r : Main.run) (s0 : store) :
  (forall s1 s2 s3, K s1 s2 -> K s2 s3 -> K s1 s3) ->
  (forall s, K s (component s).1.2) ->
  K s0 (Main.world r) ->
  K s0 (Main.world (Main.block applies exits banner failure component r)).
Proof.
  intros Ktrans Hc Hr. unfold Main.block.
  destruct (Main.ended r); [done|]. destruct applies; [|done].
  pose proof (Hc (Main.world r)) as Hstep.
  destruct (component (Main.world r)) as [[res s1] ev]. cbn [fst snd] in *.
  destruct res; cbn [Py.falsy Main.world]; by eapply Ktrans.
Qed.

(** Only the action [decompress] writes the child tables.  After any other
    action, whatever the automations met, the Personal Details, Work
    Experience and Salary Preferences tables are as they were, and every
    applicant record has the links it had. *)
Theorem only_decompress_writes_the_child_tables
    (now : Z) (now_iso : string) (max_retries : Z) (initial_delay : Q)
    (llm : nat -> LlmAutomation.llm_reply) (a : Main.action) (applicant_id : string)
    (s : store) :
  a <> Main.decompress ->
  same_children s
    (Main.world (Main.main now now_iso max_retries initial_delay llm a applicant_id s)) /\
  agrees links_of (applicants_table s)
    (applicants_table
       (Main.world (Main.main now now_iso max_retries initial_delay llm a applicant_id s))).
Proof.
  intros Ha.
  set (K := fun s s' : store =>
              same_children s s' /\
              agrees links_of (applicants_table s) (applicants_table s')).
  assert (Ktrans : forall s1 s2 s3, K s1 s2 -> K s2 s3 -> K s1 s3).
  { intros s1 s2 s3 [Hc Hl] [Hc' Hl'].
    split; [by eapply same_children_trans | by eapply agrees_trans]. }
  assert (Hcompress : forall s, K s (JsonAutomation.compress_applicant_data applicant_id s).1.2)
    by (intros s0; apply compress_keeps_links).
  assert (Hshortlist :
            forall s, K s (ShortlistAutomation.shortlist_applicant now applicant_id s).1.2)
    by (intros s0; apply shortlisting_keeps_links).
  assert (Hevaluate :
            forall s, K s (LlmAutomation.evaluate_applicant_with_llm
                             max_retries initial_delay llm now_iso applicant_id s).1.2)
    by (intros s0; apply evaluation_keeps_links).
  change (K s (Main.world (Main.main now now_iso max_retries initial_delay llm a
                                     applicant_id s))).
  unfold Main.main. cbv zeta.
  destruct a; try (by destruct Ha); cbv iota; rewrite !block_skipped;
    match goal with
    | |- K s (Main.world (match Main.ended ?r with _ => _ end)) =>
        assert (H3 : K s (Main.world r));
        [ repeat (apply block_keeps; [done | done |]);
          split; [apply same_children_refl | apply agrees_refl]
        | destruct (Main.ended r); [done|]; by destruct (Main.success r) ]
    end.
Qed.

End DispatcherFrames.

Lemma only_decompress_writes_the_child_tables_witness :
  Invariants.same_children Fixture.base
    (Main.world (Main.main (py:=Fixture.python) 20000 "2024-05-03T08:00:00" 3 1
                           Fixture.answers Main.all "APP001" Fixture.base)) /\
  Invariants.agrees Invariants.links_of (Airtable.applicants_table Fixture.base)
    (Airtable.applicants_table
       (Main.world (Main.main (py:=Fixture.python) 20000 "2024-05-03T08:00:00" 3 1
                              Fixture.answers Main.all "APP001" Fixture.base))).
Proof.
  apply (only_decompress_writes_the_child_tables (py:=Fixture.python) 20000
           "2024-05-03T08:00:00" 3 1 Fixture.answers Main.all "APP001" Fixture.base).
  discriminate.
Defined.

Section UnknownApplicant.
Import Airtable Store.
Context {py : PyLib}.

Lemma block_unknown (applies exits : bool) (banner failure : string)
    (component : store -> Py.result * store * list event) (r : Main.run) (s : store)
    (ev : list event) :
  component s = (Py.RFalse, s, ev) ->
  forallb Trace.is_log ev = true ->
  Main.world r = s ->
  forallb Trace.is_log (Main.trace r) = true ->
  Main.ended r = None \/ Main.ended r = Some (Main.SysExit (-1)) ->
  Main.world (Main.block applies exits banner failure component r) = s /\
  forallb Trace.is_log (Main.trace (Main.block applies exits banner failure component r))
    = true /\
  (Main.ended (Main.block applies exits banner failure component r) = None \/
   Main.ended (Main.block applies exits banner failure component r)
     = Some (Main.SysExit (-1))) /\
  ((Main.success r = false \/ Main.ended r = Some (Main.SysExit (-1))) \/ applies = true ->
   Main.success (Main.block applies exits banner failure component r) = false \/
   Main.ended (Main.block applies exits banner failure component r)
     = Some (Main.SysExit (-1))).
Proof.
  intros Hc Hev Hw Htr Hend. unfold Main.block.
  destruct Hend as [He|He]; rewrite He; [|by repeat split; auto].
  destruct applies.
  - rewrite Hw, Hc. cbn [fst snd Py.falsy Main.world Main.trace Main.ended Main.success].
    split; [done|]. split; [|split; [by destruct exits; auto | by left]].
    by rewrite !only_logs_app, Htr, Hev.
  - split; [done|]. split; [done|]. split; [by left|].
    intros [[?|?]|?]; [by left | congruence | done].
Qed.

(** An identifier that no applicant record has fails every action: each
    automation returns [False] at its first step, so the process exits with
    -1, the store is as it was, and the language model is not called. *)
Theorem unknown_applicant_fails_every_action
    (now : Z) (now_iso : string) (max_retries : Z) (initial_delay : Q)
    (llm : nat -> LlmAutomation.llm_reply) (a : Main.action) (applicant_id : string)
    (s : store) :
  all (applicant_id_is applicant_id) (applicants_table s) = [] ->
  Main.ended (Main.main now now_iso max_retries initial_delay llm a applicant_id s)
    = Some (Main.SysExit (-1)) /\
  Main.world (Main.main now now_iso max_retries initial_delay llm a applicant_id s) = s /\
  Trace.llm_calls
    (Main.trace (Main.main now now_iso max_retries initial_delay llm a applicant_id s)) = [] /\
  Trace.sleeps
    (Main.trace (Main.main now now_iso max_retries initial_delay llm a applicant_id s)) = [].
Proof.
  intros Hall.
  assert (Hc : exists ev, JsonAutomation.compress_applicant_data applicant_id s
                          = (Py.RFalse, s, ev) /\ forallb Trace.is_log ev = true).
  { unfold JsonAutomation.compress_applicant_data. rewrite Hall. by eexists. }
  assert (Hd : exists ev, JsonAutomation.decompress_applicant_data applicant_id s
                          = (Py.RFalse, s, ev) /\ forallb Trace.is_log ev = true).
  { unfold JsonAutomation.decompress_applicant_data. rewrite Hall. by eexists. }
  assert (Hh : exists ev, ShortlistAutomation.shortlist_applicant now applicant_id s
                          = (Py.RFalse, s, ev) /\ forallb Trace.is_log ev = true).
  { unfold ShortlistAutomation.shortlist_applicant. rewrite Hall. by eexists. }
  assert (He : exists ev, LlmAutomation.evaluate_applicant_with_llm max_retries initial_delay
                            llm now_iso applicant_id s
                          = (Py.RFalse, s, ev) /\ forallb Trace.is_log ev = true).
  { unfold LlmAutomation.evaluate_applicant_with_llm. rewrite Hall. by eexists. }
  destruct Hc as (evc & Hc & Hcl), Hd as (evd & Hd & Hdl), Hh as (evh & Hh & Hhl),
           He as (eve & He & Hel).
  unfold Main.main. cbv zeta.
  match goal with
  | |- context [Main.block ?ap ?ex ?b ?f (JsonAutomation.compress_applicant_data _) ?r] =>
      destruct (block_unknown ap ex b f _ r s evc Hc Hcl eq_refl eq_refl (or_introl eq_refl))
        as (Hw1 & Ht1 & He1 & Hf1);
      set (r1 := Main.block ap ex b f _ r) in *
  end.
  match goal with
  | |- context [Main.block ?ap ?ex ?b ?f (ShortlistAutomation.shortlist_applicant _ _) r1] =>
      destruct (block_unknown ap ex b f _ r1 s evh Hh Hhl Hw1 Ht1 He1)
        as (Hw2 & Ht2 & He2 & Hf2);
      set (r2 := Main.block ap ex b f _ r1) in *
  end.
  match goal with
  | |- context [Main.block ?ap ?ex ?b ?f
                  (LlmAutomation.evaluate_applicant_with_llm _ _ _ _ _) r2] =>
      destruct (block_unknown ap ex b f _ r2 s eve He Hel Hw2 Ht2 He2)
        as (Hw3 & Ht3 & He3 & Hf3);
      set (r3 := Main.block ap ex b f _ r2) in *
  end.
  match goal with
  | |- context [Main.block ?ap ?ex ?b ?f (JsonAutomation.decompress_applicant_data _) r3] =>
      destruct (block_unknown ap ex b f _ r3 s evd Hd Hdl Hw3 Ht3 He3)
        as (Hw4 & Ht4 & He4 & Hf4);
      set (r4 := Main.block ap ex b f _ r3) in *
  end.
  assert (Hfailed : Main.success r4 = false \/ Main.ended r4 = Some (Main.SysExit (-1))).
  { clearbody r1 r2 r3 r4. clear -Hf1 Hf2 Hf3 Hf4.
    destruct a; cbv iota in Hf1, Hf2, Hf3, Hf4;
      first
        [ apply Hf4; right; reflexivity
        | apply Hf4; left;
          first
            [ apply Hf3; right; reflexivity
            | apply Hf3; left;
              first
                [ apply Hf2; right; reflexivity
                | apply Hf2; left; apply Hf1; right; reflexivity ] ] ]. }
  clearbody r4. clear -Hw4 Ht4 He4 Hfailed.
  destruct He4 as [He4|He4]; rewrite He4.
  - destruct Hfailed as [Hs|Hs]; [|congruence]. rewrite Hs.
    cbn [Main.ended Main.world Main.trace]. split; [done|]. split; [done|].
    assert (Hlogs : forallb Trace.is_log
                      (Main.trace r4 ++ [Log ERROR "Action '{action}' failed for {applicant_id}."])
                    = true) by (by rewrite only_logs_app, Ht4).
    by rewrite (only_logs_no_calls _ Hlogs), (only_logs_no_sleeps _ Hlogs).
  - split; [done|]. split; [done|].
    by rewrite (only_logs_no_calls _ Ht4), (only_logs_no_sleeps _ Ht4).
Qed.

End UnknownApplicant.

Lemma unknown_applicant_fails_every_action_witness :
  Main.ended (Main.main (py:=Fixture.python) 20000 "2024-05-03T08:00:00" 3 1
                        Fixture.answers Main.all "APP999" Fixture.base)
    = Some (Main.SysExit (-1)) /\
  Main.world (Main.main (py:=Fixture.python) 20000 "2024-05-03T08:00:00" 3 1
                        Fixture.answers Main.all "APP999" Fixture.base) = Fixture.base /\
  Trace.llm_calls
    (Main.trace (Main.main (py:=Fixture.python) 20000 "2024-05-03T08:00:00" 3 1
                           Fixture.answers Main.all "APP999" Fixture.base)) = [] /\
  Trace.sleeps
    (Main.trace (Main.main (py:=Fixture.python) 20000 "2024-05-03T08:00:00" 3 1
                           Fixture.answers Main.all "APP999" Fixture.base)) = [].
Proof.
  apply (unknown_applicant_fails_every_action (py:=Fixture.python) 20000
           "2024-05-03T08:00:00" 3 1 Fixture.answers Main.all "APP999" Fixture.base).
  reflexivity.
Defined.

(** ** The compressor, and the two readers of a link field *)

Section CompressorTwice.
Import Airtable Store Invariants JsonAutomation.
Context {py : PyLib}.

Lemma update_twice {F} (i : rid) (f : F -> F) (t t' : table F) :
  (forall x, f (f x) = f x) -> update i f t = Some t' -> update i f t' = Some t'.
Proof.
  intros Hf. revert t'. induction t as [|r t IH]; intros t'; [done|].
  cbn [update]. destruct (String.eqb (id r) i) eqn:E.
  - intros [= <-]. cbn [update id fields]. by rewrite String.eqb_refl, Hf.
  - destruct (update i f t) as [t''|]; [|done]. intros [= <-].
    cbn [update]. by rewrite E, (IH t'').
Qed.

Lemma omap_shorter {A B} (f : A -> option B) (l : list A) :
  length (omap f l) <= length l.
Proof.
  induction l as [|x l IH]; [done|].
  change (omap f (x :: l)) with (match f x with Some y => y :: omap f l | None => omap f l end).
  destruct (f x); cbn [length]; lia.
Qed.

(** The first identifier of a link field is the first of all its
    identifiers: when [get_first_linked_record_id] returns one,
    [get_all_linked_record_ids] returns a list that starts with it, and no
    longer than the field. *)
Theorem first_linked_is_first_of_all (linked_field_value : link_field) (i : rid) :
  get_first_linked_record_id linked_field_value = Some i ->
  head (get_all_linked_record_ids linked_field_value) = Some i /\
  length (get_all_linked_record_ids linked_field_value)
    <= length (from_option (fun l => l) [] linked_field_value).
Proof.
  destruct linked_field_value as [[|item items]|]; [done| |done].
  cbn [get_first_linked_record_id get_all_linked_record_ids from_option].
  intros H. split.
  - by destruct item as [j|[j|]|]; simplify_eq.
  - apply omap_shorter.
Qed.

Lemma agree_but_snapshot (r r' : row applicant_fields) :
  agree but_snapshot r r' ->
  Applicant_ID (fields r') = Applicant_ID (fields r) /\
  Personal_Details (fields r') = Personal_Details (fields r) /\
  Work_Experience (fields r') = Work_Experience (fields r) /\
  Salary_Preferences (fields r') = Salary_Preferences (fields r).
Proof.
  intros [_ Hv]. unfold but_snapshot, links_of in Hv.
  injection Hv. intros. by repeat split.
Qed.

(** Compressing twice is compressing once: the second run returns what the
    first returned and leaves the store as the first left it. *)
Theorem compress_twice (applicant_id_text : string) (s : store) :
  (compress_applicant_data applicant_id_text
     (compress_applicant_data applicant_id_text s).1.2).1
    = (compress_applicant_data applicant_id_text s).1.
Proof.
  unfold compress_applicant_data at 2 3.
  destruct (all _ _) as [|a rest] eqn:Hall; cbn [fst snd].
  { unfold compress_applicant_data. by rewrite Hall. }
  destruct (update _ _ _) as [t|] eqn:Hup; cbn [fst snd];
    [|unfold compress_applicant_data; by rewrite Hall, Hup].
  assert (Hag : agrees but_snapshot (applicants_table s) t)
    by (eapply update_agrees; [|exact Hup]; by intros []).
  assert (Hq : Forall2 (agree but_snapshot) (all (applicant_id_is applicant_id_text)
                                                  (applicants_table s))
                       (all (applicant_id_is applicant_id_text) t)).
  { apply (related_all (agree but_snapshot)); [done|].
    intros r r' Hr. unfold applicant_id_is.
    by destruct (agree_but_snapshot _ _ Hr) as (-> & _). }
  rewrite Hall in Hq. inversion Hq as [|? a' ? rest' Ha _ E1 E2]. subst.
  destruct (agree_but_snapshot _ _ Ha) as (_ & Hper & Hwe & Hsal).
  pose proof (agree_id _ _ _ Ha) as Hid.
  unfold compress_applicant_data. cbn [applicants_table with_applicants].
  rewrite <- E2. cbn [fst snd]. rewrite Hid.
  assert (Hdata : compressed_data a' (with_applicants t s) = compressed_data a s).
  { by apply compressed_data_tables. }
  rewrite Hdata.
  erewrite update_twice; [|by intros []|exact Hup]. cbn [fst snd].
  by destruct s.
Qed.

End CompressorTwice.

Lemma first_linked_is_first_of_all_witness :
  head (JsonAutomation.get_all_linked_record_ids
          (Some [Airtable.LinkDict (Some "recW1"); Airtable.LinkOther; Airtable.LinkStr "recW2"]))
    = Some "recW1" /\
  length (JsonAutomation.get_all_linked_record_ids
            (Some [Airtable.LinkDict (Some "recW1"); Airtable.LinkOther; Airtable.LinkStr "recW2"]))
    <= length (from_option (fun l => l) []
                 (Some [Airtable.LinkDict (Some "recW1"); Airtable.LinkOther;
                        Airtable.LinkStr "recW2"])).
Proof.
  apply (first_linked_is_first_of_all
           (Some [Airtable.LinkDict (Some "recW1"); Airtable.LinkOther; Airtable.LinkStr "recW2"])
           "recW1").
  reflexivity.
Defined.

(** ** The shortlister *)

Section ShortlisterCriteria.
Import Airtable Store ShortlistAutomation.
Context {py : PyLib}.

(** The location criterion is met exactly when the location is a text that
    is not empty and that, lowered, contains one of the approved keywords
    somewhere, whatever the order in which the set is visited.  The keyword
    need not be a word of the location. *)
Theorem location_criterion (personal_data : option Snapshot.personal) :
  set_order APPROVED_LOCATIONS ≡ₚ APPROVED_LOCATIONS ->
  location_criteria_met personal_data = true <->
  exists place keyword,
    applicant_location personal_data = Some place /\
    Py.truthy place = true /\
    keyword ∈ APPROVED_LOCATIONS /\
    Py.contains keyword (Py.lower place) = true.
Proof.
  intros Hperm. unfold location_criteria_met, location_match_found.
  destruct (applicant_location personal_data) as [place|];
    [|split; [done | by intros (? & ? & ? & _)]].
  destruct (Py.truthy place) eqn:Ht.
  - destruct (List.find _ _) as [k|] eqn:Hf.
    + split; [intros _ | done]. apply find_some in Hf as [Hin Hk].
      exists place, k. repeat split; try done.
      rewrite <- Hperm. by apply list_elem_of_In.
    + split; [done|]. intros (p & k & [= <-] & _ & Hin & Hk).
      rewrite <- Hperm in Hin. apply list_elem_of_In in Hin.
      pose proof (find_none _ _ Hf k Hin) as Hno. cbv beta in Hno. congruence.
  - split; [done|]. intros (p & k & [= <-] & Htp & _). congruence.
Qed.

(** The status follows the reasons: the applicant is shortlisted exactly
    when none of the three reasons starts with ["FAILED"]. *)
Theorem shortlisted_when_no_reason_failed (now : Z) (data : Snapshot.t) :
  is_shortlisted now data =
  forallb (fun reason => negb (Py.startswith "FAILED" reason)) (score_reasons now data).
Proof.
  unfold is_shortlisted, score_reasons. cbn [forallb].
  unfold experience_reason, compensation_reason, location_reason, location_criteria_met.
  destruct (experience_criteria_met now _), (compensation_criteria_met _),
           (location_match_found _); reflexivity.
Qed.

Lemma count_entry_warnings (now : Z) (l : list Snapshot.experience) (acc : tally) :
  length (warnings (foldl (count_entry now) acc l)) =
  length (warnings acc) +
  length (List.filter (fun exp => match entry_dates now exp with
                                  | Counted _ => false
                                  | _ => true
                                  end) l).
Proof.
  revert acc. induction l as [|exp l IH]; intros acc; cbn [foldl List.filter]; [simpl; lia|].
  rewrite IH. unfold count_entry.
  destruct (entry_dates now exp); cbn [warnings length]; rewrite ?length_app; cbn [length]; lia.
Qed.

(** [calculate_experience_years] warns once for each entry that it leaves
    out of the total (no start date, a date that does not parse, or a start
    after the end) and for no other. *)
Theorem one_warning_for_each_entry_left_out (now : Z) (experience_list : list Snapshot.experience) :
  length (warnings (calculate_experience_years now experience_list)) =
  length (List.filter (fun exp => match entry_dates now exp with
                                  | Counted _ => false
                                  | _ => true
                                  end) experience_list) /\
  forallb (fun e => match e with Log WARNING _ => true | _ => false end)
          (warnings (calculate_experience_years now experience_list)) = true.
Proof.
  split; [apply count_entry_warnings|].
  unfold calculate_experience_years.
  assert (H : forall l acc,
             forallb (fun e => match e with Log WARNING _ => true | _ => false end)
                     (warnings acc) = true ->
             forallb (fun e => match e with Log WARNING _ => true | _ => false end)
                     (warnings (foldl (count_entry now) acc l)) = true).
  { induction l as [|exp l IH]; intros acc Hacc; [done|].
    cbn [foldl]. apply IH. unfold count_entry.
    destruct (entry_dates now exp); cbn [warnings]; [done|..];
      rewrite forallb_app, Hacc; done. }
  by apply H.
Qed.

End ShortlisterCriteria.

Lemma location_criterion_witness :
  ShortlistAutomation.location_criteria_met (py:=Fixture.python)
    (Fixture.located "Melbourne, Australia") = true.
Proof.
  apply (location_criterion (py:=Fixture.python) (Fixture.located "Melbourne, Australia")).
  - reflexivity.
  - exists "Melbourne, Australia", "us". repeat split.
    constructor.
Defined.

Section ShortlisterStatus.
Import Airtable Store ShortlistAutomation.
Context {py : PyLib}.

(** A snapshot that is missing or that does not parse: the shortlister
    writes the status ["Incomplete Data"] or ["JSON Error"] on the
    applicant, returns [False] and leaves the leads as they were. *)
Theorem unreadable_snapshot_is_marked (now : Z) (applicant_id_text : string) (s : store)
    (a : row applicant_fields) (rest : list (row applicant_fields)) :
  all (applicant_id_is applicant_id_text) (applicants_table s) = a :: rest ->
  Py.truthy_opt (Compressed_JSON (fields a)) = false \/
  json_loads (from_option (fun t => t) "" (Compressed_JSON (fields a))) = None ->
  (shortlist_applicant now applicant_id_text s).1.1 = Py.RFalse /\
  (exists r1,
     get (applicants_table (shortlist_applicant now applicant_id_text s).1.2) (id a) = Some r1 /\
     Shortlist_Status (fields r1) =
       Some (if Py.truthy_opt (Compressed_JSON (fields a))
             then "JSON Error" else "Incomplete Data")) /\
  shortlisted_leads_table (shortlist_applicant now applicant_id_text s).1.2
    = shortlisted_leads_table s.
Proof.
  intros Hall Hbad.
  destruct (all_head_get _ _ _ _ Hall) as [r Hget].
  unfold shortlist_applicant. rewrite Hall.
  destruct (Py.truthy_opt (Compressed_JSON (fields a))) eqn:Ht.
  - destruct Hbad as [|Hloads]; [done|]. rewrite Hloads.
    destruct (set_status_Some (id a) "JSON Error" s r Hget)
      as (s1 & -> & Hst & _ & _ & _ & Hl). by cbn [fst snd].
  - destruct (set_status_Some (id a) "Incomplete Data" s r Hget)
      as (s1 & -> & Hst & _ & _ & _ & Hl). by cbn [fst snd].
Qed.

End ShortlisterStatus.

Lemma unreadable_snapshot_is_marked_witness :
  (ShortlistAutomation.shortlist_applicant (py:=Fixture.python) 20000 "APP008"
     Fixture.garbled_store).1.1 = Py.RFalse /\
  (exists r1,
     Airtable.get
       (Airtable.applicants_table
          (ShortlistAutomation.shortlist_applicant (py:=Fixture.python) 20000 "APP008"
             Fixture.garbled_store).1.2) (Airtable.id Fixture.garbled) = Some r1 /\
     Airtable.Shortlist_Status (Airtable.fields r1) =
       Some (if Py.truthy_opt (Airtable.Compressed_JSON (Airtable.fields Fixture.garbled))
             then "JSON Error" else "Incomplete Data")) /\
  Airtable.shortlisted_leads_table
    (ShortlistAutomation.shortlist_applicant (py:=Fixture.python) 20000 "APP008"
       Fixture.garbled_store).1.2
    = Airtable.shortlisted_leads_table Fixture.garbled_store.
Proof.
  apply (unreadable_snapshot_is_marked (py:=Fixture.python) 20000 "APP008"
           Fixture.garbled_store Fixture.garbled []).
  - reflexivity.
  - right. vm_compute. reflexivity.
Defined.

(** ** Shortlisting again *)

Section ShortlisterTwice.
Import Airtable Store ShortlistAutomation.
Context {py : PyLib}.

Lemma update_fresh_last {F} (i : rid) (f : F -> F) (t : table F) (r : row F) :
  i ∉ List.map id t -> id r = i ->
  update i f (t ++ [r]) = Some (t ++ [Row i (f (fields r))]).
Proof.
  intros Hfresh Hr. induction t as [|x t IH]; cbn [app update].
  - by rewrite Hr, String.eqb_refl.
  - cbn [List.map] in Hfresh. apply not_elem_of_cons in Hfresh as [Hx Ht].
    destruct (String.eqb (id x) i) eqn:E; [by apply String.eqb_eq in E|].
    by rewrite (IH Ht).
Qed.

Lemma all_app {F} (p : row F -> bool) (t t' : table F) :
  all p (t ++ t') = all p t ++ all p t'.
Proof. apply List.filter_app. Qed.

Lemma applicant_id_is_text (text : string) (r : row applicant_fields) :
  applicant_id_is text r = true -> Applicant_ID (fields r) = Some text.
Proof.
  unfold applicant_id_is. destruct (Applicant_ID (fields r)) as [v|]; [|done].
  by intros ->%String.eqb_eq.
Qed.

(** A lead that links one applicant answers the formula with that
    applicant's [Applicant ID]. *)
Lemma lead_matches (applicants : table applicant_fields) (text : string) (i j : rid)
    (r : row applicant_fields) (json reason : option string) :
  get applicants i = Some r ->
  Applicant_ID (fields r) = Some text ->
  applicant_ref_is applicants text (Row j (LeadFields (Some [LinkStr i]) json reason)) = true.
Proof.
  intros Hget Hid. unfold applicant_ref_is. cbn. rewrite Hget, Hid. cbn.
  apply String.eqb_refl.
Qed.

(** What [upsert_lead] leaves: a first lead for the applicant that has the
    values written, and that another write would not change. *)
Lemma upsert_lead_settles (a r : row applicant_fields) (text json : string)
    (reasons : list string) (s : store) :
  Applicant_ID (fields a) = Some text ->
  get (applicants_table s) (id a) = Some r ->
  Applicant_ID (fields r) = Some text ->
  NoDup (List.map id (shortlisted_leads_table s)) ->
  exists t2 lead more,
    (upsert_lead a json reasons s).1 = (Py.RTrue, with_leads t2 s) /\
    all (applicant_ref_is (applicants_table s) text) t2 = lead :: more /\
    fields lead = LeadFields (Some [LinkStr (id a)]) (Some json)
                             (Some (Py.join "; " reasons)) /\
    update (id lead)
           (patch_lead (LeadFields (Some [LinkStr (id a)]) (Some json)
                                   (Some (Py.join "; " reasons)))) t2 = Some t2.
Proof.
  intros Hid Hget Hrid Hnd. unfold upsert_lead. rewrite Hid. cbn [from_option].
  set (p := applicant_ref_is (applicants_table s) text).
  set (d := LeadFields (Some [LinkStr (id a)]) (Some json) (Some (Py.join "; " reasons))).
  assert (Hd : forall j f, p (Row j (patch_lead d f)) = true).
  { intros j f. by apply (lead_matches _ _ _ _ r). }
  destruct (all p (shortlisted_leads_table s)) as [|e0 more] eqn:Hex.
  - set (i := new_id (List.map id (shortlisted_leads_table s))).
    exists (shortlisted_leads_table s ++ [Row i d]), (Row i d), [].
    unfold create. fold i. cbn [fst snd id fields].
    split; [done|]. split; [|split; [done|]].
    + rewrite all_app, Hex. cbn [app]. unfold all. cbn [List.filter].
      assert (Hnew : p (Row i d) = true) by exact (Hd _ d).
      by rewrite Hnew.
    + by rewrite (update_fresh_last i (patch_lead d) (shortlisted_leads_table s) (Row i d)
                    (new_id_fresh _) eq_refl).
  - destruct (all_head _ _ _ _ Hex) as [Hin Hp].
    pose proof (get_member _ _ Hnd Hin) as Hge.
    destruct (update_Some _ _ _ (patch_lead d) Hge) as (t2 & Hup & _ & _ & _).
    rewrite Hup. cbn [fst snd].
    exists t2, (Row (id e0) (patch_lead d (fields e0))),
           (List.map (fun r0 => if String.eqb (id r0) (id e0)
                                then Row (id e0) (patch_lead d (fields r0)) else r0) more).
    split; [done|]. split; [|split; [done|]].
    + rewrite (all_update p _ _ _ _ Hnd Hup).
      * rewrite Hex. cbn [List.map]. by rewrite String.eqb_refl.
      * intros r0 Hr0 Hi. rewrite Hd.
        assert (r0 = e0) as ->; [|done].
        pose proof (get_member _ _ Hnd Hr0) as H0. rewrite Hi in H0. congruence.
    + cbn [id]. eapply update_twice; [|exact Hup]. by intros [].
Qed.

(** On a store where the first lead for the applicant would not change,
    [upsert_lead] changes nothing. *)
Lemma upsert_lead_settled (a : row applicant_fields) (text json : string)
    (reasons : list string) (s : store) (lead : row lead_fields)
    (more : list (row lead_fields)) :
  Applicant_ID (fields a) = Some text ->
  all (applicant_ref_is (applicants_table s) text) (shortlisted_leads_table s) = lead :: more ->
  update (id lead)
         (patch_lead (LeadFields (Some [LinkStr (id a)]) (Some json)
                                 (Some (Py.join "; " reasons))))
         (shortlisted_leads_table s) = Some (shortlisted_leads_table s) ->
  (upsert_lead a json reasons s).1 = (Py.RTrue, s).
Proof.
  intros Hid Hex Hup. unfold upsert_lead. rewrite Hid. cbn [from_option].
  rewrite Hex, Hup. cbn [fst snd]. by destruct s.
Qed.

(** Shortlisting an applicant who meets the criteria, in a store whose
    record identifiers are unique: the run returns [True], the applicant
    has the status ["Shortlisted"], and the first lead that refers to the
    applicant links the applicant's record and carries the snapshot and the
    reasons joined by ["; "].  Shortlisting again changes nothing: it
    returns [True], updates that lead with the same values and creates no
    second lead. *)
Theorem shortlisting_again_changes_nothing
    (now : Z) (applicant_id_text : string) (s : store)
    (a : row applicant_fields) (rest : list (row applicant_fields))
    (json : string) (data : Snapshot.t) :
  all (applicant_id_is applicant_id_text) (applicants_table s) = a :: rest ->
  Compressed_JSON (fields a) = Some json ->
  Py.truthy json = true ->
  json_loads json = Some (Snapshot.document data) ->
  is_shortlisted now data = true ->
  NoDup (List.map id (applicants_table s)) ->
  NoDup (List.map id (shortlisted_leads_table s)) ->
  (shortlist_applicant now applicant_id_text s).1.1 = Py.RTrue /\
  (exists a1,
     get (applicants_table (shortlist_applicant now applicant_id_text s).1.2) (id a) = Some a1 /\
     Shortlist_Status (fields a1) = Some "Shortlisted") /\
  (exists lead more,
     all (applicant_ref_is (applicants_table (shortlist_applicant now applicant_id_text s).1.2)
                           applicant_id_text)
         (shortlisted_leads_table (shortlist_applicant now applicant_id_text s).1.2)
       = lead :: more /\
     fields lead = LeadFields (Some [LinkStr (id a)]) (Some json)
                              (Some (Py.join "; " (score_reasons now data)))) /\
  (shortlist_applicant now applicant_id_text
     (shortlist_applicant now applicant_id_text s).1.2).1
    = (Py.RTrue, (shortlist_applicant now applicant_id_text s).1.2).
Proof.
  intros Hall Hjson Htruthy Hloads Hshort Hnda Hndl.
  destruct (all_head _ _ _ _ Hall) as [Hin Hmatch].
  pose proof (applicant_id_is_text _ _ Hmatch) as Hid.
  pose proof (get_member _ _ Hnda Hin) as Hget.
  set (P := patch_applicant (status_fields "Shortlisted")).
  destruct (update_Some _ _ _ P Hget) as (t1 & Hup1 & Hget1 & Hids1 & _).
  set (a1 := Row (id a) (P (fields a))) in *.
  set (s1 := with_applicants t1 s).
  destruct (upsert_lead_settles a a1 applicant_id_text json (score_reasons now data) s1)
    as (t2 & lead & more & Hrun & Hex & Hlead & Hup2); [done | done | by rewrite <- Hid | done |].
  set (s2 := with_leads t2 s1) in *.
  assert (Hfirst : (shortlist_applicant now applicant_id_text s).1 = (Py.RTrue, s2)).
  { unfold shortlist_applicant. rewrite Hall, Hjson. cbn [Py.truthy_opt from_option].
    rewrite Htruthy, Hloads, read_snapshot_document, Hshort. unfold set_status. fold P. rewrite Hup1.
    fold s1. cbn [fst snd]. by rewrite Hrun. }
  rewrite Hfirst. cbn [fst snd].
  split; [done|]. split; [by exists a1|]. split; [by exists lead, more|].
  (* the second run *)
  assert (Hall2 : all (applicant_id_is applicant_id_text) (applicants_table s2)
                  = a1 :: List.map (fun r => if String.eqb (id r) (id a)
                                             then Row (id a) (P (fields r)) else r) rest).
  { cbn [applicants_table s2 s1 with_leads with_applicants].
    rewrite (all_update _ _ _ _ _ Hnda Hup1); [|by intros r _ _; destruct r as [? []]].
    rewrite Hall. cbn [List.map]. by rewrite String.eqb_refl. }
  unfold shortlist_applicant. rewrite Hall2. cbn [a1 fields id].
  assert (Hjson1 : Compressed_JSON (P (fields a)) = Some json).
  { destruct a as [? []]. exact Hjson. }
  rewrite Hjson1. cbn [Py.truthy_opt from_option].
  rewrite Htruthy, Hloads, read_snapshot_document, Hshort. unfold set_status. fold P.
  assert (Hup1' : update (id a) P (applicants_table s2) = Some (applicants_table s2)).
  { cbn [applicants_table s2 s1 with_leads with_applicants].
    eapply update_twice; [|exact Hup1]. by intros []. }
  rewrite Hup1'.
  assert (Hs2 : with_applicants (applicants_table s2) s2 = s2) by done.
  rewrite Hs2. fold a1. cbn [fst snd].
  rewrite (upsert_lead_settled a1 applicant_id_text json (score_reasons now data) s2 lead more);
    [done | by rewrite <- Hid | done | done].
Qed.

End ShortlisterTwice.

Lemma shortlisting_again_changes_nothing_witness :
  (ShortlistAutomation.shortlist_applicant (py:=Fixture.python) 20000 "APP009"
     Fixture.keen_store).1.1 = Py.RTrue /\
  (exists a1,
     Airtable.get
       (Airtable.applicants_table
          (ShortlistAutomation.shortlist_applicant (py:=Fixture.python) 20000 "APP009"
             Fixture.keen_store).1.2) (Airtable.id Fixture.keen) = Some a1 /\
     Airtable.Shortlist_Status (Airtable.fields a1) = Some "Shortlisted") /\
  (exists lead more,
     Airtable.all
       (Airtable.applicant_ref_is
          (Airtable.applicants_table
             (ShortlistAutomation.shortlist_applicant (py:=Fixture.python) 20000 "APP009"
                Fixture.keen_store).1.2) "APP009")
       (Airtable.shortlisted_leads_table
          (ShortlistAutomation.shortlist_applicant (py:=Fixture.python) 20000 "APP009"
             Fixture.keen_store).1.2)
       = lead :: more /\
     Airtable.fields lead =
       Airtable.LeadFields (Some [Airtable.LinkStr (Airtable.id Fixture.keen)])
         (Some (Fixture.dumps Fixture.keen_doc))
         (Some (Py.join "; "
                  (ShortlistAutomation.score_reasons (py:=Fixture.python) 20000
                     Fixture.keen_doc)))) /\
  (ShortlistAutomation.shortlist_applicant (py:=Fixture.python) 20000 "APP009"
     (ShortlistAutomation.shortlist_applicant (py:=Fixture.python) 20000 "APP009"
        Fixture.keen_store).1.2).1
    = (Py.RTrue,
       (ShortlistAutomation.shortlist_applicant (py:=Fixture.python) 20000 "APP009"
          Fixture.keen_store).1.2).
Proof.
  apply (shortlisting_again_changes_nothing (py:=Fixture.python) 20000 "APP009"
           Fixture.keen_store Fixture.keen [] (Fixture.dumps Fixture.keen_doc)
           Fixture.keen_doc).
  - reflexivity.
  - reflexivity.
  - exact (dumps_truthy Fixture.keen_doc).
  - exact (loads_dumps Fixture.keen_doc).
  - vm_compute. reflexivity.
  - refine (@bool_decide_unpack _ (NoDup_dec _) _). vm_compute. exact I.
  - refine (@bool_decide_unpack _ (NoDup_dec _) _). vm_compute. exact I.
Defined.

(** ** The evaluator after the timestamps *)

Section EvaluatorRuns.
Import Airtable Store LlmAutomation.
Context {py : PyLib}.

Lemma parse_line_only_logs (st : parsing) (line : string) :
  forallb Trace.is_log (p_warnings st) = true ->
  forallb Trace.is_log (p_warnings (parse_line st line)) = true.
Proof.
  intros Hst. unfold parse_line.
  repeat match goal with
         | |- context [if ?b then _ else _] => destruct b
         | |- context [match int_of_str ?x with _ => _ end] => destruct (int_of_str x)
         end; cbn [p_warnings]; try done.
  by rewrite forallb_app, Hst.
Qed.

Lemma parse_llm_state_only_logs (response_text : string) :
  forallb Trace.is_log (p_warnings (parse_llm_state response_text)) = true.
Proof.
  unfold parse_llm_state.
  assert (H : forall l st, forallb Trace.is_log (p_warnings st) = true ->
                           forallb Trace.is_log (p_warnings (foldl parse_line st l)) = true).
  { induction l as [|x l IH]; intros st Hst; [done|].
    cbn [foldl]. by apply IH, parse_line_only_logs. }
  by apply H.
Qed.

Lemma record_evaluation_only_logs (i : rid) (now_iso content : string) (s : store) :
  forallb Trace.is_log (record_evaluation i now_iso content s).2 = true.
Proof.
  unfold record_evaluation. destruct (Py.truthy content); [|done].
  destruct (update _ _ _); cbn [snd]; rewrite !only_logs_app, parse_llm_state_only_logs;
    match goal with |- context [if ?b then _ else _] => by destruct b end.
Qed.

Lemma parse_timestamps_only_logs (modified evaluated : option string) :
  forallb Trace.is_log (parse_timestamps modified evaluated).2 = true.
Proof.
  unfold parse_timestamps.
  repeat match goal with
         | |- context [if ?b then _ else _] => destruct b
         | |- context [match fromisoformat ?x with _ => _ end] => destruct (fromisoformat x)
         end; done.
Qed.

(** The evaluation of an applicant with a snapshot whose timestamps do not
    say that it is up to date: what the run returns and writes is what the
    loop and the recording return and write, and the calls and the sleeps
    are those of the loop. *)
Lemma evaluation_of_stale (max_retries : Z) (initial_delay : Q) (llm : nat -> llm_reply)
    (now_iso applicant_id_text : string) (s : store)
    (a : row applicant_fields) (rest : list (row applicant_fields)) :
  all (applicant_id_is applicant_id_text) (applicants_table s) = a :: rest ->
  Py.truthy_opt (Compressed_JSON (fields a)) = true ->
  already_evaluated
    (parse_timestamps (Last_Modified (fields a)) (LLM_Last_Evaluated (fields a))).1.1
    (parse_timestamps (Last_Modified (fields a)) (LLM_Last_Evaluated (fields a))).1.2
    = Some false ->
  (evaluate_applicant_with_llm max_retries initial_delay llm now_iso applicant_id_text s).1 =
    match (llm_attempts llm (Z.to_nat max_retries) 0 initial_delay).1 with
    | Answered content => (record_evaluation (id a) now_iso content s).1
    | HandlerRaised exn => (Py.Raised exn, s)
    | _ => (Py.RFalse, s)
    end /\
  Trace.llm_calls
    (evaluate_applicant_with_llm max_retries initial_delay llm now_iso applicant_id_text s).2 =
    Trace.llm_calls (llm_attempts llm (Z.to_nat max_retries) 0 initial_delay).2 /\
  Trace.sleeps
    (evaluate_applicant_with_llm max_retries initial_delay llm now_iso applicant_id_text s).2 =
    Trace.sleeps (llm_attempts llm (Z.to_nat max_retries) 0 initial_delay).2.
Proof.
  intros Hall Hjson Hstale. unfold evaluate_applicant_with_llm.
  rewrite Hall, Hjson, Hstale.
  pose proof (parse_timestamps_only_logs (Last_Modified (fields a))
                (LLM_Last_Evaluated (fields a))) as Hts.
  set (stamps := parse_timestamps _ _) in *.
  set (loop := llm_attempts _ _ _ _).
  destruct loop.1 as [content| | |exn] eqn:Hloop; cbn [fst snd].
  - pose proof (record_evaluation_only_logs (id a) now_iso content s) as Hrec.
    destruct (record_evaluation (id a) now_iso content s) as [[res s'] ev].
    cbn [fst snd] in *. split; [done|].
    rewrite !llm_calls_app, !sleeps_app.
    rewrite (only_logs_no_calls _ Hts), (only_logs_no_calls _ Hrec).
    rewrite (only_logs_no_sleeps _ Hts), (only_logs_no_sleeps _ Hrec).
    cbn. by rewrite !app_nil_r.
  - split; [done|]. rewrite !llm_calls_app, !sleeps_app.
    rewrite (only_logs_no_calls _ Hts), (only_logs_no_sleeps _ Hts). done.
  - split; [done|]. rewrite !llm_calls_app, !sleeps_app.
    rewrite (only_logs_no_calls _ Hts), (only_logs_no_sleeps _ Hts).
    cbn. by rewrite !app_nil_r.
  - split; [done|]. rewrite !llm_calls_app, !sleeps_app.
    rewrite (only_logs_no_calls _ Hts), (only_logs_no_sleeps _ Hts). done.
Qed.

(** The first answer is recorded.  When the first [k] calls raise
    [APIError], [time.sleep] accepts the [k] delays between them, and call
    [k], within the limit, returns a content that is not blank, the run
    returns [True] after [k + 1] calls, and the
    applicant's record has the summary, the score and the follow-ups parsed
    from the stripped content, and [LLM Last Evaluated] is the current time
    followed by ["Z"].  The score is written also when the answer has none:
    the field is then empty, whatever it held. *)
Theorem first_answer_is_recorded
    (max_retries : Z) (initial_delay : Q) (llm : nat -> llm_reply)
    (now_iso applicant_id_text : string) (s : store)
    (a : row applicant_fields) (rest : list (row applicant_fields))
    (k : nat) (text : string) :
  all (applicant_id_is applicant_id_text) (applicants_table s) = a :: rest ->
  Py.truthy_opt (Compressed_JSON (fields a)) = true ->
  already_evaluated
    (parse_timestamps (Last_Modified (fields a)) (LLM_Last_Evaluated (fields a))).1.1
    (parse_timestamps (Last_Modified (fields a)) (LLM_Last_Evaluated (fields a))).1.2
    = Some false ->
  k < Z.to_nat max_retries ->
  (forall j, j < k -> llm j = APIError) ->
  (forall j, j < k -> time_sleep (Spec.spec_delay initial_delay j) = None) ->
  llm k = Content text ->
  Py.truthy (Py.strip text) = true ->
  (evaluate_applicant_with_llm max_retries initial_delay llm now_iso applicant_id_text s).1.1
    = Py.RTrue /\
  (exists r1,
     get (applicants_table
            (evaluate_applicant_with_llm max_retries initial_delay llm now_iso
                                         applicant_id_text s).1.2) (id a) = Some r1 /\
     LLM_Summary (fields r1) = Some (summary (parse_llm_response (Py.strip text))) /\
     LLM_Score (fields r1) = score (parse_llm_response (Py.strip text)) /\
     LLM_Follow_Ups (fields r1) = Some (follow_ups (parse_llm_response (Py.strip text))) /\
     LLM_Last_Evaluated (fields r1) = Some (now_iso +:+ "Z")) /\
  Trace.llm_calls
    (evaluate_applicant_with_llm max_retries initial_delay llm now_iso applicant_id_text s).2
    = seq 0 (S k).
Proof.
  intros Hall Hjson Hstale Hk Herr Hsleep Hans Htext.
  destruct (evaluation_of_stale max_retries initial_delay llm now_iso applicant_id_text s a rest
              Hall Hjson Hstale) as (Hrun & Hcalls & _).
  destruct (llm_attempts_first_reply llm (Z.to_nat max_retries) k initial_delay Hk Herr Hsleep)
    as (Hloop & Hseq & _); [by rewrite Hans|].
  rewrite Hans in Hloop. rewrite Hloop in Hrun. rewrite Hrun, Hcalls, Hseq.
  destruct (all_head_get _ _ _ _ Hall) as [r0 Hget].
  unfold record_evaluation. rewrite Htext.
  destruct (update_Some _ _ _ (llm_updates (parse_llm_response (Py.strip text)) now_iso) Hget)
    as (t' & -> & Hg & _ & _).
  cbn [fst snd applicants_table with_applicants]. split; [done|]. split; [|done].
  eexists. split; [exact Hg|]. done.
Qed.

(** A blank answer is not tried again.  When the first [k] calls raise
    [APIError], [time.sleep] accepts the [k] delays between them, and call
    [k], within the limit, returns a content that is empty once stripped,
    the run returns [False] after [k + 1] calls and leaves the store as it
    was. *)
Theorem blank_answer_is_not_retried
    (max_retries : Z) (initial_delay : Q) (llm : nat -> llm_reply)
    (now_iso applicant_id_text : string) (s : store)
    (a : row applicant_fields) (rest : list (row applicant_fields))
    (k : nat) (text : string) :
  all (applicant_id_is applicant_id_text) (applicants_table s) = a :: rest ->
  Py.truthy_opt (Compressed_JSON (fields a)) = true ->
  already_evaluated
    (parse_timestamps (Last_Modified (fields a)) (LLM_Last_Evaluated (fields a))).1.1
    (parse_timestamps (Last_Modified (fields a)) (LLM_Last_Evaluated (fields a))).1.2
    = Some false ->
  k < Z.to_nat max_retries ->
  (forall j, j < k -> llm j = APIError) ->
  (forall j, j < k -> time_sleep (Spec.spec_delay initial_delay j) = None) ->
  llm k = Content text ->
  Py.truthy (Py.strip text) = false ->
  (evaluate_applicant_with_llm max_retries initial_delay llm now_iso applicant_id_text s).1
    = (Py.RFalse, s) /\
  Trace.llm_calls
    (evaluate_applicant_with_llm max_retries initial_delay llm now_iso applicant_id_text s).2
    = seq 0 (S k).
Proof.
  intros Hall Hjson Hstale Hk Herr Hsleep Hans Htext.
  destruct (evaluation_of_stale max_retries initial_delay llm now_iso applicant_id_text s a rest
              Hall Hjson Hstale) as (Hrun & Hcalls & _).
  destruct (llm_attempts_first_reply llm (Z.to_nat max_retries) k initial_delay Hk Herr Hsleep)
    as (Hloop & Hseq & _); [by rewrite Hans|].
  rewrite Hans in Hloop. rewrite Hloop in Hrun. rewrite Hrun, Hcalls, Hseq.
  unfold record_evaluation. by rewrite Htext.
Qed.

(** With a limit of no attempt, the loop is not entered: the run calls
    nothing, returns [False] and leaves the store as it was. *)
Theorem no_attempt_without_retries
    (max_retries : Z) (initial_delay : Q) (llm : nat -> llm_reply)
    (now_iso applicant_id_text : string) (s : store)
    (a : row applicant_fields) (rest : list (row applicant_fields)) :
  all (applicant_id_is applicant_id_text) (applicants_table s) = a :: rest ->
  Py.truthy_opt (Compressed_JSON (fields a)) = true ->
  already_evaluated
    (parse_timestamps (Last_Modified (fields a)) (LLM_Last_Evaluated (fields a))).1.1
    (parse_timestamps (Last_Modified (fields a)) (LLM_Last_Evaluated (fields a))).1.2
    = Some false ->
  (max_retries <= 0)%Z ->
  (evaluate_applicant_with_llm max_retries initial_delay llm now_iso applicant_id_text s).1
    = (Py.RFalse, s) /\
  Trace.llm_calls
    (evaluate_applicant_with_llm max_retries initial_delay llm now_iso applicant_id_text s).2
    = [] /\
  Trace.errors
    (evaluate_applicant_with_llm max_retries initial_delay llm now_iso applicant_id_text s).2
    = ["No LLM response content after retries for {applicant_id_text}. Cannot update Airtable."].
Proof.
  intros Hall Hjson Hstale Hmax.
  destruct (evaluation_of_stale max_retries initial_delay llm now_iso applicant_id_text s a rest
              Hall Hjson Hstale) as (Hrun & Hcalls & _).
  rewrite Hrun, Hcalls.
  replace (Z.to_nat max_retries) with 0 in * by lia. cbn [llm_attempts fst snd].
  split; [done|]. split; [done|].
  unfold evaluate_applicant_with_llm. rewrite Hall, Hjson, Hstale.
  replace (Z.to_nat max_retries) with 0 by lia. cbn [llm_attempts fst snd].
  rewrite !errors_app.
  assert (Hts : Trace.errors
                  (parse_timestamps (Last_Modified (fields a))
                                    (LLM_Last_Evaluated (fields a))).2 = []).
  { unfold parse_timestamps.
    repeat match goal with
           | |- context [if ?b then _ else _] => destruct b
           | |- context [match fromisoformat ?x with _ => _ end] => destruct (fromisoformat x)
           end; done. }
  by rewrite Hts.
Qed.

(** One timestamp with an offset and one without: the comparison of line
    130 raises [TypeError], which nothing catches.  The run ends with the
    exception before any call, the store is as it was, and the dispatcher
    lets the exception go up. *)
Theorem mixed_timestamps_raise
    (max_retries : Z) (initial_delay : Q) (llm : nat -> llm_reply)
    (now_iso applicant_id_text : string) (now : Z) (s : store)
    (a : row applicant_fields) (rest : list (row applicant_fields))
    (modified evaluated : string) (compressed_dt evaluated_dt : Py.datetime) :
  all (applicant_id_is applicant_id_text) (applicants_table s) = a :: rest ->
  Py.truthy_opt (Compressed_JSON (fields a)) = true ->
  Last_Modified (fields a) = Some modified ->
  Py.truthy modified = true ->
  fromisoformat (Py.replace_Z modified) = Some compressed_dt ->
  LLM_Last_Evaluated (fields a) = Some evaluated ->
  Py.truthy evaluated = true ->
  fromisoformat (Py.replace_Z evaluated) = Some evaluated_dt ->
  Py.aware evaluated_dt <> Py.aware compressed_dt ->
  (evaluate_applicant_with_llm max_retries initial_delay llm now_iso applicant_id_text s).1
    = (Py.Raised "TypeError", s) /\
  Trace.llm_calls
    (evaluate_applicant_with_llm max_retries initial_delay llm now_iso applicant_id_text s).2
    = [] /\
  Main.ended (Main.main now now_iso max_retries initial_delay llm Main.llm_evaluate
                        applicant_id_text s) = Some (Main.Uncaught "TypeError").
Proof.
  intros Hall Hjson Hm Hmt Hmp He Het Hep Haware.
  assert (Hrun : evaluate_applicant_with_llm max_retries initial_delay llm now_iso
                   applicant_id_text s =
                 (Py.Raised "TypeError", s,
                  [Log INFO "Evaluating applicant with LLM: {applicant_id_text} ..."])).
  { unfold evaluate_applicant_with_llm. rewrite Hall, Hjson.
    unfold parse_timestamps. rewrite Hm, He. cbn [Py.truthy_opt from_option].
    rewrite Hmt, Het, Hmp, Hep. cbn [fst snd already_evaluated]. unfold Py.datetime_ge.
    destruct (Bool.eqb _ _) eqn:E; [by apply Bool.eqb_prop in E|]. done. }
  rewrite Hrun. split; [done|]. split; [done|].
  unfold Main.main. cbv zeta. cbv iota. rewrite !block_skipped, block_run, Hrun.
  by cbn [fst snd Main.ended].
Qed.


End EvaluatorRuns.

Lemma first_answer_is_recorded_witness :
  (LlmAutomation.evaluate_applicant_with_llm (py:=Fixture.python) 3 1 Fixture.flaky
     "2024-05-03T08:00:00" "APP002" Fixture.pricey_store).1.1 = Py.RTrue /\
  (exists r1,
     Airtable.get
       (Airtable.applicants_table
          (LlmAutomation.evaluate_applicant_with_llm (py:=Fixture.python) 3 1 Fixture.flaky
             "2024-05-03T08:00:00" "APP002" Fixture.pricey_store).1.2)
       (Airtable.id Fixture.pricey) = Some r1 /\
     Airtable.LLM_Summary (Airtable.fields r1) =
       Some (LlmAutomation.summary
               (LlmAutomation.parse_llm_response (py:=Fixture.python)
                  (Py.strip "Summary: Solid."))) /\
     Airtable.LLM_Score (Airtable.fields r1) =
       LlmAutomation.score
         (LlmAutomation.parse_llm_response (py:=Fixture.python) (Py.strip "Summary: Solid.")) /\
     Airtable.LLM_Follow_Ups (Airtable.fields r1) =
       Some (LlmAutomation.follow_ups
               (LlmAutomation.parse_llm_response (py:=Fixture.python)
                  (Py.strip "Summary: Solid."))) /\
     Airtable.LLM_Last_Evaluated (Airtable.fields r1) = Some ("2024-05-03T08:00:00" +:+ "Z")) /\
  Trace.llm_calls
    (LlmAutomation.evaluate_applicant_with_llm (py:=Fixture.python) 3 1 Fixture.flaky
       "2024-05-03T08:00:00" "APP002" Fixture.pricey_store).2 = seq 0 2.
Proof.
  apply (first_answer_is_recorded (py:=Fixture.python) 3 1 Fixture.flaky
           "2024-05-03T08:00:00" "APP002" Fixture.pricey_store Fixture.pricey [] 1
           "Summary: Solid.").
  - reflexivity.
  - exact (dumps_truthy Fixture.pricey_doc).
  - reflexivity.
  - vm_compute. lia.
  - intros j Hj. destruct j; [reflexivity | lia].
  - intros j Hj. destruct j; [reflexivity | lia].
  - reflexivity.
  - reflexivity.
Defined.

Lemma blank_answer_is_not_retried_witness :
  (LlmAutomation.evaluate_applicant_with_llm (py:=Fixture.python) 3 1 Fixture.hesitant
     "2024-05-03T08:00:00" "APP002" Fixture.pricey_store).1
    = (Py.RFalse, Fixture.pricey_store) /\
  Trace.llm_calls
    (LlmAutomation.evaluate_applicant_with_llm (py:=Fixture.python) 3 1 Fixture.hesitant
       "2024-05-03T08:00:00" "APP002" Fixture.pricey_store).2 = seq 0 2.
Proof.
  apply (blank_answer_is_not_retried (py:=Fixture.python) 3 1 Fixture.hesitant
           "2024-05-03T08:00:00" "APP002" Fixture.pricey_store Fixture.pricey [] 1 "  ").
  - reflexivity.
  - exact (dumps_truthy Fixture.pricey_doc).
  - reflexivity.
  - vm_compute. lia.
  - intros j Hj. destruct j; [reflexivity | lia].
  - intros j Hj. destruct j; [reflexivity | lia].
  - reflexivity.
  - reflexivity.
Defined.

Lemma no_attempt_without_retries_witness :
  (LlmAutomation.evaluate_applicant_with_llm (py:=Fixture.python) 0 1 Fixture.answers
     "2024-05-03T08:00:00" "APP002" Fixture.pricey_store).1
    = (Py.RFalse, Fixture.pricey_store) /\
  Trace.llm_calls
    (LlmAutomation.evaluate_applicant_with_llm (py:=Fixture.python) 0 1 Fixture.answers
       "2024-05-03T08:00:00" "APP002" Fixture.pricey_store).2 = [] /\
  Trace.errors
    (LlmAutomation.evaluate_applicant_with_llm (py:=Fixture.python) 0 1 Fixture.answers
       "2024-05-03T08:00:00" "APP002" Fixture.pricey_store).2
    = ["No LLM response content after retries for {applicant_id_text}. Cannot update Airtable."].
Proof.
  apply (no_attempt_without_retries (py:=Fixture.python) 0 1 Fixture.answers
           "2024-05-03T08:00:00" "APP002" Fixture.pricey_store Fixture.pricey []).
  - reflexivity.
  - exact (dumps_truthy Fixture.pricey_doc).
  - reflexivity.
  - lia.
Defined.

Lemma mixed_timestamps_raise_witness :
  (LlmAutomation.evaluate_applicant_with_llm (py:=Fixture.python_with_naive) 3 1 Fixture.answers
     "2024-05-03T08:00:00" "APP010" Fixture.mixed_store).1
    = (Py.Raised "TypeError", Fixture.mixed_store) /\
  Trace.llm_calls
    (LlmAutomation.evaluate_applicant_with_llm (py:=Fixture.python_with_naive) 3 1 Fixture.answers
       "2024-05-03T08:00:00" "APP010" Fixture.mixed_store).2 = [] /\
  Main.ended (Main.main (py:=Fixture.python_with_naive) 20000 "2024-05-03T08:00:00" 3 1 Fixture.answers
                        Main.llm_evaluate "APP010" Fixture.mixed_store)
    = Some (Main.Uncaught "TypeError").
Proof.
  apply (mixed_timestamps_raise (py:=Fixture.python_with_naive) 3 1 Fixture.answers
           "2024-05-03T08:00:00" "APP010" 20000 Fixture.mixed_store Fixture.mixed []
           "2024-05-01T10:00:00Z" "2024-05-02T09:30:00"
           (Py.Datetime true 63876592800000000) (Py.Datetime false 63876677400000000)).
  - reflexivity.
  - exact (dumps_truthy Fixture.pricey_doc).
  - reflexivity.
  - reflexivity.
  - vm_compute. reflexivity.
  - reflexivity.
  - reflexivity.
  - vm_compute. reflexivity.
  - discriminate.
Defined.

(** ** Reading the answer *)

Section AnswerParser.
Import LlmAutomation.
Context {py : PyLib}.

Lemma strip_keeps_bullet (line : string) :
  Py.startswith bullet line = true -> Py.startswith bullet (Py.strip line) = true.
Proof.
  unfold bullet.
  destruct line as [|c1 line]; cbn [Py.startswith]; [done|].
  destruct (Ascii.eqb _ c1) eqn:E1; [|done].
  destruct line as [|c2 line]; cbn [Py.startswith]; [done|].
  destruct (Ascii.eqb _ c2) eqn:E2; [|done].
  destruct line as [|c3 s]; cbn [Py.startswith]; [done|].
  destruct (Ascii.eqb _ c3) eqn:E3; [|done].
  apply Ascii.eqb_eq in E1, E2, E3. subst. intros _.
  unfold Py.strip. cbn [Py.lstrip].
  change (Py.is_space (ascii_of_nat 226)) with false. cbv iota.
  cbn [Py.rstrip]. by destruct (Py.rstrip s).
Qed.

Lemma parse_line_bullets (st : parsing) (line : string) :
  Forall (fun l => Py.startswith bullet l = true) (p_follow_ups st) ->
  Forall (fun l => Py.startswith bullet l = true) (p_follow_ups (parse_line st line)).
Proof.
  intros Hst. unfold parse_line.
  destruct (Py.startswith "summary:" _); [done|].
  destruct (Py.startswith "score:" _); [by destruct (int_of_str _)|].
  destruct (Py.startswith "issues:" _); [done|].
  destruct (Py.startswith "follow-ups:" _); [done|].
  destruct (capture_summary st); [done|].
  destruct (capture_follow_ups st); cbn [andb]; [|done].
  destruct (Py.startswith bullet line) eqn:Hb; cbn [negb p_follow_ups]; [|done].
  apply Forall_app. split; [done|]. constructor; [|done]. by apply strip_keeps_bullet.
Qed.

(** The follow-ups that [parse_llm_response] joins are lines that start
    with a bullet: no other line of the answer gets among them, wherever it
    stands. *)
Theorem follow_ups_are_bullet_lines (response_text : string) :
  Forall (fun l => Py.startswith bullet l = true)
         (p_follow_ups (parse_llm_state response_text)) /\
  follow_ups (parse_llm_response response_text) =
    Py.strip (Py.join (String "010"%char EmptyString)
                      (p_follow_ups (parse_llm_state response_text))).
Proof.
  split; [|done]. unfold parse_llm_state.
  assert (H : forall l st,
             Forall (fun l => Py.startswith bullet l = true) (p_follow_ups st) ->
             Forall (fun l => Py.startswith bullet l = true)
                    (p_follow_ups (foldl parse_line st l))).
  { induction l as [|x l IH]; intros st Hst; [done|].
    cbn [foldl]. by apply IH, parse_line_bullets. }
  apply H. constructor.
Qed.

Lemma parse_line_no_header (line : string) :
  Spec.is_header line = false ->
  parse_line (Parsing "" None "None" [] false false []) line =
  Parsing "" None "None" [] false false [].
Proof.
  unfold Spec.is_header, parse_line. cbv zeta.
  destruct (Py.startswith "summary:" _); [done|].
  destruct (Py.startswith "score:" _); [done|].
  destruct (Py.startswith "issues:" _); [done|].
  by destruct (Py.startswith "follow-ups:" _).
Qed.

(** An answer in which no line starts a part (["Summary:"], ["Score:"],
    ["Issues:"] or ["Follow-Ups:"], in any case) parses to the defaults: an
    empty summary, no score, the issues ["None"] and no follow-ups, without
    a warning. *)
Theorem answer_without_headers_gives_defaults (response_text : string) :
  forallb (fun line => negb (Spec.is_header line)) (response_lines response_text) = true ->
  parse_llm_response response_text = Parsed "" None "None" "" /\
  p_warnings (parse_llm_state response_text) = [].
Proof.
  intros Hlines.
  assert (Hst : parse_llm_state response_text = Parsing "" None "None" [] false false []).
  { unfold parse_llm_state. induction (response_lines response_text) as [|x l IH]; [done|].
    cbn [forallb] in Hlines. apply andb_true_iff in Hlines as [Hx Hl].
    cbn [foldl]. rewrite parse_line_no_header; [by apply IH|].
    by destruct (Spec.is_header x). }
  unfold parse_llm_response. by rewrite Hst.
Qed.

End AnswerParser.

Lemma answer_without_headers_gives_defaults_witness :
  LlmAutomation.parse_llm_response (py:=Fixture.python)
    "The applicant is a developer. Summary: unknown" =
    LlmAutomation.Parsed "" None "None" "" /\
  LlmAutomation.p_warnings
    (LlmAutomation.parse_llm_state (py:=Fixture.python)
       "The applicant is a developer. Summary: unknown") = [].
Proof.
  apply (answer_without_headers_gives_defaults (py:=Fixture.python)
           "The applicant is a developer. Summary: unknown").
  reflexivity.
Defined.

(** ** More of the compressor and of the decompressor *)

Section CompressorSucceeds.
Import Airtable Store JsonAutomation.
Context {py : PyLib}.

(** The compressor succeeds whatever is linked.  When the applicant's
    record exists the run returns [True] and the record holds the document
    serialised, also when a link is missing or leads to no record: a
    section without a first link is empty, and without a linked identifier
    the array is empty. *)
Theorem compress_succeeds_whatever_is_linked (applicant_id_text : string) (s : store)
    (a : row applicant_fields) (rest : list (row applicant_fields)) :
  all (applicant_id_is applicant_id_text) (applicants_table s) = a :: rest ->
  (compress_applicant_data applicant_id_text s).1.1 = Py.RTrue /\
  (exists r1,
     get (applicants_table (compress_applicant_data applicant_id_text s).1.2) (id a)
       = Some r1 /\
     Compressed_JSON (fields r1) = Some (json_dumps (compressed_data a s))) /\
  (get_first_linked_record_id (Personal_Details (fields a)) = None ->
   Snapshot.personal_section (compressed_data a s) = None) /\
  (get_all_linked_record_ids (Work_Experience (fields a)) = [] ->
   Snapshot.experience_section (compressed_data a s) = []) /\
  (get_first_linked_record_id (Salary_Preferences (fields a)) = None ->
   Snapshot.salary_section (compressed_data a s) = None).
Proof.
  intros Hall. destruct (all_head_get _ _ _ _ Hall) as [r0 Hget].
  unfold compress_applicant_data. rewrite Hall.
  destruct (update_Some _ _ _
              (patch_applicant
                 (ApplicantFields None None None None
                    (Some (json_dumps (compressed_data a s))) None None None None None None))
              Hget) as (t' & -> & Hg & _ & _).
  cbn [fst snd applicants_table with_applicants].
  split; [done|]. split; [by eexists|].
  unfold compressed_data, compress_personal, compress_experience, compress_salary.
  cbn [Snapshot.personal_section Snapshot.experience_section Snapshot.salary_section].
  repeat split; by intros ->.
Qed.

End CompressorSucceeds.

Lemma compress_succeeds_whatever_is_linked_witness :
  (JsonAutomation.compress_applicant_data (py:=Fixture.python) "APP002"
     Fixture.pricey_store).1.1 = Py.RTrue /\
  (exists r1,
     Airtable.get
       (Airtable.applicants_table
          (JsonAutomation.compress_applicant_data (py:=Fixture.python) "APP002"
             Fixture.pricey_store).1.2) (Airtable.id Fixture.pricey) = Some r1 /\
     Airtable.Compressed_JSON (Airtable.fields r1) =
       Some (json_dumps (PyLib:=Fixture.python)
               (JsonAutomation.compressed_data Fixture.pricey Fixture.pricey_store))) /\
  Snapshot.experience_section
    (JsonAutomation.compressed_data Fixture.pricey Fixture.pricey_store) = [].
Proof.
  destruct (compress_succeeds_whatever_is_linked (py:=Fixture.python) "APP002"
              Fixture.pricey_store Fixture.pricey [] eq_refl) as (H1 & H2 & _ & H3 & _).
  exact (conj H1 (conj H2 (H3 eq_refl))).
Defined.

Section PersonalUpsert.
Import Airtable Store JsonAutomation Invariants.

(** An applicant who links no Personal Details record, and a snapshot with
    a personal section: the decompressor adds one record to the table, with
    an identifier that no record had, the values of the section and the
    link back to the applicant; and the applicant's record links it and no
    other. *)
Theorem missing_personal_record_is_created (a : row applicant_fields)
    (d : Snapshot.personal) (s : store) :
  get (applicants_table s) (id a) = Some a ->
  linked_ids (Personal_Details (fields a)) = [] ->
  exists new,
    (new ∉ List.map id (personal_details_table s)) /\
    personal_details_table (decompress_personal a (Some d) s).1 =
      personal_details_table s ++
      [Row new (PersonalFields (Snapshot.name d) (Snapshot.email d) (Snapshot.location d)
                               (Snapshot.linkedin d) (Some [LinkStr (id a)]))] /\
    (exists a1,
       get (applicants_table (decompress_personal a (Some d) s).1) (id a) = Some a1 /\
       linked_ids (Personal_Details (fields a1)) = [new]).
Proof.
  intros Hget Hnone.
  set (new := new_id (List.map id (personal_details_table s))).
  exists new. split; [apply new_id_fresh|].
  assert (Hfirst : Py.truthy_opt (get_first_linked_record_id (Personal_Details (fields a)))
                   = false).
  { destruct (Personal_Details (fields a)) as [[|[i|[i|]|] items]|]; try done. }
  unfold decompress_personal. rewrite Hfirst.
  unfold link_child_to_applicant, link, child_side, create.
  cbn [fst snd id personal_details_table with_personal]. fold new.
  rewrite (update_fresh_last new _ (personal_details_table s) (Row new _)
             (new_id_fresh _) eq_refl).
  cbn [applicants_table with_personal fields].
  destruct (update_Some _ _ _ (applicant_side PersonalDetails (add_link new)) Hget)
    as (t' & -> & Hg & _ & _).
  cbn [fst snd personal_details_table applicants_table with_applicants with_personal].
  split; [done|]. eexists. split; [exact Hg|].
  cbn [fields applicant_side Personal_Details].
  rewrite linked_ids_add_link; rewrite Hnone; [done | apply not_elem_of_nil].
Qed.

(** An applicant whose first Personal Details link is a record of the
    table: the decompressor writes the values of the section that are not
    [null] on that record, keeps the others and the record's identifier,
    creates no record and leaves the applicants as they were. *)
Theorem linked_personal_record_is_updated (a : row applicant_fields)
    (d : Snapshot.personal) (s : store) (i : rid) (r : row personal_fields) :
  get_first_linked_record_id (Personal_Details (fields a)) = Some i ->
  Py.truthy i = true ->
  get (personal_details_table s) i = Some r ->
  get (personal_details_table (decompress_personal a (Some d) s).1) i =
    Some (Row i (PersonalFields (keep (Snapshot.name d) (Full_Name (fields r)))
                                (keep (Snapshot.email d) (Email (fields r)))
                                (keep (Snapshot.location d) (Location (fields r)))
                                (keep (Snapshot.linkedin d) (LinkedIn (fields r)))
                                (Personal_Applicant (fields r)))) /\
  List.map id (personal_details_table (decompress_personal a (Some d) s).1) =
    List.map id (personal_details_table s) /\
  applicants_table (decompress_personal a (Some d) s).1 = applicants_table s.
Proof.
  intros Hfirst Htruthy Hget. unfold decompress_personal.
  rewrite Hfirst. cbn [Py.truthy_opt from_option]. rewrite Htruthy.
  destruct (update_Some _ _ _
              (patch_personal
                 (PersonalFields (Snapshot.name d) (Snapshot.email d) (Snapshot.location d)
                                 (Snapshot.linkedin d) None)) Hget)
    as (t' & -> & Hg & Hids & _).
  cbn [fst personal_details_table applicants_table with_personal]. by split.
Qed.

End PersonalUpsert.

Section EvaluatorSnapshot.
Import Airtable Store LlmAutomation.
Context {py : PyLib}.

(** Without a snapshot there is no evaluation: the run returns [False]
    before any timestamp is read or any call made, leaves the store as it
    was and logs a warning, not an error; the dispatcher exits with -1. *)
Theorem evaluation_needs_a_snapshot
    (max_retries : Z) (initial_delay : Q) (llm : nat -> llm_reply)
    (now_iso applicant_id_text : string) (now : Z) (s : store)
    (a : row applicant_fields) (rest : list (row applicant_fields)) :
  all (applicant_id_is applicant_id_text) (applicants_table s) = a :: rest ->
  Py.truthy_opt (Compressed_JSON (fields a)) = false ->
  (evaluate_applicant_with_llm max_retries initial_delay llm now_iso applicant_id_text s).1
    = (Py.RFalse, s) /\
  Trace.llm_calls
    (evaluate_applicant_with_llm max_retries initial_delay llm now_iso applicant_id_text s).2
    = [] /\
  Trace.errors
    (evaluate_applicant_with_llm max_retries initial_delay llm now_iso applicant_id_text s).2
    = [] /\
  Main.ended (Main.main now now_iso max_retries initial_delay llm Main.llm_evaluate
                        applicant_id_text s) = Some (Main.SysExit (-1)).
Proof.
  intros Hall Hjson.
  assert (Hrun : evaluate_applicant_with_llm max_retries initial_delay llm now_iso
                   applicant_id_text s =
                 (Py.RFalse, s,
                  [Log INFO "Evaluating applicant with LLM: {applicant_id_text} ...";
                   Log WARNING "No 'Compressed JSON' found for Applicant ID: {applicant_id_text}. Skipping LLM evaluation."])).
  { unfold evaluate_applicant_with_llm. by rewrite Hall, Hjson. }
  rewrite Hrun. split; [done|]. split; [done|]. split; [done|].
  unfold Main.main. cbv zeta. cbv iota. rewrite !block_skipped, block_run, Hrun.
  by cbn [fst snd Main.ended Main.success].
Qed.

End EvaluatorSnapshot.

Lemma evaluation_needs_a_snapshot_witness :
  (LlmAutomation.evaluate_applicant_with_llm (py:=Fixture.python) 3 1 Fixture.answers
     "2024-05-03T08:00:00" "APP001" Fixture.base).1 = (Py.RFalse, Fixture.base) /\
  Trace.llm_calls
    (LlmAutomation.evaluate_applicant_with_llm (py:=Fixture.python) 3 1 Fixture.answers
       "2024-05-03T08:00:00" "APP001" Fixture.base).2 = [] /\
  Trace.errors
    (LlmAutomation.evaluate_applicant_with_llm (py:=Fixture.python) 3 1 Fixture.answers
       "2024-05-03T08:00:00" "APP001" Fixture.base).2 = [] /\
  Main.ended (Main.main (py:=Fixture.python) 20000 "2024-05-03T08:00:00" 3 1 Fixture.answers
                        Main.llm_evaluate "APP001" Fixture.base) = Some (Main.SysExit (-1)).
Proof.
  apply (evaluation_needs_a_snapshot (py:=Fixture.python) 3 1 Fixture.answers
           "2024-05-03T08:00:00" "APP001" 20000 Fixture.base Fixture.ann []).
  - reflexivity.
  - reflexivity.
Defined.

Lemma missing_personal_record_is_created_witness :
  exists new,
    (new ∉ List.map Airtable.id (Airtable.personal_details_table Fixture.keen_store)) /\
    Airtable.personal_details_table
      (JsonAutomation.decompress_personal Fixture.keen
         (Some (Snapshot.Personal (Some "Cy Diaz") None (Some "Berlin, Germany") None))
         Fixture.keen_store).1 =
      Airtable.personal_details_table Fixture.keen_store ++
      [Airtable.Row new
         (Airtable.PersonalFields (Some "Cy Diaz") None (Some "Berlin, Germany") None
            (Some [Airtable.LinkStr (Airtable.id Fixture.keen)]))] /\
    (exists a1,
       Airtable.get
         (Airtable.applicants_table
            (JsonAutomation.decompress_personal Fixture.keen
               (Some (Snapshot.Personal (Some "Cy Diaz") None (Some "Berlin, Germany") None))
               Fixture.keen_store).1) (Airtable.id Fixture.keen) = Some a1 /\
       Airtable.linked_ids (Airtable.Personal_Details (Airtable.fields a1)) = [new]).
Proof.
  apply (missing_personal_record_is_created Fixture.keen
           (Snapshot.Personal (Some "Cy Diaz") None (Some "Berlin, Germany") None)
           Fixture.keen_store).
  - reflexivity.
  - reflexivity.
Defined.

Lemma linked_personal_record_is_updated_witness :
  Airtable.get
    (Airtable.personal_details_table
       (JsonAutomation.decompress_personal Fixture.ann
          (Some (Snapshot.Personal (Some "Ann Lee-Park") None None None)) Fixture.base).1)
    "recP1" =
    Some (Airtable.Row "recP1"
            (Airtable.PersonalFields
               (Store.keep (Some "Ann Lee-Park")
                           (Airtable.Full_Name (Airtable.fields Fixture.ann_personal)))
               (Store.keep None (Airtable.Email (Airtable.fields Fixture.ann_personal)))
               (Store.keep None (Airtable.Location (Airtable.fields Fixture.ann_personal)))
               (Store.keep None (Airtable.LinkedIn (Airtable.fields Fixture.ann_personal)))
               (Airtable.Personal_Applicant (Airtable.fields Fixture.ann_personal)))) /\
  List.map Airtable.id
    (Airtable.personal_details_table
       (JsonAutomation.decompress_personal Fixture.ann
          (Some (Snapshot.Personal (Some "Ann Lee-Park") None None None)) Fixture.base).1) =
    List.map Airtable.id (Airtable.personal_details_table Fixture.base) /\
  Airtable.applicants_table
    (JsonAutomation.decompress_personal Fixture.ann
       (Some (Snapshot.Personal (Some "Ann Lee-Park") None None None)) Fixture.base).1
    = Airtable.applicants_table Fixture.base.
Proof.
  apply (linked_personal_record_is_updated Fixture.ann
           (Snapshot.Personal (Some "Ann Lee-Park") None None None) Fixture.base
           "recP1" Fixture.ann_personal).
  - reflexivity.
  - reflexivity.
  - reflexivity.
Defined.


(** ** Snapshots of another shape *)

Section OtherShapes.
Import Airtable Store JsonAutomation ShortlistAutomation.
Context {py : PyLib}.



End OtherShapes.



(** The run on that snapshot leaves a Personal Details record behind. *)
Lemma null_experience_leaves_a_personal_record :
  Airtable.personal_details_table Fixture.jobless_store = [] /\
  List.map Airtable.fields
    (Airtable.personal_details_table
       (JsonAutomation.decompress_applicant_data (py:=Fixture.python) "APP012"
          Fixture.jobless_store).1.2) =
    [Airtable.PersonalFields (Some "Di Evans") None (Some "Leeds, UK") None
       (Some [Airtable.LinkStr "recA12"])].
Proof. by vm_compute. Qed.
